(** * Kenya Elections dashboard: the data-shaping code of [app.py]

    A shallow embedding of the parts of [app.py] that reshape the loaded
    JSON documents before they are handed to the charting layer: the county
    name resolver, the document loaders, the per-view aggregations and the
    page dispatch.

    - A Python object is a [value]; a [dict] is an association list in
      insertion order, with string keys; a string is a sequence of 8-bit
      characters, which agrees with Python on ASCII text.
    - An [int] is a [Z]. A [float] is an IEEE 754 binary64 number, a
      [spec_float] with 53 bits of precision; every operation rounds to
      nearest, ties to even, as the hardware does.
    - An exception is the [Raise] branch of [result]; a run of the script
      is the list of elements it shows together with its [result].
    - pandas, plotly, the JSON parser and the ordering of arbitrary values
      ([max], [min], [sorted]) are parameters of the page script. *)

From Stdlib Require Import ZArith List String Ascii Bool Lia Permutation.
From Stdlib Require Import Floats.SpecFloat.
From Stdlib Require Import DecimalString.
Import ListNotations.

Local Open Scope string_scope.
Local Open Scope Z_scope.

Set Implicit Arguments.
Set Warnings "-register-all".


(** ** Python values *)

(** What [json.load] can return. *)
Inductive value :=
| VNone
| VBool (b : bool)
| VInt (z : Z)
| VFloat (f : spec_float)
| VStr (s : string)
| VList (l : list value)
| VDict (d : list (string * value)).

(** The exceptions the modelled code can raise. *)
Inductive exn :=
| KeyError (key : value)
| TypeError
| AttributeError
| ValueError
| IndexError
| ZeroDivisionError
| OverflowError
| FileNotFoundError
| JSONDecodeError (message : string).

Inductive result (A : Type) :=
| Ok (a : A)
| Raise (e : exn).

Arguments Ok {A} a.
Arguments Raise {A} e.

Definition bind {A B} (m : result A) (k : A -> result B) : result B :=
  match m with
  | Ok a => k a
  | Raise e => Raise e
  end.

Notation "x <- m ;; k" := (bind m (fun x => k))
  (at level 61, m at next level, right associativity).

Definition rmap {A B} (f : A -> B) (m : result A) : result B :=
  x <- m ;; Ok (f x).

(** A [for] loop that builds a list, one element per item, and stops at the
    first exception. *)
Fixpoint mapM {A B} (f : A -> result B) (l : list A) : result (list B) :=
  match l with
  | [] => Ok []
  | a :: l' => b <- f a ;; bs <- mapM f l' ;; Ok (b :: bs)
  end.

(** A comprehension with a condition: the items for which [p] holds. *)
Fixpoint filterM {A} (p : A -> result bool) (l : list A) : result (list A) :=
  match l with
  | [] => Ok []
  | a :: l' =>
      b <- p a ;; r <- filterM p l' ;; Ok (if b then a :: r else r)
  end.

(** A [for] loop that updates an accumulator. *)
Fixpoint foldM {A S} (f : S -> A -> result S) (l : list A) (s : S) : result S :=
  match l with
  | [] => Ok s
  | a :: l' => s' <- f s a ;; foldM f l' s'
  end.

(** ** Dictionaries *)

Section Dict.
Variable V : Type.

Definition dict := list (string * V).

Fixpoint dict_lookup (k : string) (d : dict) : option V :=
  match d with
  | [] => None
  | (k', v) :: d' => if String.eqb k k' then Some v else dict_lookup k d'
  end.

(** [d[k] = v]: an existing key keeps its position. *)
Fixpoint dict_set (k : string) (v : V) (d : dict) : dict :=
  match d with
  | [] => [(k, v)]
  | (k', v') :: d' =>
      if String.eqb k k' then (k', v) :: d' else (k', v') :: dict_set k v d'
  end.

(** [d.get(k, default)] *)
Definition dict_get (k : string) (default : V) (d : dict) : V :=
  match dict_lookup k d with
  | Some v => v
  | None => default
  end.

Definition dict_keys (d : dict) : list string := map fst d.

Definition dict_mem (k : string) (d : dict) : bool :=
  match dict_lookup k d with
  | Some _ => true
  | None => false
  end.

End Dict.

Arguments dict_lookup {V} k d.
Arguments dict_set {V} k v d.
Arguments dict_get {V} k default d.
Arguments dict_keys {V} d.
Arguments dict_mem {V} k d.

(** ** Name resolver *)

(** County name mapping (data name -> GeoJSON name). *)
Definition COUNTY_NAME_MAP : dict string :=
  [("Elgeyo Marakwet", "Keiyo-Marakwet");
   ("Tharaka Nithi", "Tharaka")].

(** [{v: k for k, v in m.items()}] *)
Definition invert_dict (m : dict string) : dict string :=
  fold_left (fun acc kv => dict_set (snd kv) (fst kv) acc) m [].

(** Reverse mapping (GeoJSON name -> data name). *)
Definition GEOJSON_TO_DATA_MAP : dict string := invert_dict COUNTY_NAME_MAP.

Definition get_geojson_name (data_name : string) : string :=
  dict_get data_name data_name COUNTY_NAME_MAP.

Definition get_data_name (geojson_name : string) : string :=
  dict_get geojson_name geojson_name GEOJSON_TO_DATA_MAP.

(** ** Numbers *)

Definition prec : Z := 53.
Definition emax : Z := 1024.

Definition fadd : spec_float -> spec_float -> spec_float := SFadd prec emax.
Definition fsub : spec_float -> spec_float -> spec_float := SFsub prec emax.
Definition fmul : spec_float -> spec_float -> spec_float := SFmul prec emax.
Definition fdiv : spec_float -> spec_float -> spec_float := SFdiv prec emax.
Definition fabs : spec_float -> spec_float := SFabs.

(** An integer as an exact operand of a float operation (mantissa [z],
    exponent 0); the operation rounds the result. *)
Definition exact_int (z : Z) : spec_float :=
  match z with
  | Z0 => S754_zero false
  | Zpos p => S754_finite false p 0
  | Zneg p => S754_finite true p 0
  end.

(** [float(z)]: the nearest binary64 number, ties to even. *)
Definition float_of_int (z : Z) : result spec_float :=
  match binary_normalize prec emax z 0 false with
  | S754_infinity _ => Raise OverflowError
  | f => Ok f
  end.

(** The float that [json.load] reads from the decimal literal [m]e[e10]:
    the binary64 number nearest to [m * 10 ^ e10]. *)
Definition json_float (m : Z) (e10 : Z) : spec_float :=
  if 0 <=? e10 then binary_normalize prec emax (m * 10 ^ e10) 0 false
  else fdiv (exact_int m) (exact_int (10 ^ (- e10))).

Inductive number :=
| NInt (z : Z)
| NFloat (f : spec_float).

(** [bool] is a subclass of [int]. *)
Definition as_number (v : value) : option number :=
  match v with
  | VBool b => Some (NInt (if b then 1 else 0))
  | VInt z => Some (NInt z)
  | VFloat f => Some (NFloat f)
  | _ => None
  end.

Definition to_float (n : number) : result spec_float :=
  match n with
  | NInt z => float_of_int z
  | NFloat f => Ok f
  end.

Definition float_binop (op : spec_float -> spec_float -> spec_float)
    (a b : number) : result value :=
  x <- to_float a ;; y <- to_float b ;; Ok (VFloat (op x y)).

Fixpoint string_repeat (n : nat) (s : string) : string :=
  match n with
  | O => ""
  | S n' => s ++ string_repeat n' s
  end.

Fixpoint list_repeat {A} (n : nat) (l : list A) : list A :=
  match n with
  | O => []
  | S n' => l ++ list_repeat n' l
  end.

(** [a + b] *)
Definition py_add (a b : value) : result value :=
  match as_number a, as_number b with
  | Some (NInt x), Some (NInt y) => Ok (VInt (x + y))
  | Some x, Some y => float_binop fadd x y
  | _, _ =>
      match a, b with
      | VStr s, VStr t => Ok (VStr (s ++ t))
      | VList l, VList m => Ok (VList (l ++ m))
      | _, _ => Raise TypeError
      end
  end.

(** [a - b] *)
Definition py_sub (a b : value) : result value :=
  match as_number a, as_number b with
  | Some (NInt x), Some (NInt y) => Ok (VInt (x - y))
  | Some x, Some y => float_binop fsub x y
  | _, _ => Raise TypeError
  end.

(** [a * b]; a sequence times an integer is repeated. *)
Definition py_mul (a b : value) : result value :=
  match as_number a, as_number b with
  | Some (NInt x), Some (NInt y) => Ok (VInt (x * y))
  | Some x, Some y => float_binop fmul x y
  | Some (NInt n), None | None, Some (NInt n) =>
      match a, b with
      | VStr s, _ | _, VStr s => Ok (VStr (string_repeat (Z.to_nat n) s))
      | VList l, _ | _, VList l => Ok (VList (list_repeat (Z.to_nat n) l))
      | _, _ => Raise TypeError
      end
  | _, _ => Raise TypeError
  end.

Definition is_zero (f : spec_float) : bool :=
  match f with
  | S754_zero _ => true
  | _ => false
  end.

Definition is_finite (f : spec_float) : bool :=
  match f with
  | S754_zero _ | S754_finite _ _ _ => true
  | _ => false
  end.

(** [a / b]: true division always gives a float; of two integers it is the
    correctly rounded quotient. *)
Definition py_truediv (a b : value) : result spec_float :=
  match as_number a, as_number b with
  | Some (NInt x), Some (NInt y) =>
      if y =? 0 then Raise ZeroDivisionError
      else match fdiv (exact_int x) (exact_int y) with
           | S754_infinity _ => Raise OverflowError
           | q => Ok q
           end
  | Some x, Some y =>
      fx <- to_float x ;; fy <- to_float y ;;
      if is_zero fy then Raise ZeroDivisionError else Ok (fdiv fx fy)
  | _, _ => Raise TypeError
  end.

Definition signed_mantissa (s : bool) (m : positive) : Z :=
  if s then Zneg m else Zpos m.

(** [int(f)]: the integer part, towards zero. *)
Definition py_int (f : spec_float) : result Z :=
  match f with
  | S754_nan => Raise ValueError
  | S754_infinity _ => Raise OverflowError
  | S754_zero _ => Ok 0
  | S754_finite s m e =>
      Ok (if 0 <=? e then signed_mantissa s m * 2 ^ e
          else Z.quot (signed_mantissa s m) (2 ^ (- e)))
  end.

(** [math.floor(f)]: the largest integer not above [f]. *)
Definition float_floor (f : spec_float) : result Z :=
  match f with
  | S754_nan => Raise ValueError
  | S754_infinity _ => Raise OverflowError
  | S754_zero _ => Ok 0
  | S754_finite s m e =>
      Ok (if 0 <=? e then signed_mantissa s m * 2 ^ e
          else Z.div (signed_mantissa s m) (2 ^ (- e)))
  end.


(** *** The builtin [sum] *)

(** The language reference has [sum] add the items from left to right;
    CPython from 3.12 on keeps a compensation term while the running total
    and the items are floats (Neumaier's variant of Kahan summation). The
    repository does not pin an interpreter, so both are modelled. *)
Inductive sum_algorithm := LeftToRight | Compensated.

(** The range of a C [long] (LP64). *)
Definition fits_long (z : Z) : bool := (- 2 ^ 63 <=? z) && (z <? 2 ^ 63).

Definition add_compensation (f c : spec_float) : spec_float :=
  if negb (is_zero c) && is_finite c then fadd f c else f.

(** The float loop of the compensated [sum]: running total [f],
    compensation [c]. *)
Fixpoint sum_float_loop (items : list value) (f c : spec_float) : result value :=
  match items with
  | [] => Ok (VFloat (add_compensation f c))
  | VFloat x :: rest =>
      let t := fadd f x in
      let c' := if SFleb (fabs x) (fabs f)
                then fadd c (fadd (fsub f t) x)
                else fadd c (fadd (fsub x t) f) in
      sum_float_loop rest t c'
  | item :: rest =>
      match as_number item with
      | Some (NInt z) =>
          if fits_long z then
            x <- float_of_int z ;; sum_float_loop rest (fadd f x) c
          else
            r <- py_add (VFloat (add_compensation f c)) item ;;
            foldM py_add rest r
      | _ => Raise TypeError
      end
  end.

(** The integer loop that [sum] starts in: running total [i]. *)
Fixpoint sum_int_loop (items : list value) (i : Z) : result value :=
  match items with
  | [] => Ok (VInt i)
  | item :: rest =>
      match item with
      | VInt _ | VBool _ =>
          match as_number item with
          | Some (NInt z) =>
              if fits_long z && fits_long (i + z) then sum_int_loop rest (i + z)
              else r <- py_add (VInt i) item ;; foldM py_add rest r
          | _ => Raise TypeError
          end
      | _ =>
          r <- py_add (VInt i) item ;;
          match r with
          | VFloat f => sum_float_loop rest f (S754_zero false)
          | _ => foldM py_add rest r
          end
      end
  end.

(** [sum(items)], with the start value 0. *)
Definition py_sum (alg : sum_algorithm) (items : list value) : result value :=
  match alg with
  | LeftToRight => foldM py_add items (VInt 0)
  | Compensated => sum_int_loop items 0
  end.

(** *** Formatting numbers *)

Definition digits_of (n : Z) : string :=
  NilZero.string_of_uint (N.to_uint (Z.to_N n)).

(** [str(z)] *)
Definition int_to_string (z : Z) : string :=
  if z <? 0 then "-" ++ digits_of (- z) else digits_of z.

(** The integer nearest to [num / den], ties to even. *)
Definition round_half_even (num den : Z) : Z :=
  let q := num / den in
  let r := num mod den in
  match 2 * r ?= den with
  | Lt => q
  | Gt => q + 1
  | Eq => if Z.even q then q else q + 1
  end.

(** [n] units of [10 ^ -digits], written with a decimal point. *)
Definition place_point (digits : nat) (n : Z) : string :=
  let s := digits_of n in
  let s := string_repeat (S digits - String.length s) "0" ++ s in
  let k := (String.length s - digits)%nat in
  match digits with
  | O => s
  | _ => substring 0 k s ++ "." ++ substring k digits s
  end.

Definition sign_prefix (plus : bool) (s : bool) : string :=
  if s then "-" else if plus then "+" else "".

(** [format(f, '.<digits>f')], or ['+.<digits>f'] when [plus] is set: the
    decimal with [digits] fractional digits nearest to the exact value of
    [f], ties to even. *)
Definition format_float_fixed (plus : bool) (digits : nat) (f : spec_float) : string :=
  match f with
  | S754_nan => sign_prefix plus false ++ "nan"
  | S754_infinity s => sign_prefix plus s ++ "inf"
  | S754_zero s => sign_prefix plus s ++ place_point digits 0
  | S754_finite s m e =>
      let scale := 10 ^ Z.of_nat digits in
      let n := if 0 <=? e then Zpos m * 2 ^ e * scale
               else round_half_even (Zpos m * scale) (2 ^ (- e)) in
      sign_prefix plus s ++ place_point digits n
  end.

(** [f"{v:.<digits>f}"] and [f"{v:+.<digits>f}"] *)
Definition format_fixed (plus : bool) (digits : nat) (v : value) : result string :=
  match v with
  | VStr _ => Raise ValueError
  | _ =>
      match as_number v with
      | Some n => f <- to_float n ;; Ok (format_float_fixed plus digits f)
      | None => Raise TypeError
      end
  end.

(** Digits in groups of three, from the right. *)
Fixpoint group_thousands (fuel : nat) (s : string) : string :=
  match fuel with
  | O => s
  | S fuel' =>
      let n := String.length s in
      if (n <=? 3)%nat then s
      else group_thousands fuel' (substring 0 (n - 3) s) ++ ","
           ++ substring (n - 3) 3 s
  end.

(** [f"{z:,}"] for an integer. *)
Definition format_int_comma (z : Z) : string :=
  let s := digits_of (Z.abs z) in
  (if z <? 0 then "-" else "") ++ group_thousands (String.length s) s.

(** ** Access to containers *)

(** The position that the index [i] denotes in a sequence of [len] items;
    a negative index counts from the end. *)
Definition index_of (len : nat) (i : Z) : option nat :=
  let j := if i <? 0 then i + Z.of_nat len else i in
  if (0 <=? j) && (j <? Z.of_nat len) then Some (Z.to_nat j) else None.

Definition chars (s : string) : list value :=
  map (fun c => VStr (String c EmptyString)) (list_ascii_of_string s).

(** [container[key]] *)
Definition py_getitem (container key : value) : result value :=
  match container with
  | VDict d =>
      match key with
      | VStr k =>
          match dict_lookup k d with
          | Some v => Ok v
          | None => Raise (KeyError key)
          end
      | VList _ | VDict _ => Raise TypeError
      | _ => Raise (KeyError key)
      end
  | VList _ | VStr _ =>
      let items := match container with
                   | VList l => l
                   | VStr s => chars s
                   | _ => []
                   end in
      match key with
      | VInt _ | VBool _ =>
          match as_number key with
          | Some (NInt i) =>
              match index_of (List.length items) i with
              | Some n =>
                  match nth_error items n with
                  | Some v => Ok v
                  | None => Raise IndexError
                  end
              | None => Raise IndexError
              end
          | _ => Raise TypeError
          end
      | _ => Raise TypeError
      end
  | _ => Raise TypeError
  end.

Notation "c .[ k ]" := (py_getitem c (VStr k))
  (at level 1, format "c .[ k ]").

(** [container.get(k, default)]; only a [dict] has the method. *)
Definition py_get (container : value) (k : string) (default : value) : result value :=
  match container with
  | VDict d => Ok (dict_get k default d)
  | _ => Raise AttributeError
  end.

(** [container.items()] *)
Definition py_items (container : value) : result (list (string * value)) :=
  match container with
  | VDict d => Ok d
  | _ => Raise AttributeError
  end.

(** [list(container.keys())] *)
Definition py_keys (container : value) : result (list string) :=
  match container with
  | VDict d => Ok (dict_keys d)
  | _ => Raise AttributeError
  end.

(** The items that [for x in container] visits. *)
Definition py_iter (container : value) : result (list value) :=
  match container with
  | VDict d => Ok (map VStr (dict_keys d))
  | VList l => Ok l
  | VStr s => Ok (chars s)
  | _ => Raise TypeError
  end.

(** [len(container)] *)
Definition py_len (container : value) : result Z :=
  match container with
  | VDict d => Ok (Z.of_nat (List.length d))
  | VList l => Ok (Z.of_nat (List.length l))
  | VStr s => Ok (Z.of_nat (String.length s))
  | _ => Raise TypeError
  end.

(** [v == s] for a string [s] *)
Definition py_eq_str (v : value) (s : string) : bool :=
  match v with
  | VStr t => String.eqb t s
  | _ => false
  end.

(** [v in [s1, s2, ...]] for a list of strings *)
Definition py_in_strings (v : value) (l : list string) : bool :=
  existsb (py_eq_str v) l.

(** [key in d] for a dictionary with string keys; the key is hashed. *)
Definition py_in_dict {V} (key : value) (d : dict V) : result bool :=
  match key with
  | VStr k => Ok (dict_mem k d)
  | VList _ | VDict _ => Raise TypeError
  | _ => Ok false
  end.

Definition empty_dict : value := VDict [].

(** ** Interactive Map: one row per county *)

(** [county_info[a][b]] *)
Definition subscript2 (county_info : value) (a b : string) : result value :=
  x <- county_info.[a] ;; x.[b].

(** The [county_dict] of one iteration. *)
Definition county_dict (county_name : string) (county_info : value)
    : result (dict value) :=
  let geojson_name := get_geojson_name county_name in
  swing <- subscript2 county_info "prediction_2027" "swing_potential" ;;
  ruto <- subscript2 county_info "results_2022" "Ruto" ;;
  odinga <- subscript2 county_info "results_2022" "Odinga" ;;
  voters <- subscript2 county_info "prediction_2027" "projected_voters" ;;
  youth <- county_info.["youth_percentage"] ;;
  turnout <- subscript2 county_info "results_2022" "turnout" ;;
  trend <- subscript2 county_info "prediction_2027" "trend" ;;
  Ok [("County", VStr geojson_name);
      ("Display_Name", VStr county_name);
      ("Swing_Potential", swing);
      ("Ruto_2022", ruto);
      ("Odinga_2022", odinga);
      ("Projected_Voters_2027", voters);
      ("Youth_Percentage", youth);
      ("Turnout_2022", turnout);
      ("Trend_2027", trend)].

Definition map_data (county_data : value) : result (list (dict value)) :=
  counties <- county_data.["counties"] ;;
  items <- py_items counties ;;
  mapM (fun kv => county_dict (fst kv) (snd kv)) items.

(** ** Turnout Trends *)

Definition election_years : list Z := [2002; 2007; 2013; 2017; 2022].

Record turnout_lists := {
  years : list Z;
  turnouts : list value;
  registered : list value;
  votes_cast : list value
}.

Definition turnout_loop_step (data : value) (acc : turnout_lists) (year : Z)
    : result turnout_lists :=
  elections <- data.["elections"] ;;
  election <- elections.[int_to_string year] ;;
  turnout <- election.["turnout"] ;;
  reg <- election.["registered_voters"] ;;
  cast <- election.["votes_cast"] ;;
  Ok {| years := (years acc ++ [year])%list;
        turnouts := (turnouts acc ++ [turnout])%list;
        registered := (registered acc ++ [reg])%list;
        votes_cast := (votes_cast acc ++ [cast])%list |}.

Definition turnout_loop (data : value) : result turnout_lists :=
  foldM (turnout_loop_step data) election_years
    {| years := []; turnouts := []; registered := []; votes_cast := [] |}.

(** [sum(turnouts)/len(turnouts)] *)
Definition mean (alg : sum_algorithm) (xs : list value) : result spec_float :=
  total <- py_sum alg xs ;;
  py_truediv total (VInt (Z.of_nat (List.length xs))).

Definition average_turnout (alg : sum_algorithm) (data : value) : result spec_float :=
  lists <- turnout_loop data ;;
  mean alg (turnouts lists).

(** The value of the "Average Turnout" metric: [f"{...:.2f}%"]. *)
Definition average_turnout_metric (alg : sum_algorithm) (data : value)
    : result string :=
  avg <- average_turnout alg data ;;
  Ok (format_float_fixed false 2 avg ++ "%").

(** ** Regional Patterns *)

Record regional_columns := {
  regions : list string;
  kibaki_votes : list value;
  kenyatta_votes : list value;
  nyachae_votes : list value
}.

Definition candidate_column (regional_data : value) (candidate : string)
    (regions : list string) : result (list value) :=
  mapM (fun r => x <- regional_data.[r] ;; x.[candidate]) regions.

Definition regional_patterns (data : value) : result regional_columns :=
  elections <- data.["elections"] ;;
  election_2002 <- elections.["2002"] ;;
  regional_data <- election_2002.["regional"] ;;
  regions <- py_keys regional_data ;;
  kibaki <- candidate_column regional_data "Kibaki" regions ;;
  kenyatta <- candidate_column regional_data "Kenyatta" regions ;;
  nyachae <- candidate_column regional_data "Nyachae" regions ;;
  Ok {| regions := regions; kibaki_votes := kibaki;
        kenyatta_votes := kenyatta; nyachae_votes := nyachae |}.

(** The rows of [regional_df]: one per province. *)
Definition regional_df (cols : regional_columns)
    : list (string * value * value * value) :=
  combine (combine (combine (regions cols) (kibaki_votes cols))
             (kenyatta_votes cols)) (nyachae_votes cols).

(** ** County Analysis *)

(** [turnout_2022], [turnout_2017] and their difference. *)
Definition turnout_change (county_info : value) : result (value * value * value) :=
  r22 <- py_get county_info "results_2022" empty_dict ;;
  turnout_2022 <- py_get r22 "turnout" (VInt 0) ;;
  r17 <- py_get county_info "results_2017" empty_dict ;;
  turnout_2017 <- py_get r17 "turnout" (VInt 0) ;;
  change <- py_sub turnout_2022 turnout_2017 ;;
  Ok (turnout_2022, turnout_2017, change).

Definition gov_shift (results_2017 results_2022 : value) : result value :=
  ruto <- py_get results_2022 "Ruto" (VInt 0) ;;
  kenyatta <- py_get results_2017 "Kenyatta" (VInt 0) ;;
  py_sub ruto kenyatta.

Definition opp_shift (results_2017 results_2022 : value) : result value :=
  odinga_2022 <- py_get results_2022 "Odinga" (VInt 0) ;;
  odinga_2017 <- py_get results_2017 "Odinga" (VInt 0) ;;
  py_sub odinga_2022 odinga_2017.

(** Vote Shift Analysis: the two shifts of the selected county. *)
Definition vote_shift (county_info : value) : result (value * value) :=
  results_2017 <- py_get county_info "results_2017" empty_dict ;;
  results_2022 <- py_get county_info "results_2022" empty_dict ;;
  g <- gov_shift results_2017 results_2022 ;;
  o <- opp_shift results_2017 results_2022 ;;
  Ok (g, o).

(** The values of the two shift metrics: [f"{shift:+.1f}%"]. *)
Definition vote_shift_metrics (county_info : value) : result (string * string) :=
  shifts <- vote_shift county_info ;;
  g <- format_fixed true 1 (fst shifts) ;;
  o <- format_fixed true 1 (snd shifts) ;;
  Ok (g ++ "%", o ++ "%").

(** ** County Predictions 2027 *)

(** [county_data['counties'][c].get('prediction_2027', {})] *)
Definition prediction_of (county_data c : value) : result value :=
  counties <- county_data.["counties"] ;;
  county_info <- py_getitem counties c ;;
  py_get county_info "prediction_2027" empty_dict.

Definition total_new_youth (county_data : value) : result value :=
  counties <- county_data.["counties"] ;;
  cs <- py_iter counties ;;
  foldM (fun total c =>
           pred <- prediction_of county_data c ;;
           n <- py_get pred "new_youth_voters" (VInt 0) ;;
           py_add total n) cs (VInt 0).

(** The condition of the two comprehensions over high-swing counties,
    with the list of levels as each of them writes it. *)
Definition swing_potential_in (levels : list string) (county_data c : value)
    : result bool :=
  pred <- prediction_of county_data c ;;
  sp <- py_get pred "swing_potential" (VStr "") ;;
  Ok (py_in_strings sp levels).

Definition swing_counties (alg : sum_algorithm) (county_data : value)
    : result value :=
  counties <- county_data.["counties"] ;;
  cs <- py_iter counties ;;
  selected <- filterM (swing_potential_in ["High"; "Very High"] county_data) cs ;;
  py_sum alg (map (fun _ => VInt 1) selected).

Definition avg_youth (alg : sum_algorithm) (county_data : value)
    : result spec_float :=
  counties <- county_data.["counties"] ;;
  cs <- py_iter counties ;;
  ys <- mapM (fun c =>
                counties' <- county_data.["counties"] ;;
                county_info <- py_getitem counties' c ;;
                py_get county_info "youth_percentage" (VInt 0)) cs ;;
  total <- py_sum alg ys ;;
  counties'' <- county_data.["counties"] ;;
  n <- py_len counties'' ;;
  py_truediv total (VInt n).

(** One row of [county_pred_data]. *)
Definition county_pred_row (county_name : string) (county_info : value)
    : result (dict value) :=
  pred <- py_get county_info "prediction_2027" empty_dict ;;
  voters <- py_get pred "projected_voters" (VInt 0) ;;
  youth <- py_get pred "new_youth_voters" (VInt 0) ;;
  turnout <- py_get pred "likely_turnout" (VInt 0) ;;
  trend <- py_get pred "trend" (VStr "Unknown") ;;
  swing <- py_get pred "swing_potential" (VStr "Unknown") ;;
  Ok [("County", VStr county_name);
      ("Projected Voters", voters);
      ("New Youth Voters", youth);
      ("Likely Turnout", turnout);
      ("Trend", trend);
      ("Swing Potential", swing)].

Definition county_pred_data (county_data : value) : result (list (dict value)) :=
  counties <- county_data.["counties"] ;;
  items <- py_items counties ;;
  mapM (fun kv => county_pred_row (fst kv) (snd kv)) items.

Definition swing_levels : list string :=
  ["Very High"; "High"; "Medium"; "Low"; "Very Low"].

Definition empty_swing_groups : dict (list string) :=
  map (fun level => (level, [])) swing_levels.

(** [groups[level].append(county_name)] *)
Fixpoint group_append (level county_name : string) (groups : dict (list string))
    : dict (list string) :=
  match groups with
  | [] => []
  | (k, l) :: rest =>
      if String.eqb level k then (k, (l ++ [county_name])%list) :: rest
      else (k, l) :: group_append level county_name rest
  end.

Definition swing_groups_step (groups : dict (list string))
    (kv : string * value) : result (dict (list string)) :=
  pred <- py_get (snd kv) "prediction_2027" empty_dict ;;
  swing_potential <- py_get pred "swing_potential" (VStr "Unknown") ;;
  known <- py_in_dict swing_potential groups ;;
  match swing_potential with
  | VStr level =>
      Ok (if known then group_append level (fst kv) groups else groups)
  | _ => Ok groups
  end.

Definition swing_groups (county_data : value) : result (dict (list string)) :=
  counties <- county_data.["counties"] ;;
  items <- py_items counties ;;
  foldM swing_groups_step items empty_swing_groups.

Definition battleground (county_data : value) : result (list value) :=
  counties <- county_data.["counties"] ;;
  cs <- py_iter counties ;;
  filterM (swing_potential_in ["Very High"; "High"] county_data) cs.

(** ** 2027 National Predictions *)

(** [predictions['total_projected_voters'] * scenario['turnout'] / 100] *)
Definition projected_share (predictions scenario : value) : result spec_float :=
  total <- predictions.["total_projected_voters"] ;;
  turnout <- scenario.["turnout"] ;;
  product <- py_mul total turnout ;;
  py_truediv product (VInt 100).

Definition projected_votes (predictions scenario : value) : result Z :=
  share <- projected_share predictions scenario ;;
  py_int share.

(** ** Documents *)

(** *** Well-formed county documents *)

Fixpoint nodupb (l : list string) : bool :=
  match l with
  | [] => true
  | x :: l' => negb (existsb (String.eqb x) l') && nodupb l'
  end.

(** The county record carries a swing-potential category, and it is one
    of the five levels. *)
Definition has_swing_category (county_info : value) : bool :=
  match county_info with
  | VDict d =>
      match dict_lookup "prediction_2027" d with
      | Some (VDict p) =>
          match dict_lookup "swing_potential" p with
          | Some (VStr level) => existsb (String.eqb level) swing_levels
          | _ => false
          end
      | _ => false
      end
  | _ => false
  end.

(** The county records of a document, by name. *)
Definition county_records (county_data : value) : dict value :=
  match county_data with
  | VDict top =>
      match dict_lookup "counties" top with
      | Some (VDict counties) => counties
      | _ => []
      end
  | _ => []
  end.

Definition county_names (county_data : value) : list string :=
  dict_keys (county_records county_data).

(** A well-formed county document: 47 counties under distinct names, each
    with a swing-potential category among the five levels. *)
Definition well_formed_county_document (county_data : value) : bool :=
  match county_data with
  | VDict top =>
      match dict_lookup "counties" top with
      | Some (VDict counties) =>
          (List.length counties =? 47)%nat
          && nodupb (dict_keys counties)
          && forallb (fun kv => has_swing_category (snd kv)) counties
      | _ => false
      end
  | _ => false
  end.

(** *** Sample documents

    [county_data.json] and [election_data.json] are not part of the
    sources; the documents below have the shape the code reads, with
    placeholder figures. *)

Definition sample_results_2017 : value :=
  VDict [("Kenyatta", VFloat (json_float 540 (-1)));
         ("Odinga", VFloat (json_float 449 (-1)));
         ("turnout", VFloat (json_float 781 (-1)))].

Definition sample_results_2022 : value :=
  VDict [("Ruto", VFloat (json_float 505 (-1)));
         ("Odinga", VFloat (json_float 488 (-1)));
         ("turnout", VFloat (json_float 652 (-1)))].

Definition sample_prediction (swing : string) : value :=
  VDict [("projected_voters", VInt 610000);
         ("new_youth_voters", VInt 120000);
         ("likely_turnout", VInt 68);
         ("swing_potential", VStr swing);
         ("trend", VStr "Competitive")].

Definition sample_county (swing : string) : value :=
  VDict [("population", VInt 1200000);
         ("registered_voters_2022", VInt 490000);
         ("youth_percentage", VFloat (json_float 665 (-1)));
         ("results_2017", sample_results_2017);
         ("results_2022", sample_results_2022);
         ("prediction_2027", sample_prediction swing)].

(** A county whose record has no [prediction_2027]. *)
Definition county_without_prediction : value :=
  VDict [("population", VInt 1200000);
         ("registered_voters_2022", VInt 490000);
         ("youth_percentage", VFloat (json_float 665 (-1)));
         ("results_2017", sample_results_2017);
         ("results_2022", sample_results_2022)].

(** A county whose record has no [results_2017]. *)
Definition county_without_results_2017 : value :=
  VDict [("population", VInt 1200000);
         ("registered_voters_2022", VInt 490000);
         ("youth_percentage", VFloat (json_float 665 (-1)));
         ("results_2022", sample_results_2022);
         ("prediction_2027", sample_prediction "High")].

Definition sample_swing_levels : dict string :=
  [("Mombasa", "High"); ("Kwale", "Medium"); ("Kilifi", "Medium");
   ("Tana River", "High"); ("Lamu", "High"); ("Taita Taveta", "Medium");
   ("Garissa", "Medium"); ("Wajir", "Medium"); ("Mandera", "Low");
   ("Marsabit", "High"); ("Isiolo", "High"); ("Meru", "Medium");
   ("Tharaka Nithi", "Low"); ("Embu", "Medium"); ("Kitui", "Medium");
   ("Machakos", "Very High"); ("Makueni", "Medium"); ("Nyandarua", "Low");
   ("Nyeri", "Low"); ("Kirinyaga", "Low"); ("Murang'a", "Low");
   ("Kiambu", "Medium"); ("Turkana", "High"); ("West Pokot", "Low");
   ("Samburu", "Medium"); ("Trans Nzoia", "High"); ("Uasin Gishu", "Very Low");
   ("Elgeyo Marakwet", "Very Low"); ("Nandi", "Very Low"); ("Baringo", "Low");
   ("Laikipia", "Medium"); ("Nakuru", "High"); ("Narok", "Very High");
   ("Kajiado", "Very High"); ("Kericho", "Very Low"); ("Bomet", "Very Low");
   ("Kakamega", "Very High"); ("Vihiga", "High"); ("Bungoma", "Very High");
   ("Busia", "Medium"); ("Siaya", "Very Low"); ("Kisumu", "Very Low");
   ("Homa Bay", "Very Low"); ("Migori", "Low"); ("Kisii", "High");
   ("Nyamira", "High"); ("Nairobi", "Very High")].

Definition sample_county_data : value :=
  VDict [("counties",
          VDict (map (fun kv => (fst kv, sample_county (snd kv)))
                   sample_swing_levels));
         ("regional_trends", VDict [])].

(** A county document in which one county lacks [prediction_2027]. *)
Definition county_data_missing_prediction : value :=
  VDict [("counties",
          VDict [("Nairobi", sample_county "Very High");
                 ("Lamu", county_without_prediction);
                 ("Meru", sample_county "Medium")])].

(** The turnouts of the five elections as the Overview page lists them. *)
Definition historical_turnouts : list value :=
  [VFloat (json_float 5718 (-2)); VFloat (json_float 6923 (-2));
   VFloat (json_float 8591 (-2)); VFloat (json_float 7951 (-2));
   VFloat (json_float 6477 (-2))].

Definition election_record (turnout : value) (regional : option value) : value :=
  VDict ([("registered_voters", VInt 14000000);
          ("votes_cast", VInt 9000000);
          ("turnout", turnout);
          ("candidates", VList [])]
         ++ match regional with
            | Some r => [("regional", r)]
            | None => []
            end).

Definition sample_regional : value :=
  VDict [("Central", VDict [("Kibaki", VFloat (json_float 690 (-1)));
                            ("Kenyatta", VFloat (json_float 301 (-1)));
                            ("Nyachae", VFloat (json_float 4 (-1)))]);
         ("Nyanza", VDict [("Kibaki", VFloat (json_float 610 (-1)));
                           ("Kenyatta", VFloat (json_float 76 (-1)));
                           ("Nyachae", VFloat (json_float 308 (-1)))])].

Definition sample_predictions : value :=
  VDict [("total_projected_voters", VInt 27820000);
         ("new_voters", VInt 5700000);
         ("youth_percentage", VInt 65);
         ("scenarios",
          VList [VDict [("name", VStr "High Youth Turnout");
                        ("turnout", VInt 75);
                        ("description", VStr "Strong youth mobilisation")];
                 VDict [("name", VStr "Moderate Turnout");
                        ("turnout", VFloat (json_float 675 (-1)));
                        ("description", VStr "Patterns similar to 2022")];
                 VDict [("name", VStr "Low Youth Turnout");
                        ("turnout", VInt 55);
                        ("description", VStr "Youth apathy")]]);
         ("factors", VList [VStr "Youth registration"; VStr "Coalitions"])].

(** An election document whose five yearly records carry the given
    turnouts, in the order of the years, and whose 2002 record carries the
    given regional breakdown, if any. *)
Definition election_data_with (turnouts : list value) (regional : option value)
    : value :=
  VDict [("elections",
          VDict (combine (map int_to_string election_years)
                   (match turnouts with
                    | [] => []
                    | t :: ts =>
                        election_record t regional
                        :: map (fun t' => election_record t' None) ts
                    end)));
         ("predictions_2027", sample_predictions)].

Definition sample_election_data : value :=
  election_data_with historical_turnouts (Some sample_regional).

(** ** The page script

    What a run of the script shows: the Streamlit calls in order, up to the
    first uncaught exception. Static text is cut to its first line; the
    styling of the charts is left out. *)

(** A part of an f-string: literal text, [str(v)] of a value, or a float
    written with thousands separators (both left unevaluated). *)
Inductive piece :=
| Lit (s : string)
| Str (v : value)
| Grouped (f : spec_float).

Definition text := list piece.

Inductive element :=
| Title (t : string)
| Header (t : string)
| Subheader (t : text)
| Markdown (t : text)
| Info (t : string)
| Error (t : text)
| Success (t : string)
| Warning (t : string)
| Metric (label : string) (val : text) (delta : option string)
| Expander (label : text)
| ExpanderEnd
| Plot (name : string) (data : list (string * value)).

(** The elements shown, and how the computation ended. *)
Definition render (A : Type) : Type := list element * result A.

Definition bindR {A B} (m : render A) (k : A -> render B) : render B :=
  match snd m with
  | Ok a => ((fst m ++ fst (k a))%list, snd (k a))
  | Raise e => (fst m, Raise e)
  end.

Notation "x <-- m ;; k" := (bindR m (fun x => k))
  (at level 61, m at next level, right associativity).
Notation "m ;;; k" := (bindR m (fun _ => k))
  (at level 61, right associativity).

Definition emit (e : element) : render unit := ([e], Ok tt).

(** A computation that shows nothing. *)
Definition lift {A} (r : result A) : render A := ([], r).

Definition done : render unit := ([], Ok tt).

(** A [for] loop over [l]. *)
Fixpoint forR {A} (l : list A) (body : A -> render unit) : render unit :=
  match l with
  | [] => done
  | a :: l' => body a ;;; forR l' body
  end.

(** [f"{v:,}"] *)
Definition fmt_comma (v : value) : result piece :=
  match v with
  | VStr _ => Raise ValueError
  | VFloat f => Ok (Grouped f)
  | _ =>
      match as_number v with
      | Some (NInt z) => Ok (Lit (format_int_comma z))
      | _ => Raise TypeError
      end
  end.

(** [f"{v:.<digits>f}"] *)
Definition fmt_fixed (plus : bool) (digits : nat) (v : value) : result piece :=
  s <- format_fixed plus digits v ;; Ok (Lit s).

(** [f"{v/1000000:.1f}M"] *)
Definition fmt_millions (v : value) : result text :=
  q <- py_truediv v (VInt 1000000) ;;
  Ok [Lit (format_float_fixed false 1 q); Lit "M"].

Fixpoint insert_sorted (s : string) (l : list string) : list string :=
  match l with
  | [] => [s]
  | t :: l' => if String.leb s t then s :: l else t :: insert_sorted s l'
  end.

(** [sorted(names)] for strings. *)
Definition sorted_strings (names : list string) : list string :=
  fold_right insert_sorted [] names.

Inductive page :=
| Overview
| InteractiveMap
| HistoricalResults
| TurnoutTrends
| RegionalPatterns
| CountyAnalysis
| CountyPredictions2027
| NationalPredictions2027.

Inductive map_view :=
| SwingPotential
| RutoShare
| OdingaShare
| ProjectedVoters
| YouthPercentage
| Turnout2022.

Definition map_view_label (v : map_view) : string :=
  match v with
  | SwingPotential => "2027 Swing Potential"
  | RutoShare => "2022 Election Results (Ruto %)"
  | OdingaShare => "2022 Election Results (Odinga %)"
  | ProjectedVoters => "2027 Projected Voters"
  | YouthPercentage => "Youth Percentage"
  | Turnout2022 => "2022 Turnout"
  end.

(** What the user has chosen in the sidebar and in the widgets of the
    pages: the page, the election year, the position of the county in the
    sorted list of names, and the map view. *)
Record selection := {
  sel_page : page;
  selected_year : Z;
  selected_county_index : nat;
  sel_map_view : map_view
}.

Inductive parse_result :=
| Parsed (v : value)
| Malformed (message : string).

Section App.

(** [json.loads] on the text of a file. *)
Variable json_loads : string -> parse_result.

(** pandas and plotly: building the frame or figure [name] from the
    columns it is given, which either succeeds or raises. *)
Variable plot : string -> list (string * value) -> result unit.

(** The builtins [max], [min] and [sorted(..., key=<second>, reverse=True)]
    on arbitrary values. *)
Variable builtin_max : list value -> result value.
Variable builtin_min : list value -> result value.
Variable sorted_by_value_desc :
  list (string * value) -> result (list (string * value)).

(** Text of the files by name; [None] for a file that does not exist. *)
Variable files : string -> option string.

Definition st_plot (name : string) (data : list (string * value)) : render unit :=
  lift (plot name data) ;;; emit (Plot name data).

(** *** Loading *)

Definition load_json (name : string) : result value :=
  match files name with
  | None => Raise FileNotFoundError
  | Some content =>
      match json_loads content with
      | Parsed v => Ok v
      | Malformed message => Raise (JSONDecodeError message)
      end
  end.

Definition load_election_data : result value := load_json "election_data.json".

Definition load_county_data : result value := load_json "county_data.json".

(** [str(e)] for the exceptions of [load_json]. *)
Definition exception_message (e : exn) : string :=
  match e with
  | FileNotFoundError =>
      "[Errno 2] No such file or directory: 'kenya_counties.geojson'"
  | JSONDecodeError message => message
  | _ => ""
  end.

(** Every exception is caught, reported and turned into [None]. *)
Definition load_geojson : render value :=
  match load_json "kenya_counties.geojson" with
  | Ok v => lift (Ok v)
  | Raise e =>
      emit (Error [Lit "Error loading GeoJSON: "; Lit (exception_message e)]) ;;;
      lift (Ok VNone)
  end.

(** *** Overview *)

Definition overview_page : render unit :=
  emit (Header "Executive Summary") ;;;
  emit (Metric "Elections Analyzed" [Lit "5"] (Some "2002-2022")) ;;;
  emit (Metric "2022 Turnout" [Lit "64.77%"] (Some "-14.74%")) ;;;
  emit (Metric "Counties Tracked" [Lit "47"] (Some "Complete coverage")) ;;;
  emit (Metric "Projected 2027 Voters" [Lit "27.8M"] (Some "+5.7M")) ;;;
  emit (Markdown [Lit "---"]) ;;;
  emit (Subheader [Lit "Key Findings"]) ;;;
  emit (Markdown [Lit "- **Highest Turnout**: 2013 with 85.91%"]) ;;;
  emit (Subheader [Lit "Election Timeline"]) ;;;
  st_plot "Voter Turnout Trend (2002-2022)"
    [("x", VList (map VInt election_years)); ("y", VList historical_turnouts)] ;;;
  emit (Subheader [Lit "2027 Swing Potential by Region"]) ;;;
  st_plot "Youth Population and Swing Potential by Region" [] ;;;
  emit (Info "💡 Navigate to 'Interactive Map' to explore county-by-county visualizations!").

(** *** Interactive Map *)

Definition rows_value (rows : list (dict value)) : value :=
  VList (map VDict rows).

Definition interactive_map_page (county_data kenya_geojson : value)
    (view : map_view) : render unit :=
  emit (Header "Interactive County Map of Kenya") ;;;
  match kenya_geojson with
  | VNone =>
      emit (Error [Lit "GeoJSON file not found. Map visualization is unavailable."]) ;;;
      emit (Info "The map requires kenya_counties.geojson file to display county boundaries.")
  | _ =>
      emit (Subheader [Lit "Select Map View"]) ;;;
      rows <-- lift (map_data county_data) ;;
      st_plot "map_df" [("map_data", rows_value rows)] ;;;
      st_plot ("choropleth: " ++ map_view_label view)
        [("map_df", rows_value rows); ("geojson", kenya_geojson)] ;;;
      emit (Markdown [Lit "---"]) ;;;
      emit (Subheader [Lit "Map Insights"]) ;;;
      st_plot ("insights: " ++ map_view_label view)
        [("map_df", rows_value rows)] ;;;
      emit (Markdown [Lit "**Quick Facts:**"]) ;;;
      emit (Markdown [Lit "---"]) ;;;
      emit (Subheader [Lit "Legend"])
  end.

(** *** Historical Results *)

Definition historical_results_page (data : value) (year : Z) : render unit :=
  emit (Header "Historical Election Results (2002-2022)") ;;;
  election <-- lift (elections <- data.["elections"] ;;
                     elections.[int_to_string year]) ;;
  reg <-- lift (v <- election.["registered_voters"] ;; fmt_comma v) ;;
  emit (Metric "Registered Voters" [reg] None) ;;;
  cast <-- lift (v <- election.["votes_cast"] ;; fmt_comma v) ;;
  emit (Metric "Votes Cast" [cast] None) ;;;
  turnout <-- lift election.["turnout"] ;;
  emit (Metric "Turnout" [Str turnout; Lit "%"] None) ;;;
  emit (Markdown [Lit "---"]) ;;;
  emit (Subheader [Lit (int_to_string year); Lit " Presidential Results"]) ;;;
  candidates <-- lift election.["candidates"] ;;
  lift (plot "candidates_df" [("candidates", candidates)]) ;;;
  st_plot "Vote Share by Candidate" [("candidates", candidates)] ;;;
  st_plot "Vote Distribution" [("candidates", candidates)] ;;;
  emit (Subheader [Lit "Detailed Results"]) ;;;
  st_plot "display_df" [("candidates", candidates)].

(** *** Turnout Trends *)

Definition turnout_trends_page (alg : sum_algorithm) (data : value)
    : render unit :=
  emit (Header "Voter Turnout Analysis") ;;;
  lists <-- lift (turnout_loop data) ;;
  let years_value := VList (map VInt (years lists)) in
  st_plot "Voter Turnout Trend"
    [("x", years_value); ("y", VList (turnouts lists))] ;;;
  labels <-- lift (mapM fmt_millions (registered lists)) ;;
  st_plot "Registered Voters Growth"
    [("x", years_value); ("y", VList (registered lists))] ;;;
  emit (Subheader [Lit "Turnout Statistics"]) ;;;
  avg <-- lift (mean alg (turnouts lists)) ;;
  emit (Metric "Average Turnout"
          [Lit (format_float_fixed false 2 avg); Lit "%"] None) ;;;
  highest <-- lift (builtin_max (turnouts lists)) ;;
  emit (Metric "Highest Turnout" [Str highest; Lit "%"] (Some "2013")) ;;;
  lowest <-- lift (builtin_min (turnouts lists)) ;;
  emit (Metric "Lowest Turnout" [Str lowest; Lit "%"] (Some "2002")) ;;;
  change <-- lift (last <- py_getitem (VList (turnouts lists)) (VInt (-1)) ;;
                   previous <- py_getitem (VList (turnouts lists)) (VInt (-2)) ;;
                   d <- py_sub last previous ;;
                   fmt_fixed false 2 d) ;;
  emit (Metric "2022 vs 2017" [change; Lit "%"] (Some "Decrease")) ;;;
  emit (Subheader [Lit "Detailed Turnout Data"]) ;;;
  reg <-- lift (mapM fmt_comma (registered lists)) ;;
  cast <-- lift (mapM fmt_comma (votes_cast lists)) ;;
  shares <-- lift (mapM (fmt_fixed false 2) (turnouts lists)) ;;
  st_plot "turnout_df"
    [("Year", years_value);
     ("Registered Voters", VList (registered lists));
     ("Votes Cast", VList (votes_cast lists));
     ("Turnout (%)", VList (turnouts lists))].

(** *** Regional Patterns *)

Definition strongest_regions (regions : list string) (votes : list value)
    : render unit :=
  top <-- lift (sorted_by_value_desc (combine regions votes)) ;;
  forR (firstn 4 top)
    (fun rp => emit (Markdown [Lit "- **"; Lit (fst rp); Lit "**: ";
                               Str (snd rp); Lit "%"])).

Definition regional_patterns_page (data : value) : render unit :=
  emit (Header "Regional Voting Patterns") ;;;
  emit (Info "Detailed regional data is available for the 2002 election. This analysis shows voting patterns across Kenya's provinces.") ;;;
  cols <-- lift (regional_patterns data) ;;
  let frame :=
    [("Province", VList (map VStr (regions cols)));
     ("Kibaki (%)", VList (kibaki_votes cols));
     ("Kenyatta (%)", VList (kenyatta_votes cols));
     ("Nyachae (%)", VList (nyachae_votes cols))] in
  st_plot "2002 Election Results by Province" frame ;;;
  emit (Subheader [Lit "Regional Strongholds (2002)"]) ;;;
  emit (Markdown [Lit "**Kibaki's Strongest Regions:**"]) ;;;
  strongest_regions (regions cols) (kibaki_votes cols) ;;;
  emit (Markdown [Lit "**Kenyatta's Strongest Regions:**"]) ;;;
  strongest_regions (regions cols) (kenyatta_votes cols) ;;;
  emit (Subheader [Lit "Detailed Regional Results (2002)"]) ;;;
  st_plot "regional_df" frame.

(** *** County Analysis *)

Definition percent (v : value) : text := [Str v; Lit "%"].

Definition county_analysis_page (county_data : value) (index : nat)
    : render unit :=
  emit (Header "County-Level Electoral Analysis") ;;;
  emit (Markdown [Lit "This section provides detailed analysis of voting patterns in all 47 counties across Kenya,"]) ;;;
  names <-- lift (cs <- county_data.["counties"] ;; py_keys cs) ;;
  let counties := sorted_strings names in
  let selected_county :=
    match nth_error counties index with
    | Some name => VStr name
    | None => VNone
    end in
  county_info <-- lift (cs <- county_data.["counties"] ;;
                        py_getitem cs selected_county) ;;
  population <-- lift (v <- py_get county_info "population" (VInt 0) ;;
                       fmt_comma v) ;;
  emit (Metric "Population" [population] None) ;;;
  voters <-- lift (v <- py_get county_info "registered_voters_2022" (VInt 0) ;;
                   fmt_comma v) ;;
  emit (Metric "Registered Voters (2022)" [voters] None) ;;;
  youth <-- lift (py_get county_info "youth_percentage" (VInt 0)) ;;
  emit (Metric "Youth Percentage" (percent youth) None) ;;;
  tc <-- lift (turnout_change county_info) ;;
  let turnout_2022 := fst (fst tc) in
  let turnout_2017 := snd (fst tc) in
  change <-- lift (fmt_fixed true 1 (snd tc)) ;;
  emit (Metric "Turnout Change" [change; Lit "%"] (Some "2017 to 2022")) ;;;
  emit (Markdown [Lit "---"]) ;;;
  emit (Subheader [Lit "2017 vs 2022 Results Comparison"]) ;;;
  results_2017 <-- lift (py_get county_info "results_2017" empty_dict) ;;
  results_2022 <-- lift (py_get county_info "results_2022" empty_dict) ;;
  kenyatta <-- lift (py_get results_2017 "Kenyatta" (VInt 0)) ;;
  odinga_2017 <-- lift (py_get results_2017 "Odinga" (VInt 0)) ;;
  ruto <-- lift (py_get results_2022 "Ruto" (VInt 0)) ;;
  odinga_2022 <-- lift (py_get results_2022 "Odinga" (VInt 0)) ;;
  st_plot "comparison_df"
    [("Percentage", VList [kenyatta; odinga_2017; ruto; odinga_2022])] ;;;
  emit (Subheader [Lit "Turnout Trend"]) ;;;
  st_plot "turnout_df" [("Turnout", VList [turnout_2017; turnout_2022])] ;;;
  emit (Subheader [Str selected_county; Lit " County Analysis"]) ;;;
  emit (Markdown [Lit "**2017 Results:**"]) ;;;
  emit (Markdown (Lit "- Uhuru Kenyatta: **" :: Str kenyatta :: [Lit "%**"])) ;;;
  emit (Markdown (Lit "- Raila Odinga: **" :: Str odinga_2017 :: [Lit "%**"])) ;;;
  emit (Markdown (Lit "- Turnout: **" :: Str turnout_2017 :: [Lit "%**"])) ;;;
  emit (Markdown [Lit "**2022 Results:**"]) ;;;
  emit (Markdown (Lit "- William Ruto: **" :: Str ruto :: [Lit "%**"])) ;;;
  emit (Markdown (Lit "- Raila Odinga: **" :: Str odinga_2022 :: [Lit "%**"])) ;;;
  emit (Markdown (Lit "- Turnout: **" :: Str turnout_2022 :: [Lit "%**"])) ;;;
  emit (Markdown [Lit "---"]) ;;;
  emit (Subheader [Lit "Vote Shift Analysis (2017 → 2022)"]) ;;;
  g <-- lift (gov_shift results_2017 results_2022) ;;
  o <-- lift (opp_shift results_2017 results_2022) ;;
  gt <-- lift (fmt_fixed true 1 g) ;;
  emit (Metric "Government Coalition Shift" [gt; Lit "%"]
          (Some "Kenyatta 2017 → Ruto 2022")) ;;;
  ot <-- lift (fmt_fixed true 1 o) ;;
  emit (Metric "Opposition Shift" [ot; Lit "%"]
          (Some "Odinga 2017 → Odinga 2022")).

(** *** County Predictions 2027 *)

Definition count_text {A} (l : list A) : piece :=
  Lit (int_to_string (Z.of_nat (List.length l))).

(** The card of one county inside an expander. *)
Definition county_card (county_data : value) (county_name : string)
    : render unit :=
  county_info <-- lift (cs <- county_data.["counties"] ;; cs.[county_name]) ;;
  pred <-- lift (py_get county_info "prediction_2027" empty_dict) ;;
  emit (Markdown [Lit "### "; Lit county_name; Lit " County"]) ;;;
  voters <-- lift (v <- py_get pred "projected_voters" (VInt 0) ;; fmt_comma v) ;;
  emit (Metric "Projected Voters" [voters] None) ;;;
  youth <-- lift (v <- py_get pred "new_youth_voters" (VInt 0) ;; fmt_comma v) ;;
  emit (Metric "New Youth Voters" [youth] None) ;;;
  turnout <-- lift (py_get pred "likely_turnout" (VInt 0)) ;;
  emit (Metric "Likely Turnout" (percent turnout) None) ;;;
  share <-- lift (py_get county_info "youth_percentage" (VInt 0)) ;;
  emit (Metric "Youth %" (percent share) None) ;;;
  trend <-- lift (py_get pred "trend" (VStr "Unknown")) ;;
  emit (Markdown [Lit "**Trend:** "; Str trend]) ;;;
  emit (Markdown [Lit "---"]).

Definition swing_level_expander (county_data : value)
    (groups : dict (list string)) (swing_level : string) : render unit :=
  match dict_lookup swing_level groups with
  | None => lift (Raise (KeyError (VStr swing_level)))
  | Some [] => done
  | Some bucket =>
      emit (Expander [Lit "🎯 "; Lit swing_level;
                      Lit " Swing Potential Counties ("; count_text bucket;
                      Lit ")"]) ;;;
      forR bucket (county_card county_data) ;;;
      emit ExpanderEnd
  end.

Definition battleground_entry (county_data c : value) : render unit :=
  county_info <-- lift (cs <- county_data.["counties"] ;; py_getitem cs c) ;;
  pred <-- lift (py_get county_info "prediction_2027" empty_dict) ;;
  emit (Markdown [Lit "**"; Str c; Lit "**"]) ;;;
  trend <-- lift (py_get pred "trend" (VStr "Unknown")) ;;
  emit (Markdown [Lit "- Trend: "; Str trend]) ;;;
  youth <-- lift (v <- py_get pred "new_youth_voters" (VInt 0) ;; fmt_comma v) ;;
  emit (Markdown [Lit "- New youth voters: "; youth]) ;;;
  swing <-- lift (py_get pred "swing_potential" (VStr "Unknown")) ;;
  emit (Metric "Swing Potential" [Str swing] None).

(** [s.replace('_', ' ')] *)
Fixpoint replace_underscores (s : string) : string :=
  match s with
  | EmptyString => EmptyString
  | String c s' =>
      String (if Ascii.eqb c "_"%char then " "%char else c)
        (replace_underscores s')
  end.

(** [sep.join(v)]: every item has to be a string. *)
Definition py_join (sep : string) (v : value) : result string :=
  items <- py_iter v ;;
  strings <- mapM (fun x => match x with
                            | VStr s => Ok s
                            | _ => Raise TypeError
                            end) items ;;
  Ok (String.concat sep strings).

Definition regional_trend_expander (kv : string * value) : render unit :=
  emit (Expander [Lit "📍 "; Lit (replace_underscores (fst kv)); Lit " Region"]) ;;;
  counties <-- lift (cs <- py_get (snd kv) "counties" (VList []) ;;
                     py_join ", " cs) ;;
  emit (Markdown [Lit "**Counties:** "; Lit counties]) ;;;
  trend <-- lift (py_get (snd kv) "trend" (VStr "Unknown")) ;;
  emit (Markdown [Lit "**Trend:** "; Str trend]) ;;;
  factor <-- lift (py_get (snd kv) "key_factor" (VStr "Unknown")) ;;
  emit (Markdown [Lit "**Key Factor:** "; Str factor]) ;;;
  emit ExpanderEnd.

Definition county_predictions_page (alg : sum_algorithm) (county_data : value)
    : render unit :=
  emit (Header "County-Level Predictions for 2027") ;;;
  emit (Markdown [Lit "Based on demographic trends, historical voting patterns, and youth population growth,"]) ;;;
  total <-- lift (v <- total_new_youth county_data ;; fmt_millions v) ;;
  emit (Metric "Total New Youth Voters" total (Some "All 47 counties")) ;;;
  swing <-- lift (swing_counties alg county_data) ;;
  emit (Metric "Swing Counties" [Str swing] (Some "High/Very High potential")) ;;;
  youth <-- lift (avg_youth alg county_data) ;;
  emit (Metric "Avg Youth %" [Lit (format_float_fixed false 1 youth); Lit "%"]
          (Some "All counties")) ;;;
  emit (Markdown [Lit "---"]) ;;;
  emit (Subheader [Lit "2027 Swing Potential by County"]) ;;;
  rows <-- lift (county_pred_data county_data) ;;
  lift (plot "pred_df" [("county_pred_data", rows_value rows)]) ;;;
  st_plot "County Swing Potential vs Youth Voters and Turnout"
    [("pred_df", rows_value rows)] ;;;
  emit (Subheader [Lit "Detailed County Predictions"]) ;;;
  groups <-- lift (swing_groups county_data) ;;
  forR swing_levels (swing_level_expander county_data groups) ;;;
  emit (Markdown [Lit "---"]) ;;;
  emit (Subheader [Lit "🔥 Key Battleground Counties for 2027"]) ;;;
  counties <-- lift (battleground county_data) ;;
  emit (Markdown [Lit "Critical Counties to Watch: These "; count_text counties;
                  Lit " counties have high swing potential and could determine the 2027 election outcome:"]) ;;;
  forR counties (battleground_entry county_data) ;;;
  emit (Markdown [Lit "---"]) ;;;
  emit (Subheader [Lit "Regional Trends for 2027"]) ;;;
  regional_trends <-- lift (rt <- py_get county_data "regional_trends" empty_dict ;;
                            py_items rt) ;;
  forR regional_trends regional_trend_expander.

(** *** 2027 National Predictions *)

Fixpoint enumerate {A} (start : Z) (l : list A) : list (Z * A) :=
  match l with
  | [] => []
  | a :: l' => (start, a) :: enumerate (start + 1) l'
  end.

Definition scenario_expander (predictions scenario : value) : render unit :=
  name <-- lift scenario.["name"] ;;
  turnout <-- lift scenario.["turnout"] ;;
  emit (Expander [Lit "📊 "; Str name; Lit " ("; Str turnout; Lit "% turnout)"]) ;;;
  description <-- lift scenario.["description"] ;;
  emit (Markdown [Lit "**Description:** "; Str description]) ;;;
  votes <-- lift (projected_votes predictions scenario) ;;
  emit (Markdown [Lit "**Projected Votes Cast:** "; Lit (format_int_comma votes)]) ;;;
  (if py_eq_str name "High Youth Turnout" then
     emit (Success "This scenario would represent unprecedented youth political engagement in Kenya.")
   else if py_eq_str name "Moderate Turnout" then
     emit (Info "This scenario assumes similar patterns to 2022, with modest youth mobilization.")
   else
     emit (Warning "This scenario reflects historical youth voter apathy and could favor established candidates.")) ;;;
  emit ExpanderEnd.

Definition national_predictions_page (data : value) : render unit :=
  emit (Header "2027 National Election Predictions & Analysis") ;;;
  predictions <-- lift data.["predictions_2027"] ;;
  total <-- lift (v <- predictions.["total_projected_voters"] ;; fmt_millions v) ;;
  emit (Metric "Projected Voters" total None) ;;;
  new_voters <-- lift (v <- predictions.["new_voters"] ;; fmt_millions v) ;;
  emit (Metric "New Voters" new_voters (Some "+25.8%")) ;;;
  youth <-- lift predictions.["youth_percentage"] ;;
  emit (Metric "Youth Voters" (percent youth) (Some "Ages 20-34")) ;;;
  emit (Metric "Critical Year" [Lit "2026"] (Some "Coalition Formation")) ;;;
  emit (Markdown [Lit "---"]) ;;;
  emit (Subheader [Lit "🎯 The Youth Factor: Game Changer for 2027"]) ;;;
  emit (Markdown [Lit "Critical Insight"]) ;;;
  others <-- lift (y <- predictions.["youth_percentage"] ;;
                   y' <- predictions.["youth_percentage"] ;;
                   rest <- py_sub (VInt 100) y' ;;
                   Ok (VList [y; rest])) ;;
  st_plot "Projected 2027 Voter Composition" [("values", others)] ;;;
  emit (Subheader [Lit "Turnout Scenarios"]) ;;;
  scenarios <-- lift predictions.["scenarios"] ;;
  lift (plot "scenarios_df" [("scenarios", scenarios)]) ;;;
  st_plot "Projected Turnout Scenarios" [("scenarios", scenarios)] ;;;
  emit (Subheader [Lit "Key Factors Influencing 2027 Elections"]) ;;;
  factors <-- lift (fs <- predictions.["factors"] ;; py_iter fs) ;;
  forR (enumerate 1 factors)
    (fun numbered =>
       emit (Markdown [Lit (int_to_string (fst numbered)); Lit ". ";
                       Str (snd numbered)])) ;;;
  emit (Markdown [Lit "---"]) ;;;
  emit (Subheader [Lit "Scenario Analysis"]) ;;;
  listed <-- lift (ss <- predictions.["scenarios"] ;; py_iter ss) ;;
  forR listed (scenario_expander predictions) ;;;
  emit (Markdown [Lit "---"]) ;;;
  emit (Subheader [Lit "⚠️ Why 2026 is More Important Than 2027"]) ;;;
  emit (Markdown [Lit "Political analysts emphasize that **2026 will be the decisive year** for the 2027 elections:"]) ;;;
  emit (Markdown [Lit "---"]) ;;;
  emit (Subheader [Lit "Historical Context: How 2027 Compares"]) ;;;
  st_plot "Registered Voter Growth (2002-2027)" [].

(** *** The script *)

Definition render_page (alg : sum_algorithm) (sel : selection)
    (data county_data kenya_geojson : value) : render unit :=
  match sel_page sel with
  | Overview => overview_page
  | InteractiveMap =>
      interactive_map_page county_data kenya_geojson (sel_map_view sel)
  | HistoricalResults => historical_results_page data (selected_year sel)
  | TurnoutTrends => turnout_trends_page alg data
  | RegionalPatterns => regional_patterns_page data
  | CountyAnalysis =>
      county_analysis_page county_data (selected_county_index sel)
  | CountyPredictions2027 => county_predictions_page alg county_data
  | NationalPredictions2027 => national_predictions_page data
  end.

Definition sidebar : render unit :=
  emit (Title "🗳️ Navigation") ;;;
  emit (Markdown [Lit "---"]) ;;;
  emit (Markdown [Lit "### About"]) ;;;
  emit (Info "This dashboard analyzes Kenya's presidential elections from 2002-2022 and provides county-level insights and predictions for the 2027 elections based on demographic trends and historical patterns.").

Definition footer : render unit :=
  emit (Markdown [Lit "---"]) ;;;
  emit (Markdown [Lit "Data sources: Kenya Electoral Commission, Political Analysis Reports, County Demographics"]).

Definition app (alg : sum_algorithm) (sel : selection) : render unit :=
  emit (Markdown [Lit "<style>"]) ;;;
  data <-- lift load_election_data ;;
  county_data <-- lift load_county_data ;;
  kenya_geojson <-- load_geojson ;;
  sidebar ;;;
  emit (Title "🇰🇪 Kenya Presidential Elections Analysis (2002-2027)") ;;;
  render_page alg sel data county_data kenya_geojson ;;;
  footer.

End App.

(** ** Notions used in the statements *)


Definition not_error (e : element) : Prop :=
  match e with
  | Error _ => False
  | _ => True
  end.

(** A computation that shows no [st.error] element. *)
Definition quiet {A} (m : render A) : Prop := Forall not_error (fst m).

Definition map_selection : selection :=
  {| sel_page := InteractiveMap; selected_year := 2022;
     selected_county_index := 0; sel_map_view := SwingPotential |}.

Definition turnout_selection : selection :=
  {| sel_page := TurnoutTrends; selected_year := 2022;
     selected_county_index := 0; sel_map_view := SwingPotential |}.

(** A file system with the two statistical documents and no boundary
    document, and stand-ins for the parser and the libraries. *)
Definition sample_files (name : string) : option string :=
  if String.eqb name "election_data.json" then Some "elections"
  else if String.eqb name "county_data.json" then Some "counties"
  else None.

Definition sample_json_loads (content : string) : parse_result :=
  if String.eqb content "elections" then Parsed sample_election_data
  else if String.eqb content "counties" then Parsed sample_county_data
  else Malformed "Expecting value: line 1 column 1 (char 0)".

Definition sample_plot (name : string) (data : list (string * value))
    : result unit := Ok tt.

Definition sample_first (l : list value) : result value :=
  match l with
  | [] => Raise ValueError
  | x :: _ => Ok x
  end.

Definition sample_sorted (l : list (string * value))
    : result (list (string * value)) := Ok l.

(** The exact sum of a list of integers. *)
Definition Zsum (zs : list Z) : Z := fold_right Z.add 0 zs.

(** The category that [swing_groups_step] reads from an item. *)
Definition item_level (kv : string * value) : string :=
  match snd kv with
  | VDict d =>
      match dict_lookup "prediction_2027" d with
      | Some (VDict p) =>
          match dict_lookup "swing_potential" p with
          | Some (VStr level) => level
          | _ => ""
          end
      | _ => ""
      end
  | _ => ""
  end.

(** The names of the items of a category, in document order. *)
Definition names_with (level : string) (items : dict value) : list string :=
  map fst (filter (fun kv => String.eqb level (item_level kv)) items).



(** The ways to insert [x] into [l]. *)
Fixpoint insert_everywhere {A} (x : A) (l : list A) : list (list A) :=
  match l with
  | [] => [[x]]
  | y :: l' => (x :: l) :: map (cons y) (insert_everywhere x l')
  end.

(** All orderings of [l]. *)
Fixpoint permutations {A} (l : list A) : list (list A) :=
  match l with
  | [] => [[]]
  | x :: l' => flat_map (insert_everywhere x) (permutations l')
  end.

Definition result_string_is (expected : string) (r : result string) : bool :=
  match r with
  | Ok s => String.eqb s expected
  | Raise _ => false
  end.

(** Five turnouts between 0 and 100 whose mean lies on either side of a
    rounding boundary of the two-decimal display, depending on the order,
    under both summation algorithms:
    [[44.92795364837709, 19.897046351622915, 2.3684757858670005e-15,
      8.881784197001252e-16, 2.9605947323337506e-16]]. *)
Definition order_sensitive_turnouts : list value :=
  [VFloat (json_float 4492795364837709 (-14));
   VFloat (json_float 19897046351622915 (-15));
   VFloat (json_float 23684757858670005 (-31));
   VFloat (json_float 8881784197001252 (-31));
   VFloat (json_float 29605947323337506 (-32))].

(** Five turnouts whose mean, summed from left to right, lies on either
    side of a rounding boundary of the two-decimal display, depending on
    the order. *)
Definition display_sensitive_turnouts : list value :=
  [VFloat (json_float 398 (-1)); VFloat (json_float 283 (-1));
   VFloat (json_float 495 (-2)); VFloat (json_float 509 (-1));
   VFloat (json_float 57475 (-3))].

(** ** Further notions used in the statements *)

(** ** Shapes of county records *)

(** [v] is a dictionary with the key [k]: [v[k]] succeeds. *)
Definition has_key (v : value) (k : string) : bool :=
  match v with
  | VDict d => dict_mem k d
  | _ => false
  end.

(** [v[a][b]] succeeds. *)
Definition has_key2 (v : value) (a b : string) : bool :=
  match v with
  | VDict d =>
      match dict_lookup a d with
      | Some x => has_key x b
      | None => false
      end
  | _ => false
  end.

(** The record carries the seven fields that the Interactive Map
    subscripts. *)
Definition complete_county (county_info : value) : bool :=
  has_key2 county_info "prediction_2027" "swing_potential"
  && has_key2 county_info "results_2022" "Ruto"
  && has_key2 county_info "results_2022" "Odinga"
  && has_key2 county_info "prediction_2027" "projected_voters"
  && has_key county_info "youth_percentage"
  && has_key2 county_info "results_2022" "turnout"
  && has_key2 county_info "prediction_2027" "trend".

(** The record is a dictionary whose [prediction_2027], if present, is a
    dictionary: what the pages "with safe access" can read. *)
Definition optional_prediction (county_info : value) : bool :=
  match county_info with
  | VDict d =>
      match dict_lookup "prediction_2027" d with
      | None | Some (VDict _) => true
      | Some _ => false
      end
  | _ => false
  end.

(** The alias table read backwards: the pairs swapped, the last one first. *)
Definition swapped (m : dict string) : dict string :=
  rev (map (fun kv => (snd kv, fst kv)) m).

(** A column of a list of rows. *)
Definition column (name : string) (rows : list (dict value)) : list (option value) :=
  map (dict_lookup name) rows.

(** The exceptions of a failed subscript with a string key. *)
Definition subscript_error (e : exn) : Prop :=
  e = TypeError \/ exists k, e = KeyError (VStr k).

(** The record can be grouped by swing potential: its [prediction_2027] is
    absent or a dictionary, and the category, if present, can be hashed. *)
Definition groupable (county_info : value) : bool :=
  match county_info with
  | VDict d =>
      match dict_lookup "prediction_2027" d with
      | None => true
      | Some (VDict p) =>
          match dict_lookup "swing_potential" p with
          | Some (VList _) | Some (VDict _) => false
          | _ => true
          end
      | Some _ => false
      end
  | _ => false
  end.

(** The names of the items whose category is one of [levels], in document
    order. *)
Definition names_in (levels : list string) (items : dict value) : list string :=
  map fst (filter (fun kv => existsb (String.eqb (item_level kv)) levels) items).

(** The [new_youth_voters] that the loop of [total_new_youth] reads from a
    record. *)
Definition new_youth_of (county_info : value) : value :=
  match county_info with
  | VDict d =>
      match dict_lookup "prediction_2027" d with
      | Some (VDict p) => dict_get "new_youth_voters" (VInt 0) p
      | _ => VInt 0
      end
  | _ => VInt 0
  end.

(** A county document with three counties, one of them with a category
    that is not among the five levels and one without a category. *)
Definition county_data_unknown_category : value :=
  VDict [("counties",
          VDict [("Nairobi", sample_county "Very High");
                 ("Lamu", sample_county "Extreme");
                 ("Meru", county_without_prediction);
                 ("Kisii", sample_county "High")])].

(** [data['elections'][str(year)]['turnout']] *)
Definition turnout_of (data : value) (year : Z) : result value :=
  elections <- data.["elections"] ;;
  election <- elections.[int_to_string year] ;;
  election.["turnout"].


(** An election document without a record for 2013. *)
Definition election_data_without_2013 : value :=
  VDict [("elections",
          VDict [("2002", election_record (VInt 57) None);
                 ("2007", election_record (VInt 69) None);
                 ("2017", election_record (VInt 80) None);
                 ("2022", election_record (VInt 65) None)])].

(** A file system without any of the three documents. *)
Definition no_files (name : string) : option string := None.

(** The sample file system with a boundary document whose text is the
    JSON literal [null], and a parser that reads it. *)
Definition files_with_null_boundary (name : string) : option string :=
  if String.eqb name "kenya_counties.geojson" then Some "null"
  else sample_files name.

Definition json_loads_with_null (content : string) : parse_result :=
  if String.eqb content "null" then Parsed VNone
  else sample_json_loads content.

(** The sample file system with the text of the county document in the
    place of the election document. *)
Definition files_with_wrong_election_document (name : string) : option string :=
  if String.eqb name "election_data.json" then Some "counties"
  else sample_files name.


(** * Properties *)

(** ** Examples *)

Example json_float_57_18 :
  json_float 5718 (-2) = S754_finite false 8047369584157655 (-47).
Proof. vm_compute. reflexivity. Qed.

Example format_fixed_examples :
  map (format_fixed false 2)
    [VFloat (json_float 125 (-3)); VFloat (json_float 375 (-3));
     VFloat (json_float (-1) (-3)); VBool true; VInt 7]
  = [Ok "0.12"; Ok "0.38"; Ok "-0.00"; Ok "1.00"; Ok "7.00"] /\
  format_fixed true 1 (VInt 0) = Ok "+0.0" /\
  format_fixed false 2 (VStr "71.32") = Raise ValueError /\
  format_fixed false 2 VNone = Raise TypeError.
Proof. repeat split; vm_compute; reflexivity. Qed.

Example format_int_comma_examples :
  map format_int_comma [0; 999; 1000; 27820000; -1234567]
  = ["0"; "999"; "1,000"; "27,820,000"; "-1,234,567"].
Proof. vm_compute. reflexivity. Qed.

Example py_truediv_examples :
  py_truediv (VInt 1) (VInt 0) = Raise ZeroDivisionError /\
  py_truediv (VInt 0) (VInt (-5)) = Ok (S754_zero true) /\
  py_truediv (VInt (10 ^ 400)) (VInt 3) = Raise OverflowError /\
  py_truediv (VStr "5") (VInt 100) = Raise TypeError.
Proof. repeat split; vm_compute; reflexivity. Qed.

Example py_sum_examples :
  py_sum LeftToRight [VInt 1; VBool true; VInt 40] = Ok (VInt 42) /\
  py_sum Compensated [VInt 1; VBool true; VInt 40] = Ok (VInt 42) /\
  py_sum LeftToRight [VInt 1; VStr "a"] = Raise TypeError /\
  py_sum Compensated [VInt 1; VStr "a"] = Raise TypeError.
Proof. repeat split; vm_compute; reflexivity. Qed.

Example py_getitem_examples :
  (VDict [("a", VInt 1)]).["a"] = Ok (VInt 1) /\
  (VDict [("a", VInt 1)]).["b"] = Raise (KeyError (VStr "b")) /\
  VNone.["a"] = Raise TypeError /\
  py_getitem (VList [VInt 1; VInt 2]) (VInt (-1)) = Ok (VInt 2) /\
  py_getitem (VList [VInt 1; VInt 2]) (VInt 2) = Raise IndexError /\
  py_get VNone "a" (VInt 0) = Raise AttributeError.
Proof. repeat split; reflexivity. Qed.

Example get_geojson_name_examples :
  map get_geojson_name ["Elgeyo Marakwet"; "Tharaka Nithi"; "Nairobi"]
  = ["Keiyo-Marakwet"; "Tharaka"; "Nairobi"] /\
  map get_data_name ["Keiyo-Marakwet"; "Tharaka"; "Nairobi"]
  = ["Elgeyo Marakwet"; "Tharaka Nithi"; "Nairobi"].
Proof. split; reflexivity. Qed.

Example sample_document_counts :
  rmap (fun rows => List.length rows) (map_data sample_county_data) = Ok 47%nat /\
  swing_counties LeftToRight sample_county_data = Ok (VInt 17) /\
  rmap (fun l => List.length l) (battleground sample_county_data) = Ok 17%nat /\
  rmap (map (fun g => (fst g, List.length (snd g)))) (swing_groups sample_county_data)
  = Ok [("Very High", 6%nat); ("High", 11%nat); ("Medium", 13%nat);
        ("Low", 9%nat); ("Very Low", 8%nat)] /\
  average_turnout_metric LeftToRight sample_election_data = Ok "71.32%" /\
  average_turnout_metric Compensated sample_election_data = Ok "71.32%" /\
  rmap regional_df (regional_patterns sample_election_data)
  = Ok [("Central", VFloat (json_float 690 (-1)), VFloat (json_float 301 (-1)),
         VFloat (json_float 4 (-1)));
        ("Nyanza", VFloat (json_float 610 (-1)), VFloat (json_float 76 (-1)),
         VFloat (json_float 308 (-1)))].
Proof. repeat split; vm_compute; reflexivity. Qed.

(** ** Dictionaries *)

Section DictFacts.
Variable V : Type.
Implicit Types (d : dict V) (k : string).

Lemma dict_lookup_None k d : ~ In k (dict_keys d) -> dict_lookup k d = None.
Proof.
  induction d as [|[k' v] d IH]; simpl; intros H; [reflexivity|].
  destruct (String.eqb_spec k k') as [->|Hne].
  - exfalso. apply H. now left.
  - apply IH. intros Hin. apply H. now right.
Qed.

Lemma dict_lookup_Some_In k v d : dict_lookup k d = Some v -> In (k, v) d.
Proof.
  induction d as [|[k' v'] d IH]; simpl; [discriminate|].
  destruct (String.eqb_spec k k') as [->|Hne].
  - intros [= ->]. now left.
  - intros H. right. now apply IH.
Qed.

Lemma dict_lookup_In k d :
  In k (dict_keys d) -> exists v, dict_lookup k d = Some v.
Proof.
  induction d as [|[k' v'] d IH]; simpl; [tauto|].
  intros [->|Hin].
  - rewrite String.eqb_refl. now exists v'.
  - destruct (String.eqb k k'); [now exists v'|now apply IH].
Qed.

Lemma dict_get_default k default d :
  ~ In k (dict_keys d) -> dict_get k default d = default.
Proof. intros H. unfold dict_get. now rewrite dict_lookup_None. Qed.

End DictFacts.

(** ** Name resolver *)


Example GEOJSON_TO_DATA_MAP_entries :
  GEOJSON_TO_DATA_MAP =
  [("Keiyo-Marakwet", "Elgeyo Marakwet"); ("Tharaka", "Tharaka Nithi")].
Proof. reflexivity. Qed.

(** C9: every alias pair of the table is translated forwards and backwards,
    a name outside the respective table is returned unchanged, and both
    functions return a name on every input. *)
Theorem name_resolver_consistent :
  (forall S G, In (S, G) COUNTY_NAME_MAP ->
     get_geojson_name S = G /\ get_data_name G = S) /\
  (forall N, ~ In N (dict_keys COUNTY_NAME_MAP) -> get_geojson_name N = N) /\
  (forall N, ~ In N (dict_keys GEOJSON_TO_DATA_MAP) -> get_data_name N = N) /\
  (forall N, exists G S, get_geojson_name N = G /\ get_data_name N = S).
Proof.
  repeat split.
  - destruct H as [[= <- <-]|[[= <- <-]|[]]]; reflexivity.
  - destruct H as [[= <- <-]|[[= <- <-]|[]]]; reflexivity.
  - intros N H. now apply dict_get_default.
  - intros N H. now apply dict_get_default.
  - intros N. eauto.
Qed.

Lemma name_resolver_consistent_witness :
  (get_geojson_name "Tharaka Nithi" = "Tharaka" /\
   get_data_name "Tharaka" = "Tharaka Nithi") /\
  get_geojson_name "Nairobi" = "Nairobi" /\
  get_data_name "Nairobi" = "Nairobi".
Proof.
  destruct name_resolver_consistent as [Hpair [Hfwd [Hback _]]].
  split; [|split].
  - apply Hpair. simpl. right. left. reflexivity.
  - apply Hfwd. simpl. intros [H|[H|[]]]; discriminate H.
  - apply Hback. simpl. intros [H|[H|[]]]; discriminate H.
Defined.

(** C1, as stated, fails at a GeoJSON spelling: the forward translation
    leaves it unchanged and the backward translation rewrites it. *)
Lemma roundtrip_geojson_spelling_changes :
  get_data_name (get_geojson_name "Keiyo-Marakwet") = "Elgeyo Marakwet" /\
  ~ (forall S, get_data_name (get_geojson_name S) = S).
Proof.
  split; [reflexivity|].
  intros H. specialize (H "Keiyo-Marakwet"). discriminate H.
Qed.

(** C1, amended: the round trip returns the original name for every name
    that is not itself a GeoJSON spelling of the table, whether or not the
    name is a key of the alias table. *)
Theorem roundtrip_data_name :
  forall S, ~ In S (dict_keys GEOJSON_TO_DATA_MAP) ->
    get_data_name (get_geojson_name S) = S.
Proof.
  intros S HS. unfold get_geojson_name, dict_get.
  destruct (dict_lookup S COUNTY_NAME_MAP) as [G|] eqn:HG.
  - apply dict_lookup_Some_In in HG.
    destruct HG as [[= <- <-]|[[= <- <-]|[]]]; reflexivity.
  - now apply dict_get_default.
Qed.

Lemma roundtrip_data_name_witness :
  get_data_name (get_geojson_name "Elgeyo Marakwet") = "Elgeyo Marakwet".
Proof.
  apply (@roundtrip_data_name "Elgeyo Marakwet").
  simpl. intros [H|[H|[]]]; discriminate H.
Defined.

(** ** Loops *)

Lemma filterM_ext {A} (p q : A -> result bool) l :
  (forall a, p a = q a) -> filterM p l = filterM q l.
Proof.
  intros H. induction l as [|a l IH]; simpl; [reflexivity|].
  now rewrite H, IH.
Qed.

Lemma mapM_ext {A B} (f g : A -> result B) l :
  (forall a, In a l -> f a = g a) -> mapM f l = mapM g l.
Proof.
  induction l as [|a l IH]; simpl; intros H; [reflexivity|].
  rewrite H by now left. rewrite IH; [reflexivity|].
  intros b Hb. apply H. now right.
Qed.

(** ** The builtin [sum] on integers *)

Lemma foldM_py_add_ints zs : forall i,
  foldM py_add (map VInt zs) (VInt i) = Ok (VInt (i + Zsum zs)).
Proof.
  induction zs as [|z zs IH]; intros i; simpl.
  - now rewrite Z.add_0_r.
  - rewrite IH. f_equal. f_equal. lia.
Qed.

Lemma sum_int_loop_ints zs : forall i,
  sum_int_loop (map VInt zs) i = Ok (VInt (i + Zsum zs)).
Proof.
  induction zs as [|z zs IH]; intros i; simpl.
  - now rewrite Z.add_0_r.
  - destruct (fits_long z && fits_long (i + z)).
    + rewrite IH. f_equal. f_equal. lia.
    + rewrite foldM_py_add_ints. f_equal. f_equal. lia.
Qed.

(** On integers both algorithms compute the exact sum. *)
Lemma py_sum_ints alg zs : py_sum alg (map VInt zs) = Ok (VInt (Zsum zs)).
Proof.
  destruct alg; simpl.
  - apply foldM_py_add_ints.
  - apply sum_int_loop_ints.
Qed.

Lemma Zsum_ones {A} (l : list A) :
  Zsum (map (fun _ => 1) l) = Z.of_nat (List.length l).
Proof.
  induction l as [|a l IH]; [reflexivity|].
  cbn [map Zsum fold_right List.length]. fold (Zsum (map (fun _ : A => 1) l)).
  rewrite IH. lia.
Qed.

Lemma py_sum_ones alg {A} (l : list A) :
  py_sum alg (map (fun _ => VInt 1) l) = Ok (VInt (Z.of_nat (List.length l))).
Proof.
  rewrite <- Zsum_ones, <- (py_sum_ints alg). f_equal.
  now rewrite map_map.
Qed.

Lemma Zsum_Permutation zs zs' : Permutation zs zs' -> Zsum zs = Zsum zs'.
Proof.
  induction 1; simpl; lia.
Qed.

(** ** County Predictions 2027: the two counts of high-swing counties *)

Lemma py_in_strings_swap v a b :
  py_in_strings v [a; b] = py_in_strings v [b; a].
Proof. unfold py_in_strings. simpl. rewrite !orb_false_r. apply orb_comm. Qed.

(** C10: the "Swing Counties" metric equals the number of battleground
    counties listed further down the page, on every county document (when
    one computation raises, so does the other, with the same exception). *)
Theorem swing_counties_eq_battleground :
  forall alg county_data,
    swing_counties alg county_data =
    (counties <- battleground county_data ;;
     Ok (VInt (Z.of_nat (List.length counties)))).
Proof.
  intros alg county_data. unfold swing_counties, battleground.
  destruct (county_data.["counties"]) as [counties|e]; simpl; [|reflexivity].
  destruct (py_iter counties) as [cs|e]; simpl; [|reflexivity].
  rewrite (filterM_ext (swing_potential_in ["High"; "Very High"] county_data)
             (swing_potential_in ["Very High"; "High"] county_data)).
  - destruct (filterM _ cs) as [selected|e]; simpl; [|reflexivity].
    apply py_sum_ones.
  - intros c. unfold swing_potential_in.
    destruct (prediction_of county_data c) as [pred|e]; [|reflexivity].
    cbn [bind].
    destruct (py_get pred "swing_potential" (VStr "")) as [sp|e];
      [|reflexivity].
    cbn [bind]. now rewrite py_in_strings_swap.
Qed.

(** ** County Predictions 2027: grouping by swing potential *)

Lemma nodupb_NoDup l : nodupb l = true -> NoDup l.
Proof.
  induction l as [|x l IH]; simpl; intros H; [constructor|].
  apply andb_true_iff in H as [Hx Hl]. constructor; [|now apply IH].
  intros Hin. apply negb_true_iff in Hx.
  assert (existsb (String.eqb x) l = true) as E.
  { apply existsb_exists. exists x. split; [assumption|apply String.eqb_refl]. }
  congruence.
Qed.

Lemma has_swing_category_level kv :
  has_swing_category (snd kv) = true -> In (item_level kv) swing_levels.
Proof.
  unfold has_swing_category, item_level.
  destruct (snd kv) as [| | | | |l|d]; try discriminate.
  destruct (dict_lookup "prediction_2027" d) as [[| | | | |l|p]|]; try discriminate.
  destruct (dict_lookup "swing_potential" p) as [[| | | |level|l|q]|];
    try discriminate.
  intros H. apply existsb_exists in H as [x [Hx E]].
  apply String.eqb_eq in E. now subst.
Qed.

Lemma swing_groups_step_level groups kv :
  has_swing_category (snd kv) = true ->
  swing_groups_step groups kv =
  Ok (if dict_mem (item_level kv) groups
      then group_append (item_level kv) (fst kv) groups else groups).
Proof.
  unfold has_swing_category, item_level, swing_groups_step.
  destruct (snd kv) as [| | | | |l|d]; try discriminate.
  simpl. unfold dict_get.
  destruct (dict_lookup "prediction_2027" d) as [[| | | | |l|p]|]; try discriminate.
  simpl. unfold dict_get.
  destruct (dict_lookup "swing_potential" p) as [[| | | |level|l|q]|];
    try discriminate.
  reflexivity.
Qed.

Lemma group_append_keys level name groups :
  dict_keys (group_append level name groups) = dict_keys groups.
Proof.
  induction groups as [|[k l] groups IH]; simpl; [reflexivity|].
  destruct (String.eqb level k); simpl; [reflexivity|].
  f_equal. exact IH.
Qed.

Lemma group_append_lookup level name groups k :
  dict_lookup k (group_append level name groups) =
  if String.eqb level k
  then option_map (fun l => (l ++ [name])%list) (dict_lookup k groups)
  else dict_lookup k groups.
Proof.
  induction groups as [|[k' l] groups IH]; simpl.
  - now destruct (String.eqb level k).
  - destruct (String.eqb level k') eqn:E1; destruct (String.eqb k k') eqn:E2;
      simpl; rewrite ?E2.
    + apply String.eqb_eq in E1, E2. subst. now rewrite String.eqb_refl.
    + apply String.eqb_eq in E1. subst.
      now rewrite String.eqb_sym, E2.
    + apply String.eqb_eq in E2. subst. now rewrite E1.
    + exact IH.
Qed.

Lemma dict_mem_lookup {V} k (d : dict V) :
  dict_mem k d = false -> dict_lookup k d = None.
Proof. unfold dict_mem. now destruct (dict_lookup k d). Qed.

(** The loop of [swing_groups]: it keeps the keys and extends the bucket of
    every level by the names of the items of that level. *)
Lemma swing_groups_loop items : forall groups,
  forallb (fun kv => has_swing_category (snd kv)) items = true ->
  exists groups',
    foldM swing_groups_step items groups = Ok groups' /\
    dict_keys groups' = dict_keys groups /\
    forall k, dict_lookup k groups' =
              option_map (fun l => (l ++ names_with k items)%list)
                (dict_lookup k groups).
Proof.
  induction items as [|kv items IH]; intros groups Hwf.
  - exists groups. repeat split. intros k. unfold names_with. simpl.
    destruct (dict_lookup k groups); simpl; [|reflexivity].
    now rewrite app_nil_r.
  - simpl in Hwf. apply andb_true_iff in Hwf as [Hkv Hwf].
    simpl. rewrite (swing_groups_step_level groups kv Hkv). simpl.
    set (groups1 := if dict_mem (item_level kv) groups
                    then group_append (item_level kv) (fst kv) groups
                    else groups).
    destruct (IH groups1 Hwf) as [groups' [Hrun [Hkeys Hlook]]].
    exists groups'. split; [exact Hrun|]. split.
    + rewrite Hkeys. unfold groups1.
      destruct (dict_mem (item_level kv) groups); [|reflexivity].
      apply group_append_keys.
    + intros k. rewrite Hlook.
      assert (dict_lookup k groups1 =
              if String.eqb (item_level kv) k
              then option_map (fun l => (l ++ [fst kv])%list) (dict_lookup k groups)
              else dict_lookup k groups) as ->.
      { unfold groups1.
        destruct (dict_mem (item_level kv) groups) eqn:Hmem.
        - apply group_append_lookup.
        - destruct (String.eqb_spec (item_level kv) k) as [<-|_]; [|reflexivity].
          now rewrite (dict_mem_lookup _ _ Hmem). }
      unfold names_with. simpl. rewrite (String.eqb_sym k (item_level kv)).
      destruct (String.eqb (item_level kv) k);
        destruct (dict_lookup k groups); simpl; try reflexivity.
      now rewrite <- app_assoc.
Qed.

(** A dictionary with the five levels as keys is determined by its buckets. *)
Lemma five_buckets (groups : dict (list string)) :
  dict_keys groups = swing_levels ->
  groups = map (fun level => (level, dict_get level [] groups)) swing_levels.
Proof.
  unfold dict_keys, swing_levels.
  destruct groups as [|[k1 l1] [|[k2 l2] [|[k3 l3] [|[k4 l4] [|[k5 l5] [|? ?]]]]]];
    try discriminate.
  simpl. intros [= -> -> -> -> ->]. reflexivity.
Qed.

Lemma names_with_In level items c :
  In c (names_with level items) <->
  exists info, In (c, info) items /\ item_level (c, info) = level.
Proof.
  unfold names_with. rewrite in_map_iff. split.
  - intros [[c' info] [<- H]]. apply filter_In in H as [Hin E].
    apply String.eqb_eq in E. simpl. eauto.
  - intros [info [Hin E]]. exists (c, info). split; [reflexivity|].
    apply filter_In. split; [assumption|]. apply String.eqb_eq. now symmetry.
Qed.

Lemma names_with_NoDup level items :
  NoDup (dict_keys items) -> NoDup (names_with level items).
Proof.
  unfold names_with, dict_keys.
  induction items as [|kv items IH]; simpl; intros H; [constructor|].
  inversion H as [|x l Hx Hl]; subst.
  destruct (String.eqb level (item_level kv)); simpl; [|now apply IH].
  constructor; [|now apply IH].
  intros Hin. apply Hx. apply in_map_iff in Hin as [kv' [E Hin]].
  apply filter_In in Hin as [Hin _]. apply in_map_iff. eauto.
Qed.

Lemma unique_record (items : dict value) c info info' :
  NoDup (dict_keys items) ->
  In (c, info) items -> In (c, info') items -> info = info'.
Proof.
  unfold dict_keys. induction items as [|[k v] items IH]; simpl; [tauto|].
  intros H. inversion H as [|x l Hx Hl]; subst.
  intros [E1|H1] [E2|H2].
  - congruence.
  - injection E1 as -> ->. exfalso. apply Hx. apply in_map_iff.
    now exists (c, info').
  - injection E2 as -> ->. exfalso. apply Hx. apply in_map_iff.
    now exists (c, info).
  - now apply IH.
Qed.

(** Every item falls in exactly one of the five filters. *)
Lemma names_with_total items :
  forallb (fun kv => has_swing_category (snd kv)) items = true ->
  list_sum (map (fun level => List.length (names_with level items)) swing_levels)
  = List.length items.
Proof.
  induction items as [|kv items IH]; [reflexivity|].
  simpl forallb. intros H. apply andb_true_iff in H as [Hkv Hwf].
  specialize (IH Hwf). apply has_swing_category_level in Hkv.
  unfold swing_levels, names_with in *. simpl in IH |- *.
  destruct Hkv as [E|[E|[E|[E|[E|[]]]]]]; rewrite <- E; simpl; lia.
Qed.

Lemma well_formed_county_document_inv county_data :
  well_formed_county_document county_data = true ->
  exists top counties,
    county_data = VDict top /\
    dict_lookup "counties" top = Some (VDict counties) /\
    List.length counties = 47%nat /\
    NoDup (dict_keys counties) /\
    forallb (fun kv => has_swing_category (snd kv)) counties = true.
Proof.
  unfold well_formed_county_document.
  destruct county_data as [| | | | |l|top]; try discriminate.
  destruct (dict_lookup "counties" top) as [[| | | | |l|counties]|] eqn:E;
    try discriminate.
  intros H. apply andb_true_iff in H as [H Hall].
  apply andb_true_iff in H as [Hlen Hnd].
  exists top, counties. repeat split; try assumption.
  - now apply Nat.eqb_eq.
  - now apply nodupb_NoDup.
Qed.

(** C5: on a well-formed county document the grouping returns the five
    buckets in the order of the levels; every county is in exactly one
    bucket, once; the buckets hold county names only; and the five sizes
    add up to 47. *)
Theorem swing_groups_partition :
  forall county_data,
    well_formed_county_document county_data = true ->
    exists groups,
      swing_groups county_data = Ok groups /\
      dict_keys groups = swing_levels /\
      (forall c, In c (county_names county_data) ->
         exists! level, In c (dict_get level [] groups)) /\
      (forall level, NoDup (dict_get level [] groups)) /\
      (forall level c, In c (dict_get level [] groups) ->
         In c (county_names county_data)) /\
      list_sum (map (fun g => List.length (snd g)) groups) = 47%nat.
Proof.
  intros county_data Hwf.
  destruct (well_formed_county_document_inv _ Hwf)
    as [top [counties [-> [Hc [Hlen [Hnd Hall]]]]]].
  destruct (swing_groups_loop counties empty_swing_groups Hall)
    as [groups [Hrun [Hkeys Hlook]]].
  assert (forall level, dict_get level [] groups =
            if existsb (String.eqb level) swing_levels
            then names_with level counties else []) as Hbucket.
  { intros level. unfold dict_get. rewrite Hlook.
    unfold empty_swing_groups, swing_levels. simpl.
    repeat (match goal with
            | |- context [String.eqb level ?s] =>
                destruct (String.eqb level s); simpl; [reflexivity|]
            end).
    reflexivity. }
  assert (forall level c, In c (dict_get level [] groups) ->
            In level swing_levels /\ In c (names_with level counties)) as Hin.
  { intros level c. rewrite Hbucket.
    destruct (existsb (String.eqb level) swing_levels) eqn:E; [|intros []].
    intros H. split; [|exact H].
    apply existsb_exists in E as [x [Hx E]]. apply String.eqb_eq in E.
    now subst. }
  exists groups. unfold swing_groups, county_names, county_records.
  simpl. rewrite Hc. simpl. split; [exact Hrun|].
  split; [exact Hkeys|]. split; [|split; [|split]].
  - intros c Hc'. apply in_map_iff in Hc' as [[c' info] [E Hci]].
    simpl in E. subst c'.
    assert (In (item_level (c, info)) swing_levels) as Hlevel.
    { apply (has_swing_category_level (c, info)).
      rewrite forallb_forall in Hall. apply (Hall (c, info) Hci). }
    exists (item_level (c, info)). split.
    + rewrite Hbucket.
      assert (existsb (String.eqb (item_level (c, info))) swing_levels = true) as ->.
      { apply existsb_exists. exists (item_level (c, info)).
        split; [assumption|apply String.eqb_refl]. }
      apply names_with_In. eauto.
    + intros level' H'. apply Hin in H' as [_ H'].
      apply names_with_In in H' as [info' [Hci' E]].
      now rewrite (unique_record _ _ _ _ Hnd Hci Hci').
  - intros level. rewrite Hbucket.
    destruct (existsb (String.eqb level) swing_levels); [|constructor].
    now apply names_with_NoDup.
  - intros level c H. apply Hin in H as [_ H].
    apply names_with_In in H as [info [Hci _]].
    apply in_map_iff. now exists (c, info).
  - rewrite (five_buckets groups) by exact Hkeys.
    rewrite map_map. simpl snd.
    rewrite <- Hlen, <- (names_with_total counties Hall).
    f_equal. apply map_ext_in. intros level Hlevel. rewrite Hbucket.
    assert (existsb (String.eqb level) swing_levels = true) as ->; [|reflexivity].
    apply existsb_exists. exists level. split; [assumption|apply String.eqb_refl].
Qed.

Lemma swing_groups_partition_witness :
  exists groups,
    swing_groups sample_county_data = Ok groups /\
    dict_keys groups = swing_levels /\
    (forall c, In c (county_names sample_county_data) ->
       exists! level, In c (dict_get level [] groups)) /\
    (forall level, NoDup (dict_get level [] groups)) /\
    (forall level c, In c (dict_get level [] groups) ->
       In c (county_names sample_county_data)) /\
    list_sum (map (fun g => List.length (snd g)) groups) = 47%nat.
Proof.
  apply (swing_groups_partition sample_county_data).
  vm_compute. reflexivity.
Defined.

(** ** Missing optional fields *)

(** County Predictions 2027 reads a record without [prediction_2027]
    through the defaults. *)
Lemma county_pred_row_without_prediction county_name d :
  dict_lookup "prediction_2027" d = None ->
  county_pred_row county_name (VDict d) =
  Ok [("County", VStr county_name);
      ("Projected Voters", VInt 0);
      ("New Youth Voters", VInt 0);
      ("Likely Turnout", VInt 0);
      ("Trend", VStr "Unknown");
      ("Swing Potential", VStr "Unknown")].
Proof.
  intros H. unfold county_pred_row. simpl. unfold dict_get. now rewrite H.
Qed.

(** County Analysis reads a record without [results_2017] as all zero. *)
Lemma turnout_change_without_results_2017 d turnout_2022 :
  dict_lookup "results_2017" d = None ->
  (r22 <- py_get (VDict d) "results_2022" empty_dict ;;
   py_get r22 "turnout" (VInt 0)) = Ok turnout_2022 ->
  turnout_change (VDict d) =
  (change <- py_sub turnout_2022 (VInt 0) ;;
   Ok (turnout_2022, VInt 0, change)).
Proof.
  intros H17 H22. unfold turnout_change.
  destruct (py_get (VDict d) "results_2022" empty_dict) as [r22|e];
    [|discriminate].
  cbn [bind] in *. rewrite H22. cbn [bind py_get].
  unfold dict_get at 1. rewrite H17. reflexivity.
Qed.

Lemma gov_shift_without_results_2017 d results_2022 :
  dict_lookup "results_2017" d = None ->
  py_get (VDict d) "results_2022" empty_dict = Ok results_2022 ->
  vote_shift (VDict d) =
  (ruto <- py_get results_2022 "Ruto" (VInt 0) ;;
   g <- py_sub ruto (VInt 0) ;;
   odinga <- py_get results_2022 "Odinga" (VInt 0) ;;
   o <- py_sub odinga (VInt 0) ;;
   Ok (g, o)).
Proof.
  intros H17 H22. unfold vote_shift. cbn [py_get bind].
  assert (dict_get "results_2017" empty_dict d = empty_dict) as ->
    by (unfold dict_get; now rewrite H17).
  cbn [py_get] in H22. injection H22 as ->.
  unfold gov_shift, opp_shift.
  destruct (py_get _ "Ruto" (VInt 0)) as [ruto|e]; [|reflexivity].
  cbn [bind empty_dict py_get dict_get dict_lookup].
  destruct (py_sub ruto (VInt 0)) as [g|e]; [|reflexivity].
  cbn [bind].
  destruct (py_get _ "Odinga" (VInt 0)) as [odinga|e]; reflexivity.
Qed.

(** C2, at a county without [prediction_2027]: the row loop of the
    Interactive Map subscripts the record and raises [KeyError], where the
    row loop of County Predictions 2027 renders zero and "Unknown" for the
    same county. *)
Theorem map_data_missing_prediction_raises :
  map_data county_data_missing_prediction
    = Raise (KeyError (VStr "prediction_2027")) /\
  exists first third,
    county_pred_data county_data_missing_prediction =
    Ok [first;
        [("County", VStr "Lamu");
         ("Projected Voters", VInt 0);
         ("New Youth Voters", VInt 0);
         ("Likely Turnout", VInt 0);
         ("Trend", VStr "Unknown");
         ("Swing Potential", VStr "Unknown")];
        third].
Proof.
  split; [reflexivity|]. eexists. eexists. reflexivity.
Qed.

(** ** Regional Patterns *)

(** C4, as stated, fails when the 2002 record has no [regional] key: the
    view subscripts the record and raises [KeyError]. *)
Lemma regional_patterns_missing_raises :
  regional_patterns (election_data_with historical_turnouts None)
    = Raise (KeyError (VStr "regional")) /\
  ~ (exists cols,
       regional_patterns (election_data_with historical_turnouts None) = Ok cols
       /\ regional_df cols = []).
Proof.
  split; [reflexivity|].
  intros [cols [H _]]. discriminate H.
Qed.

(** C4, amended: a 2002 record with an empty regional breakdown gives zero
    rows and no error; a 2002 record without the key raises [KeyError]. *)
Theorem regional_patterns_degenerate :
  forall data elections election_2002,
    data.["elections"] = Ok elections ->
    elections.["2002"] = Ok (VDict election_2002) ->
    (dict_lookup "regional" election_2002 = Some (VDict []) ->
     exists cols, regional_patterns data = Ok cols /\ regional_df cols = []) /\
    (dict_lookup "regional" election_2002 = None ->
     regional_patterns data = Raise (KeyError (VStr "regional"))).
Proof.
  intros data elections election_2002 He H2002.
  unfold regional_patterns. rewrite He. cbn [bind]. rewrite H2002. cbn [bind].
  split; intros Hr; cbn [py_getitem]; rewrite Hr; [|reflexivity].
  eexists. split; reflexivity.
Qed.

Lemma regional_patterns_degenerate_witness :
  (exists cols,
     regional_patterns (election_data_with historical_turnouts (Some (VDict [])))
       = Ok cols /\ regional_df cols = []) /\
  regional_patterns (election_data_with historical_turnouts None)
    = Raise (KeyError (VStr "regional")).
Proof.
  pose proof (@regional_patterns_degenerate
                (election_data_with historical_turnouts (Some (VDict [])))
                _ _ eq_refl eq_refl) as [H _].
  pose proof (@regional_patterns_degenerate
                (election_data_with historical_turnouts None)
                _ _ eq_refl eq_refl) as [_ H'].
  split; [apply H|apply H']; reflexivity.
Defined.

(** ** County Analysis: vote shifts *)

(** C7: the government coalition shift is the 2022 Ruto share minus the
    2017 Kenyatta share and the opposition shift is the 2022 Odinga share
    minus the 2017 Odinga share; for Kenyatta 54.0, Odinga 44.9 (2017) and
    Ruto 50.5, Odinga 48.8 (2022) the two metrics read -3.5% and +3.9%. *)
Theorem vote_shift_spec :
  forall county_info results_2017 results_2022 kenyatta odinga_2017 ruto odinga_2022,
    dict_lookup "results_2017" county_info = Some (VDict results_2017) ->
    dict_lookup "results_2022" county_info = Some (VDict results_2022) ->
    dict_lookup "Kenyatta" results_2017 = Some kenyatta ->
    dict_lookup "Odinga" results_2017 = Some odinga_2017 ->
    dict_lookup "Ruto" results_2022 = Some ruto ->
    dict_lookup "Odinga" results_2022 = Some odinga_2022 ->
    vote_shift (VDict county_info) =
      (g <- py_sub ruto kenyatta ;;
       o <- py_sub odinga_2022 odinga_2017 ;;
       Ok (g, o)) /\
    (kenyatta = VFloat (json_float 540 (-1)) ->
     odinga_2017 = VFloat (json_float 449 (-1)) ->
     ruto = VFloat (json_float 505 (-1)) ->
     odinga_2022 = VFloat (json_float 488 (-1)) ->
     vote_shift_metrics (VDict county_info) = Ok ("-3.5%", "+3.9%") /\
     rmap fst (vote_shift (VDict county_info))
       = Ok (VFloat (json_float (-35) (-1)))).
Proof.
  intros county_info results_2017 results_2022 kenyatta odinga_2017 ruto
    odinga_2022 H17 H22 Hk Ho17 Hr Ho22.
  assert (vote_shift (VDict county_info) =
            (g <- py_sub ruto kenyatta ;;
             o <- py_sub odinga_2022 odinga_2017 ;;
             Ok (g, o))) as Hshift.
  { unfold vote_shift, gov_shift, opp_shift. cbn [py_get bind].
    unfold dict_get. rewrite H17, H22. cbn [py_get bind].
    unfold dict_get. now rewrite Hk, Ho17, Hr, Ho22. }
  split; [exact Hshift|].
  intros -> -> -> ->. unfold vote_shift_metrics, rmap. rewrite Hshift.
  split; vm_compute; reflexivity.
Qed.

Lemma vote_shift_spec_witness :
  vote_shift_metrics (sample_county "High") = Ok ("-3.5%", "+3.9%").
Proof.
  refine (proj1 (proj2 (@vote_shift_spec _ _ _ _ _ _ _ _ _ _ _ _ _) _ _ _ _));
    reflexivity.
Defined.

(** ** 2027 National Predictions: projected votes *)

Section Rounding.
Variables p emx : Z.






End Rounding.

(** *** The integer part of a quotient by 100 *)

Lemma digits2_pos_bounds p :
  2 ^ (Z.pos (digits2_pos p) - 1) <= Z.pos p < 2 ^ Z.pos (digits2_pos p).
Proof.
  induction p as [p IH|p IH|]; simpl digits2_pos.
  - rewrite Pos2Z.inj_succ.
    replace (Z.succ (Z.pos (digits2_pos p)) - 1) with (Z.pos (digits2_pos p) - 1 + 1) by lia.
    rewrite Z.pow_succ_r by lia. rewrite Z.pow_add_r by lia. lia.
  - rewrite Pos2Z.inj_succ.
    replace (Z.succ (Z.pos (digits2_pos p)) - 1) with (Z.pos (digits2_pos p) - 1 + 1) by lia.
    rewrite Z.pow_succ_r by lia. rewrite Z.pow_add_r by lia. lia.
  - simpl. lia.
Qed.

Lemma Zdigits2_unique z d :
  0 < d -> 2 ^ (d - 1) <= z < 2 ^ d -> Zdigits2 z = d.
Proof.
  intros Hd [Hlo Hhi].
  assert (0 < z) as Hz by (pose proof (Z.pow_pos_nonneg 2 (d - 1)); lia).
  destruct z as [|p|p]; try lia. simpl.
  pose proof (digits2_pos_bounds p) as [Hlo' Hhi'].
  set (d' := Z.pos (digits2_pos p)) in *.
  destruct (Z.lt_trichotomy d' d) as [Hlt|[Heq|Hgt]]; [|assumption|].
  - exfalso. assert (2 ^ d' <= 2 ^ (d - 1)) by (apply Z.pow_le_mono_r; lia). lia.
  - exfalso. assert (2 ^ d <= 2 ^ (d' - 1)) by (apply Z.pow_le_mono_r; lia). lia.
Qed.

Lemma shr_m_of_loc m l : shr_m (shr_record_of_loc m l) = m.
Proof. destruct l as [|[]]; reflexivity. Qed.

Lemma shr_m_shr_1 mrs : 0 <= shr_m mrs -> shr_m (shr_1 mrs) = shr_m mrs / 2.
Proof.
  destruct mrs as [m r s]. cbn [shr_m]. intros H.
  rewrite <- Z.div2_div.
  destruct m as [|[p|p|]|p]; try reflexivity. lia.
Qed.

Lemma round_nearest_even_cases m l :
  round_nearest_even m l = m \/ round_nearest_even m l = m + 1.
Proof.
  destruct l as [|[]]; simpl; auto. destruct (Z.even m); auto.
Qed.

(** One rounding step of a mantissa of 53 or 54 bits. *)
Lemma shr_fexp_normal q e l :
  2 ^ 52 <= q < 2 ^ 54 -> -1000 <= e <= 0 ->
  exists mrs t,
    shr_fexp prec emax q e l = (mrs, e + t) /\
    (t = 0 \/ t = 1) /\ shr_m mrs = q / 2 ^ t /\
    (t = 0 -> q < 2 ^ 53) /\ (t = 1 -> 2 ^ 53 <= q).
Proof.
  intros Hq He. unfold shr_fexp.
  destruct (Z_lt_le_dec q (2 ^ 53)) as [Hlt|Hge].
  - rewrite (@Zdigits2_unique q 53) by lia.
    assert (fexp prec emax (53 + e) - e = 0) as -> by (unfold fexp, emin, prec, emax; lia).
    exists (shr_record_of_loc q l), 0. simpl shr. rewrite Z.add_0_r.
    repeat split; auto; try lia.
    rewrite shr_m_of_loc. now rewrite Z.div_1_r.
  - rewrite (@Zdigits2_unique q 54) by lia.
    assert (fexp prec emax (54 + e) - e = 1) as -> by (unfold fexp, emin, prec, emax; lia).
    exists (shr_1 (shr_record_of_loc q l)), 1. simpl shr.
    repeat split; auto; try lia.
    rewrite shr_m_shr_1; rewrite shr_m_of_loc; [reflexivity|lia].
Qed.

Lemma binary_round_aux_normal q e l :
  2 ^ 52 <= q < 2 ^ 54 -> -1000 <= e <= -2 ->
  exists m t t2 c,
    binary_round_aux prec emax false q e l = S754_finite false m (e + t + t2) /\
    (t = 0 \/ t = 1) /\ (t2 = 0 \/ t2 = 1) /\ (c = 0 \/ c = 1) /\
    Z.pos m * 2 ^ t2 = q / 2 ^ t + c.
Proof.
  intros Hq He. unfold binary_round_aux.
  destruct (@shr_fexp_normal q e l Hq) as [mrs [t [-> [Ht [Hm [Ht0 Ht1]]]]]]; [lia|].
  set (m2 := round_nearest_even (shr_m mrs) (loc_of_shr_record mrs)).
  assert (2 ^ 52 <= shr_m mrs < 2 ^ 53) as Hm1.
  { rewrite Hm. destruct Ht as [-> | ->].
    - rewrite Z.div_1_r. specialize (Ht0 eq_refl). lia.
    - specialize (Ht1 eq_refl). change (2 ^ 1) with 2.
      split.
      + apply Z.div_le_lower_bound; lia.
      + apply Z.div_lt_upper_bound; lia. }
  assert (exists c, (c = 0 \/ c = 1) /\ m2 = shr_m mrs + c) as [c [Hc Hm2]].
  { unfold m2.
    destruct (round_nearest_even_cases (shr_m mrs) (loc_of_shr_record mrs))
      as [-> | ->]; [exists 0|exists 1]; split; auto; lia. }
  assert (2 ^ 52 <= m2 < 2 ^ 54) as Hm2r by lia.
  destruct (@shr_fexp_normal m2 (e + t) loc_Exact Hm2r)
    as [mrs2 [t2 [-> [Ht2 [Hm3 [Ht20 Ht21]]]]]]; [lia|].
  assert (Z.pos (Z.to_pos (shr_m mrs2)) * 2 ^ t2 = m2 /\ 0 < shr_m mrs2) as [Hfin Hpos].
  { rewrite Hm3. destruct Ht2 as [-> | ->].
    - rewrite Z.div_1_r, Z.mul_1_r. split; [|lia]. rewrite Z2Pos.id; lia.
    - specialize (Ht21 eq_refl). assert (m2 = 2 ^ 53) as -> by lia.
      split; reflexivity. }
  destruct (shr_m mrs2) as [|m|m] eqn:Em; try lia.
  assert ((e + t + t2 <=? emax - prec) = true) as ->
    by (apply Z.leb_le; unfold emax, prec; lia).
  exists m, t, t2, c. repeat split; auto.
  simpl Z.to_pos in Hfin. rewrite Hfin, Hm2, Hm. reflexivity.
Qed.

(** The division of an integer below [2 ^ 52] by 100 rounds to a float
    with the same integer part. *)
Lemma fdiv_100_integer_part p :
  Z.pos p < 2 ^ 52 ->
  exists m e,
    fdiv (exact_int (Z.pos p)) (exact_int 100) = S754_finite false m e /\
    e < 0 /\ Z.pos m / 2 ^ (- e) = Z.pos p / 100.
Proof.
  intros Hp. unfold fdiv, exact_int, SFdiv, SFdiv_core_binary.
  pose proof (digits2_pos_bounds p) as [Hlo Hhi].
  set (d := Z.pos (digits2_pos p)) in *.
  assert (1 <= d <= 52) as Hd.
  { split; [unfold d; lia|].
    destruct (Z_le_gt_dec d 52) as [|Hgt]; [assumption|exfalso].
    assert (2 ^ 52 <= 2 ^ (d - 1)) by (apply Z.pow_le_mono_r; lia). lia. }
  change (Zdigits2 (Z.pos p)) with d.
  change (Zdigits2 100) with 7.
  assert (Z.min (fexp prec emax (d + 0 - (7 + 0))) (0 - 0) = d - 60) as ->
    by (unfold fexp, emin, prec, emax; lia).
  replace (0 - 0 - (d - 60)) with (60 - d) by lia.
  destruct (60 - d) as [|s|s] eqn:Es; try lia.
  rewrite Z.shiftl_mul_pow2 by lia. rewrite <- Es.
  set (M := Z.pos p * 2 ^ (60 - d)).
  assert (2 ^ 59 <= M < 2 ^ 60) as HM.
  { unfold M.
    assert (2 ^ 59 = 2 ^ (d - 1) * 2 ^ (60 - d)) as ->
      by (rewrite <- Z.pow_add_r by lia; f_equal; lia).
    assert (2 ^ 60 = 2 ^ d * 2 ^ (60 - d)) as ->
      by (rewrite <- Z.pow_add_r by lia; f_equal; lia).
    assert (0 < 2 ^ (60 - d)) by (apply Z.pow_pos_nonneg; lia).
    split; [apply Z.mul_le_mono_nonneg_r|apply Z.mul_lt_mono_pos_r]; lia. }
  unfold Z.div_eucl at 1. fold (Z.div_eucl M 100).
  pose proof (Z_div_mod M 100 ltac:(lia)) as Hdm.
  destruct (Z.div_eucl M 100) as [q r] eqn:Eqr.
  assert (q = M / 100) as Hq by (unfold Z.div; now rewrite Eqr).
  assert (2 ^ 52 <= q < 2 ^ 54) as Hqr.
  { rewrite Hq. split.
    - apply Z.div_le_lower_bound; lia.
    - apply Z.div_lt_upper_bound; lia. }
  destruct (@binary_round_aux_normal q (d - 60) (new_location 100 r) Hqr)
    as [m [t [t2 [c [Hr [Ht [Ht2 [Hc Hv]]]]]]]]; [lia|].
  exists m, (d - 60 + t + t2). split; [exact Hr|]. split; [lia|].
  set (B := 2 ^ (60 - d - t)).
  assert (128 <= B) as HB.
  { unfold B. change 128 with (2 ^ 7). apply Z.pow_le_mono_r; lia. }
  assert (0 < 2 ^ t /\ 0 < 2 ^ t2) as [Hpt Hpt2]
    by (split; apply Z.pow_pos_nonneg; lia).
  assert (Z.pos m / 2 ^ (- (d - 60 + t + t2)) = (q / 2 ^ t + c) / B) as ->.
  { rewrite <- Hv. unfold B.
    replace (60 - d - t) with (- (d - 60 + t + t2) + t2) by lia.
    rewrite Z.pow_add_r by lia.
    rewrite Z.div_mul_cancel_r; [reflexivity| |lia].
    apply Z.pow_nonzero; lia. }
  assert (q / 2 ^ t = Z.pos p * B / 100) as ->.
  { rewrite Hq. unfold M.
    replace (60 - d) with (60 - d - t + t) by lia.
    rewrite Z.pow_add_r by lia. fold B.
    rewrite Z.div_div by lia.
    rewrite Z.mul_assoc.
    rewrite Z.div_mul_cancel_r; [reflexivity|lia|lia]. }
  set (n := Z.pos p / 100). set (f := Z.pos p mod 100).
  assert (Z.pos p = 100 * n + f /\ 0 <= f < 100) as [Hpnf Hf].
  { unfold n, f. split; [apply Z.div_mod; lia|apply Z.mod_pos_bound; lia]. }
  set (x := Z.pos p * B / 100).
  assert (100 * x <= Z.pos p * B < 100 * x + 100) as Hx.
  { unfold x. pose proof (Z.div_mod (Z.pos p * B) 100 ltac:(lia)).
    pose proof (Z.mod_pos_bound (Z.pos p * B) 100 ltac:(lia)). lia. }
  assert (Z.pos p * B = 100 * (n * B) + f * B) as HpB by (rewrite Hpnf; ring).
  assert (0 <= f * B <= 99 * B) as HfB.
  { split; [apply Z.mul_nonneg_nonneg; lia|apply Z.mul_le_mono_nonneg_r; lia]. }
  symmetry. apply (Z.div_unique _ B n (x + c - n * B)); [lia|].
  ring.
Qed.

Lemma py_truediv_int_100 k :
  0 <= k < 2 ^ 52 ->
  exists q, py_truediv (VInt k) (VInt 100) = Ok q /\ py_int q = Ok (k / 100).
Proof.
  intros Hk. unfold py_truediv. cbn [as_number].
  change (100 =? 0) with false. cbv iota.
  destruct k as [|p|p]; [| |lia].
  - eexists. split; reflexivity.
  - destruct (@fdiv_100_integer_part p) as [m [e [-> [He Hv]]]]; [lia|].
    eexists. split; [reflexivity|].
    cbn [py_int signed_mantissa].
    assert ((0 <=? e) = false) as -> by (apply Z.leb_gt; lia).
    f_equal. rewrite <- Hv. apply Z.quot_div_nonneg; [lia|].
    apply Z.pow_pos_nonneg; lia.
Qed.


(** *** Truncation and floor *)







(** Below zero [int] and the floor differ: [int(50 * -1 / 100)] is 0. *)
Example projected_votes_truncates :
  projected_votes (VDict [("total_projected_voters", VInt 50)])
    (VDict [("turnout", VInt (-1))]) = Ok 0 /\
  (share <- projected_share (VDict [("total_projected_voters", VInt 50)])
              (VDict [("turnout", VInt (-1))]) ;;
   float_floor share) = Ok (-1).
Proof. split; vm_compute; reflexivity. Qed.

Example projected_votes_sample :
  mapM (projected_votes sample_predictions)
    [VDict [("turnout", VInt 75)];
     VDict [("turnout", VFloat (json_float 675 (-1)))];
     VDict [("turnout", VInt 55)]]
  = Ok [20865000; 18778500; 15301000].
Proof. vm_compute. reflexivity. Qed.


(** ** Turnout Trends: the mean turnout *)

Lemma insert_everywhere_In {A} (x : A) l1 l2 :
  In (l1 ++ x :: l2)%list (insert_everywhere x (l1 ++ l2)).
Proof.
  induction l1 as [|y l1 IH]; simpl.
  - destruct l2; now left.
  - right. apply in_map_iff. now exists (l1 ++ x :: l2)%list.
Qed.

(** [permutations] lists every ordering. *)
Lemma permutations_complete {A} (l : list A) :
  forall l', Permutation l' l -> In l' (permutations l).
Proof.
  induction l as [|x l IH]; intros l' H; simpl.
  - left. symmetry. apply Permutation_nil. now symmetry.
  - assert (In x l') as Hx.
    { apply (Permutation_in x (Permutation_sym H)). now left. }
    apply in_split in Hx as [l1 [l2 ->]].
    apply in_flat_map. exists (l1 ++ l2)%list. split.
    + apply IH. apply Permutation_sym in H.
      apply Permutation_cons_app_inv in H. now apply Permutation_sym.
    + apply insert_everywhere_In.
Qed.

(** The loop reads the five records in the order of the years. *)
Lemma turnout_loop_document a b c d e regional :
  turnout_loop (election_data_with [a; b; c; d; e] regional) =
  Ok {| years := election_years; turnouts := [a; b; c; d; e];
        registered := map (fun _ => VInt 14000000) election_years;
        votes_cast := map (fun _ => VInt 9000000) election_years |}.
Proof. destruct regional; reflexivity. Qed.

Lemma average_turnout_document alg ts regional :
  List.length ts = 5%nat ->
  average_turnout alg (election_data_with ts regional) = mean alg ts.
Proof.
  destruct ts as [|a [|b [|c [|d [|e [|? ?]]]]]]; try discriminate.
  intros _. unfold average_turnout. now rewrite turnout_loop_document.
Qed.

(** One iteration of the loop, as a lookup of the year's three fields. *)
Lemma turnout_loop_step_inv data acc year acc' :
  turnout_loop_step data acc year = Ok acc' ->
  exists turnout,
    (elections <- data.["elections"] ;;
     election <- elections.[int_to_string year] ;;
     election.["turnout"]) = Ok turnout /\
    years acc' = (years acc ++ [year])%list /\
    turnouts acc' = (turnouts acc ++ [turnout])%list.
Proof.
  unfold turnout_loop_step.
  destruct (data.["elections"]) as [elections|]; [|discriminate].
  cbn [bind].
  destruct (elections.[int_to_string year]) as [election|]; [|discriminate].
  cbn [bind].
  destruct (election.["turnout"]) as [turnout|]; [|discriminate].
  cbn [bind].
  destruct (election.["registered_voters"]) as [reg|]; [|discriminate].
  cbn [bind].
  destruct (election.["votes_cast"]) as [cast|]; [|discriminate].
  cbn [bind]. intros [= <-]. exists turnout. now repeat split.
Qed.

Lemma turnout_loop_inv data : forall ys acc lists,
  foldM (turnout_loop_step data) ys acc = Ok lists ->
  exists ts,
    mapM (fun year =>
            elections <- data.["elections"] ;;
            election <- elections.[int_to_string year] ;;
            election.["turnout"]) ys = Ok ts /\
    years lists = (years acc ++ ys)%list /\
    turnouts lists = (turnouts acc ++ ts)%list.
Proof.
  induction ys as [|year ys IH]; intros acc lists; simpl.
  - intros [= <-]. exists []. now rewrite !app_nil_r.
  - destruct (turnout_loop_step data acc year) as [acc'|] eqn:Hstep;
      [|discriminate].
    cbn [bind]. intros Hrest.
    destruct (turnout_loop_step_inv _ _ _ Hstep) as [turnout [Ht [Hy Hts]]].
    destruct (IH _ _ Hrest) as [ts [Hmap [Hy' Hts']]].
    exists (turnout :: ts). rewrite Ht. cbn [bind]. rewrite Hmap. cbn [bind].
    split; [reflexivity|].
    rewrite Hy', Hts', Hy, Hts, <- !app_assoc. now split.
Qed.

Lemma mapM_length {A B} (f : A -> result B) l l' :
  mapM f l = Ok l' -> List.length l' = List.length l.
Proof.
  revert l'. induction l as [|a l IH]; simpl; intros l'.
  - now intros [= <-].
  - destruct (f a); [|discriminate]. cbn [bind].
    destruct (mapM f l) as [bs|]; [|discriminate]. cbn [bind].
    intros [= <-]. simpl. f_equal. now apply IH.
Qed.

Lemma mean_ints alg zs :
  mean alg (map VInt zs) =
  py_truediv (VInt (Zsum zs)) (VInt (Z.of_nat (List.length zs))).
Proof. unfold mean. now rewrite py_sum_ints, length_map. Qed.

Lemma historical_turnouts_render alg :
  forallb (fun ts =>
             result_string_is "71.32%"
               (average_turnout_metric alg (election_data_with ts None)))
    (permutations historical_turnouts) = true.
Proof. destruct alg; vm_compute; reflexivity. Qed.

(** C6, as stated, fails on floats: the mean depends on the order of the
    five inputs. Summed from left to right, the inputs of the claim
    themselves give 71.32 in one order and 71.32000000000001 in the
    reverse order, and the displayed mean of
    [[39.8, 28.3, 4.95, 50.9, 57.475]] changes from 36.28 to 36.29. Under
    both summation algorithms the displayed mean of the five turnouts of
    [order_sensitive_turnouts], all between 0 and 100, changes from 12.96
    to 12.97 when they are reversed. *)
Lemma average_turnout_order_sensitive :
  ~ (forall ts ts', Permutation ts ts' ->
       average_turnout LeftToRight (election_data_with ts None) =
       average_turnout LeftToRight (election_data_with ts' None)) /\
  ~ (forall ts ts', Permutation ts ts' ->
       average_turnout Compensated (election_data_with ts None) =
       average_turnout Compensated (election_data_with ts' None)) /\
  average_turnout LeftToRight (election_data_with historical_turnouts None)
    = Ok (S754_finite false 5018698834750996 (-46)) /\
  average_turnout LeftToRight
    (election_data_with (rev historical_turnouts) None)
    = Ok (S754_finite false 5018698834750997 (-46)) /\
  average_turnout_metric LeftToRight
    (election_data_with display_sensitive_turnouts None) = Ok "36.28%" /\
  average_turnout_metric LeftToRight
    (election_data_with (rev display_sensitive_turnouts) None) = Ok "36.29%" /\
  map (fun alg => average_turnout_metric alg
                    (election_data_with order_sensitive_turnouts None))
    [LeftToRight; Compensated] = [Ok "12.96%"; Ok "12.96%"] /\
  map (fun alg => average_turnout_metric alg
                    (election_data_with (rev order_sensitive_turnouts) None))
    [LeftToRight; Compensated] = [Ok "12.97%"; Ok "12.97%"].
Proof.
  split; [|split].
  - intros H.
    specialize (H historical_turnouts (rev historical_turnouts)
                  (Permutation_rev _)).
    vm_compute in H. discriminate H.
  - intros H.
    specialize (H order_sensitive_turnouts (rev order_sensitive_turnouts)
                  (Permutation_rev _)).
    vm_compute in H. discriminate H.
  - repeat split; vm_compute; reflexivity.
Qed.

(** C6, amended: the mean turnout is [sum(turnouts) / 5] over the turnouts
    of exactly the five years 2002, 2007, 2013, 2017, 2022, in binary64
    arithmetic; reordering leaves it unchanged when the five turnouts are
    integers, whose sum is exact; and every ordering of
    [[57.18, 69.23, 85.91, 79.51, 64.77]] is displayed as 71.32. *)
Theorem average_turnout_spec :
  forall alg,
    (forall data lists,
       turnout_loop data = Ok lists ->
       years lists = [2002; 2007; 2013; 2017; 2022] /\
       mapM (fun year =>
               elections <- data.["elections"] ;;
               election <- elections.[int_to_string year] ;;
               election.["turnout"]) [2002; 2007; 2013; 2017; 2022]
         = Ok (turnouts lists) /\
       average_turnout alg data =
         (total <- py_sum alg (turnouts lists) ;; py_truediv total (VInt 5))) /\
    (forall zs zs',
       List.length zs = 5%nat -> Permutation zs zs' ->
       average_turnout alg (election_data_with (map VInt zs) None) =
       average_turnout alg (election_data_with (map VInt zs') None)) /\
    (forall ts,
       Permutation ts historical_turnouts ->
       average_turnout_metric alg (election_data_with ts None) = Ok "71.32%").
Proof.
  intros alg. split; [|split].
  - intros data lists Hloop. unfold turnout_loop in Hloop.
    destruct (turnout_loop_inv _ _ _ Hloop) as [ts [Hmap [Hy Hts]]].
    simpl in Hy, Hts. subst ts. split; [exact Hy|]. split; [exact Hmap|].
    unfold average_turnout, turnout_loop. rewrite Hloop. cbn [bind].
    unfold mean. now rewrite (mapM_length _ _ Hmap).
  - intros zs zs' Hlen Hperm.
    rewrite !average_turnout_document, !mean_ints.
    + now rewrite (Zsum_Permutation Hperm), (Permutation_length Hperm).
    + now rewrite length_map, <- (Permutation_length Hperm).
    + now rewrite length_map.
  - intros ts Hperm. apply permutations_complete in Hperm.
    pose proof (historical_turnouts_render alg) as H.
    rewrite forallb_forall in H. specialize (H ts Hperm).
    destruct (average_turnout_metric alg (election_data_with ts None));
      [|discriminate].
    simpl in H. apply String.eqb_eq in H. now subst.
Qed.

Lemma average_turnout_spec_witness :
  average_turnout_metric LeftToRight
    (election_data_with (rev historical_turnouts) None) = Ok "71.32%" /\
  average_turnout Compensated
    (election_data_with (map VInt [57; 69; 86; 80; 65]) None) =
  average_turnout Compensated
    (election_data_with (map VInt [65; 80; 86; 69; 57]) None).
Proof.
  split.
  - apply (proj2 (proj2 (average_turnout_spec LeftToRight))).
    apply Permutation_sym, Permutation_rev.
  - apply (proj1 (proj2 (average_turnout_spec Compensated)));
      [reflexivity|].
    apply (Permutation_rev [57; 69; 86; 80; 65]).
Defined.

(** ** The boundary document *)

Section AppFacts.

Variable json_loads : string -> parse_result.
Variable plot : string -> list (string * value) -> result unit.
Variable builtin_max : list value -> result value.
Variable builtin_min : list value -> result value.
Variable sorted_by_value_desc :
  list (string * value) -> result (list (string * value)).
Variable files : string -> option string.

Lemma quiet_lift {A} (r : result A) : quiet (lift r).
Proof. constructor. Qed.

Lemma quiet_done : quiet done.
Proof. constructor. Qed.

Lemma quiet_emit e : not_error e -> quiet (emit e).
Proof. intros H. constructor; [exact H|constructor]. Qed.

Lemma quiet_bind {A B} (m : render A) (k : A -> render B) :
  quiet m -> (forall a, quiet (k a)) -> quiet (bindR m k).
Proof.
  unfold quiet, bindR. intros Hm Hk.
  destruct (snd m) as [a|e]; simpl; [|exact Hm].
  apply Forall_app. split; [exact Hm|apply Hk].
Qed.

Lemma quiet_forR {A} (l : list A) (body : A -> render unit) :
  (forall a, quiet (body a)) -> quiet (forR l body).
Proof.
  intros H. induction l as [|a l IH]; simpl; [apply quiet_done|].
  apply quiet_bind; [apply H|intros _; exact IH].
Qed.

Lemma quiet_st_plot name data : quiet (st_plot plot name data).
Proof.
  unfold st_plot. apply quiet_bind; [apply quiet_lift|].
  intros _. now apply quiet_emit.
Qed.







End AppFacts.


(** ** The reverse alias table *)

Lemma dict_lookup_set_same {V} k (v : V) d :
  dict_lookup k (dict_set k v d) = Some v.
Proof.
  induction d as [|[k' v'] d IH]; simpl.
  - now rewrite String.eqb_refl.
  - destruct (String.eqb k k') eqn:E; simpl; rewrite E; auto.
Qed.

Lemma dict_lookup_set_other {V} k k' (v : V) d :
  k <> k' -> dict_lookup k' (dict_set k v d) = dict_lookup k' d.
Proof.
  intros N. induction d as [|[k0 v0] d IH]; simpl.
  - destruct (String.eqb_spec k' k); congruence.
  - destruct (String.eqb_spec k k0) as [->|N0]; simpl.
    + destruct (String.eqb_spec k' k0); congruence.
    + destruct (String.eqb_spec k' k0); auto.
Qed.

Lemma dict_lookup_app {V} k (d1 d2 : dict V) :
  dict_lookup k (d1 ++ d2)%list =
  match dict_lookup k d1 with
  | Some v => Some v
  | None => dict_lookup k d2
  end.
Proof.
  induction d1 as [|[k' v'] d1 IH]; simpl; auto.
  destruct (String.eqb k k'); auto.
Qed.

Lemma invert_loop m : forall acc v,
  dict_lookup v (fold_left (fun acc kv => dict_set (snd kv) (fst kv) acc) m acc) =
  match dict_lookup v (swapped m) with
  | Some k => Some k
  | None => dict_lookup v acc
  end.
Proof.
  unfold swapped.
  induction m as [|[k0 v0] m IH]; intros acc v; simpl; auto.
  rewrite IH, dict_lookup_app. simpl.
  destruct (dict_lookup v (rev (map (fun kv => (snd kv, fst kv)) m))); auto.
  destruct (String.eqb_spec v v0) as [->|N].
  - apply dict_lookup_set_same.
  - apply dict_lookup_set_other. congruence.
Qed.

Lemma dict_lookup_NoDup {V} k (v : V) d :
  NoDup (dict_keys d) -> In (k, v) d -> dict_lookup k d = Some v.
Proof.
  induction d as [|[k' v'] d IH]; simpl; intros ND H; [tauto|].
  inversion ND as [|? ? Hn ND']; subst.
  destruct H as [E|H].
  - injection E as -> ->. now rewrite String.eqb_refl.
  - destruct (String.eqb_spec k k') as [->|N]; auto.
    exfalso. apply Hn. unfold dict_keys. apply in_map_iff.
    exists (k', v). auto.
Qed.

(** X1: The dictionary comprehension of line 66 builds the reverse of any
    alias table: looking a spelling up gives the last data name that the
    table maps to it; when no two data names share a spelling, every pair
    of the table is found again the other way round. *)
Theorem invert_dict_lookup :
  forall m : dict string,
    (forall v, dict_lookup v (invert_dict m) = dict_lookup v (swapped m)) /\
    (NoDup (map snd m) ->
     forall k v, In (k, v) m -> dict_lookup v (invert_dict m) = Some k).
Proof.
  intros m.
  assert (L : forall v, dict_lookup v (invert_dict m) = dict_lookup v (swapped m)).
  { intros v. unfold invert_dict. rewrite invert_loop. simpl.
    now destruct (dict_lookup v (swapped m)). }
  split; [exact L|].
  intros ND k v H. rewrite L. apply dict_lookup_NoDup.
  - unfold swapped, dict_keys. rewrite <- map_rev, map_map. simpl.
    rewrite map_rev. apply NoDup_rev. exact ND.
  - unfold swapped. apply in_rev. rewrite rev_involutive.
    apply in_map_iff. exists (k, v). auto.
Qed.

Lemma invert_dict_lookup_witness :
  dict_lookup "Tharaka" (invert_dict COUNTY_NAME_MAP) = Some "Tharaka Nithi".
Proof.
  apply (proj2 (invert_dict_lookup COUNTY_NAME_MAP)).
  - repeat constructor; simpl; intuition discriminate.
  - simpl. auto.
Defined.

(** ** The name resolver applied twice *)

Lemma get_geojson_name_cases s :
  (s = "Elgeyo Marakwet" /\ get_geojson_name s = "Keiyo-Marakwet") \/
  (s = "Tharaka Nithi" /\ get_geojson_name s = "Tharaka") \/
  (s <> "Elgeyo Marakwet" /\ s <> "Tharaka Nithi" /\ get_geojson_name s = s).
Proof.
  unfold get_geojson_name, dict_get, COUNTY_NAME_MAP. simpl.
  destruct (String.eqb_spec s "Elgeyo Marakwet") as [->|?]; [auto|].
  destruct (String.eqb_spec s "Tharaka Nithi") as [->|?]; auto.
Qed.

Lemma get_data_name_cases s :
  (s = "Keiyo-Marakwet" /\ get_data_name s = "Elgeyo Marakwet") \/
  (s = "Tharaka" /\ get_data_name s = "Tharaka Nithi") \/
  (s <> "Keiyo-Marakwet" /\ s <> "Tharaka" /\ get_data_name s = s).
Proof.
  unfold get_data_name, dict_get.
  change GEOJSON_TO_DATA_MAP with
    [("Keiyo-Marakwet", "Elgeyo Marakwet"); ("Tharaka", "Tharaka Nithi")].
  simpl.
  destruct (String.eqb_spec s "Keiyo-Marakwet") as [->|?]; [auto|].
  destruct (String.eqb_spec s "Tharaka") as [->|?]; auto.
Qed.

(** X2: Converting a name that is already converted changes nothing, in
    either direction. *)
Theorem name_resolver_idempotent :
  forall s,
    get_geojson_name (get_geojson_name s) = get_geojson_name s /\
    get_data_name (get_data_name s) = get_data_name s.
Proof.
  intros s. split.
  - destruct (get_geojson_name_cases s) as [[-> E]|[[-> E]|(_ & _ & E)]];
      rewrite E; try reflexivity; exact E.
  - destruct (get_data_name_cases s) as [[-> E]|[[-> E]|(_ & _ & E)]];
      rewrite E; try reflexivity; exact E.
Qed.

(** X3: From a boundary-file name back to the same name: the round trip
    through the statistical spelling returns every name that is not itself
    a statistical spelling with an alias. *)
Theorem roundtrip_geojson_name :
  forall G, ~ In G (dict_keys COUNTY_NAME_MAP) ->
    get_geojson_name (get_data_name G) = G.
Proof.
  intros G N. simpl in N.
  destruct (get_data_name_cases G) as [[-> E]|[[-> E]|(_ & _ & E)]];
    rewrite E; try reflexivity.
  destruct (get_geojson_name_cases G) as [[-> _]|[[-> _]|(_ & _ & E')]];
    tauto.
Qed.

Lemma roundtrip_geojson_name_witness :
  get_geojson_name (get_data_name "Keiyo-Marakwet") = "Keiyo-Marakwet".
Proof.
  apply roundtrip_geojson_name. simpl. intuition discriminate.
Defined.

Lemma get_geojson_name_injective a b :
  ~ In a (dict_keys GEOJSON_TO_DATA_MAP) ->
  ~ In b (dict_keys GEOJSON_TO_DATA_MAP) ->
  get_geojson_name a = get_geojson_name b -> a = b.
Proof.
  change (dict_keys GEOJSON_TO_DATA_MAP) with ["Keiyo-Marakwet"; "Tharaka"].
  simpl. intros Na Nb.
  destruct (get_geojson_name_cases a) as [[-> Ea]|[[-> Ea]|(? & ? & Ea)]];
  destruct (get_geojson_name_cases b) as [[-> Eb]|[[-> Eb]|(? & ? & Eb)]];
    rewrite ?Ea, ?Eb; intros E; try reflexivity; try discriminate;
    subst; tauto.
Qed.

(** ** The rows of the Interactive Map *)

Ltac bind_inv H :=
  repeat match type of H with
         | bind ?m _ = Ok _ =>
             let E := fresh "E" in
             destruct m eqn:E; cbn [bind] in H; [|discriminate H]
         end.

Lemma county_dict_names name info row :
  county_dict name info = Ok row ->
  dict_lookup "County" row = Some (VStr (get_geojson_name name)) /\
  dict_lookup "Display_Name" row = Some (VStr name).
Proof.
  unfold county_dict. intros H. bind_inv H.
  injection H as <-. split; reflexivity.
Qed.

Lemma mapM_inv {A B} (f : A -> result B) l : forall l',
  mapM f l = Ok l' -> Forall2 (fun a b => f a = Ok b) l l'.
Proof.
  induction l as [|a l IH]; simpl; intros l' H.
  - injection H as <-. constructor.
  - destruct (f a) eqn:E; [|discriminate]. cbn [bind] in H.
    destruct (mapM f l) eqn:E'; [|discriminate]. cbn [bind] in H.
    injection H as <-. constructor; auto.
Qed.

Lemma mapM_Ok_iff {A B} (f : A -> result B) l :
  (exists l', mapM f l = Ok l') <-> (forall a, In a l -> exists b, f a = Ok b).
Proof.
  induction l as [|a l IH]; simpl.
  - split; [tauto|]. intros _. eauto.
  - split.
    + intros [l' H] x [<-|Hx].
      * destruct (f a); [eauto|discriminate].
      * destruct (f a); [|discriminate]. cbn [bind] in H.
        destruct (mapM f l) eqn:E; [|discriminate].
        apply (proj1 IH); eauto.
    + intros H. destruct (H a) as [b Eb]; auto. rewrite Eb. cbn [bind].
      destruct (proj2 IH) as [l' El]; auto. rewrite El. cbn [bind]. eauto.
Qed.

Lemma map_data_inv county_data rows :
  map_data county_data = Ok rows ->
  exists top,
    county_data = VDict top /\
    dict_lookup "counties" top = Some (VDict (county_records county_data)) /\
    mapM (fun kv => county_dict (fst kv) (snd kv)) (county_records county_data)
      = Ok rows.
Proof.
  unfold map_data, county_records, py_getitem. intros H.
  destruct county_data as [| | | | |?|top]; try discriminate.
  destruct (dict_lookup "counties" top) as [counties|] eqn:L; [|discriminate].
  cbn [bind] in H. destruct counties; try discriminate.
  cbn [py_items bind] in H. exists top. auto.
Qed.

Lemma NoDup_map_in {A B} (f : A -> B) l :
  (forall a b, In a l -> In b l -> f a = f b -> a = b) ->
  NoDup l -> NoDup (map f l).
Proof.
  induction l as [|x l IH]; simpl; intros Inj ND; [constructor|].
  inversion ND as [|? ? Hn ND']; subst. constructor.
  - intros H. apply in_map_iff in H. destruct H as (y & E & Hy).
    apply Hn. rewrite (Inj x y); auto.
  - apply IH; auto.
Qed.

(** X4: When the rows of the map are built there is one per county, in
    document order; each carries the county's name as [Display_Name] and
    its boundary-file spelling as the join key [County]. If the county
    names are distinct and none is itself a boundary-file spelling of
    another county, the join keys are distinct. *)
Theorem map_data_join_keys :
  forall county_data rows,
    map_data county_data = Ok rows ->
    column "Display_Name" rows =
      map (fun c => Some (VStr c)) (county_names county_data) /\
    column "County" rows =
      map (fun c => Some (VStr (get_geojson_name c))) (county_names county_data) /\
    (NoDup (county_names county_data) ->
     (forall c, In c (county_names county_data) ->
        ~ In c (dict_keys GEOJSON_TO_DATA_MAP)) ->
     NoDup (column "County" rows)).
Proof.
  intros county_data rows H.
  destruct (map_data_inv _ H) as (top & _ & _ & M).
  unfold county_names. clear H.
  apply mapM_inv in M.
  assert (C : column "Display_Name" rows =
              map (fun c => Some (VStr c)) (dict_keys (county_records county_data)) /\
              column "County" rows =
              map (fun c => Some (VStr (get_geojson_name c)))
                (dict_keys (county_records county_data))).
  { induction M as [|[name info] row items rows' Hrow _ IH]; simpl; auto.
    destruct (county_dict_names _ _ Hrow) as [E1 E2]. destruct IH as [I1 I2].
    unfold column in *. rewrite E1, E2, I1, I2. auto. }
  destruct C as [C1 C2]. split; [exact C1|]. split; [exact C2|].
  intros ND Hn. rewrite C2.
  apply NoDup_map_in; auto.
  intros a b Ha Hb E. injection E as E.
  apply get_geojson_name_injective; auto.
Qed.

Lemma map_data_join_keys_witness :
  exists rows,
    map_data sample_county_data = Ok rows /\
    In (Some (VStr "Keiyo-Marakwet")) (column "County" rows) /\
    NoDup (column "County" rows).
Proof.
  destruct (map_data sample_county_data) as [rows|] eqn:E;
    [|vm_compute in E; discriminate E].
  exists rows. split; [reflexivity|].
  destruct (map_data_join_keys _ E) as (_ & C & N). split.
  - rewrite C. vm_compute. tauto.
  - apply N.
    + apply nodupb_NoDup. vm_compute. reflexivity.
    + intros c Hc Hg. vm_compute in Hc, Hg.
      repeat (destruct Hc as [<-|Hc]; [intuition discriminate|]). exact Hc.
Defined.

(** ** Subscripts and [.get] *)

Lemma getitem_str_inv v k x :
  v.[k] = Ok x -> exists d, v = VDict d /\ dict_lookup k d = Some x.
Proof.
  destruct v as [| | | | |?|d]; simpl; try discriminate.
  destruct (dict_lookup k d) eqn:E; [|discriminate].
  intros H. injection H as ->. eauto.
Qed.

Lemma getitem_str_cases v k :
  (exists x, v.[k] = Ok x) \/ (exists e, v.[k] = Raise e /\ subscript_error e).
Proof.
  unfold subscript_error.
  destruct v as [| | | | |?|d]; simpl; eauto.
  destruct (dict_lookup k d); eauto 6.
Qed.

Lemma has_key_getitem v k :
  has_key v k = true <-> exists x, v.[k] = Ok x.
Proof.
  split.
  - destruct v as [| | | | |?|d]; simpl; try discriminate.
    unfold dict_mem. destruct (dict_lookup k d); [eauto|discriminate].
  - intros [x H]. apply getitem_str_inv in H. destruct H as (d & -> & L).
    simpl. unfold dict_mem. now rewrite L.
Qed.

Lemma has_key2_subscript2 v a b :
  has_key2 v a b = true <-> exists x, subscript2 v a b = Ok x.
Proof.
  unfold subscript2. split.
  - destruct v as [| | | | |?|d]; simpl; try discriminate.
    destruct (dict_lookup a d) as [y|]; [|discriminate]. cbn [bind].
    apply has_key_getitem.
  - intros [x H]. destruct (v.[a]) as [y|] eqn:E; [|discriminate].
    cbn [bind] in H. apply getitem_str_inv in E. destruct E as (d & -> & L).
    simpl. rewrite L. apply has_key_getitem. eauto.
Qed.

Lemma subscript2_cases v a b :
  (exists x, subscript2 v a b = Ok x) \/
  (exists e, subscript2 v a b = Raise e /\ subscript_error e).
Proof.
  unfold subscript2.
  destruct (getitem_str_cases v a) as [[y ->]|(e & -> & He)]; cbn [bind]; eauto.
  apply getitem_str_cases.
Qed.

(** ** The Interactive Map needs every field of every county *)

Lemma county_dict_complete name info :
  complete_county info = true <-> exists row, county_dict name info = Ok row.
Proof.
  unfold complete_county. rewrite !andb_true_iff.
  rewrite !has_key2_subscript2, has_key_getitem.
  unfold county_dict. split.
  - intros (((((([a Ha] & [b Hb]) & [c Hc]) & [d Hd]) & [e He]) & [f Hf]) & [g Hg]).
    rewrite Ha, Hb, Hc, Hd, He, Hf, Hg. cbn [bind]. eauto.
  - intros [row H]. bind_inv H. repeat split; eauto.
Qed.

Lemma county_dict_cases name info :
  (exists row, county_dict name info = Ok row) \/
  (exists e, county_dict name info = Raise e /\ subscript_error e).
Proof.
  unfold county_dict.
  repeat match goal with
         | |- context [bind (subscript2 ?v ?a ?b) _] =>
             destruct (subscript2_cases v a b) as [[? ->]|(? & -> & ?)];
               cbn [bind]
         | |- context [bind (?v.[?k]) _] =>
             destruct (getitem_str_cases v k) as [[? ->]|(? & -> & ?)];
               cbn [bind]
         end;
  eauto.
Qed.

Lemma mapM_cases {A B} (f : A -> result B) (P : exn -> Prop) l :
  (forall a, (exists b, f a = Ok b) \/ (exists e, f a = Raise e /\ P e)) ->
  (exists l', mapM f l = Ok l') \/ (exists e, mapM f l = Raise e /\ P e).
Proof.
  intros H. induction l as [|a l IH]; simpl; [eauto|].
  destruct (H a) as [[b ->]|(e & -> & He)]; cbn [bind]; [|eauto].
  destruct IH as [[l' ->]|(e & -> & He)]; cbn [bind]; eauto.
Qed.

(** X5: The rows of the Interactive Map are built for all counties or for
    none: the loop succeeds exactly when every county record carries the
    seven fields it subscripts, and otherwise it raises [KeyError] or
    [TypeError]. *)
Theorem map_data_needs_every_county :
  forall county_data counties,
    county_data.["counties"] = Ok (VDict counties) ->
    ((exists rows, map_data county_data = Ok rows) <->
     forallb (fun kv => complete_county (snd kv)) counties = true) /\
    (forallb (fun kv => complete_county (snd kv)) counties = false ->
     exists e, map_data county_data = Raise e /\ subscript_error e).
Proof.
  intros county_data counties L.
  assert (E : map_data county_data =
              mapM (fun kv => county_dict (fst kv) (snd kv)) counties).
  { unfold map_data. rewrite L. reflexivity. }
  rewrite E.
  assert (I : (exists rows, mapM (fun kv => county_dict (fst kv) (snd kv)) counties
                            = Ok rows) <->
              forallb (fun kv => complete_county (snd kv)) counties = true).
  { rewrite mapM_Ok_iff, forallb_forall. split; intros H kv Hkv.
    - apply (county_dict_complete (fst kv)). auto.
    - apply county_dict_complete. auto. }
  split; [exact I|].
  intros F.
  destruct (mapM_cases (fun kv => county_dict (fst kv) (snd kv))
              subscript_error counties) as [H|H]; auto.
  - intros kv. apply county_dict_cases.
  - apply I in H. congruence.
Qed.

Lemma map_data_needs_every_county_witness :
  (exists rows, map_data sample_county_data = Ok rows) /\
  exists e, map_data county_data_missing_prediction = Raise e /\ subscript_error e.
Proof.
  split.
  - apply (proj1 (@map_data_needs_every_county sample_county_data _ eq_refl)).
    vm_compute. reflexivity.
  - apply (proj2 (@map_data_needs_every_county
                    county_data_missing_prediction _ eq_refl)).
    vm_compute. reflexivity.
Defined.

(** ** County Predictions: what safe access protects against *)

Lemma county_pred_row_cases name info :
  if optional_prediction info
  then exists row, county_pred_row name info = Ok row /\
                   dict_lookup "County" row = Some (VStr name)
  else county_pred_row name info = Raise AttributeError.
Proof.
  unfold optional_prediction, county_pred_row.
  destruct info as [| | | | |?|d]; simpl; auto.
  unfold dict_get.
  destruct (dict_lookup "prediction_2027" d) as [pred|];
    [destruct pred|]; simpl; eauto.
Qed.

(** X6: The table of the County Predictions page is built whenever every
    county record is a dictionary whose [prediction_2027] is absent or a
    dictionary, with one row per county in document order; a record that
    is not a dictionary, or a [prediction_2027] that is present but not a
    dictionary (a JSON null, say), raises [AttributeError]. *)
Theorem county_pred_data_safe_access :
  forall county_data counties,
    county_data.["counties"] = Ok (VDict counties) ->
    (forallb (fun kv => optional_prediction (snd kv)) counties = true ->
     exists rows,
       county_pred_data county_data = Ok rows /\
       column "County" rows = map (fun kv => Some (VStr (fst kv))) counties) /\
    (forallb (fun kv => optional_prediction (snd kv)) counties = false ->
     county_pred_data county_data = Raise AttributeError).
Proof.
  intros county_data counties L.
  assert (E : county_pred_data county_data =
              mapM (fun kv => county_pred_row (fst kv) (snd kv)) counties).
  { unfold county_pred_data. rewrite L. reflexivity. }
  rewrite E. clear E L.
  induction counties as [|[name info] counties [IHt IHf]]; simpl.
  - split; [eauto|discriminate].
  - pose proof (county_pred_row_cases name info) as C.
    destruct (optional_prediction info); simpl.
    + destruct C as (row & -> & Hrow). cbn [bind]. split.
      * intros F. destruct (IHt F) as (rows & -> & Hrows). cbn [bind].
        eexists. split; [reflexivity|]. simpl. now rewrite Hrow, Hrows.
      * intros F. now rewrite (IHf F).
    + rewrite C. split; [discriminate|reflexivity].
Qed.

Lemma county_pred_data_safe_access_witness :
  (exists rows,
     county_pred_data county_data_missing_prediction = Ok rows /\
     column "County" rows =
       [Some (VStr "Nairobi"); Some (VStr "Lamu"); Some (VStr "Meru")]) /\
  county_pred_data
    (VDict [("counties", VDict [("Lamu", VDict [("prediction_2027", VNone)])])])
  = Raise AttributeError.
Proof.
  split.
  - apply (proj1 (@county_pred_data_safe_access
                    county_data_missing_prediction _ eq_refl)).
    vm_compute. reflexivity.
  - apply (proj2 (@county_pred_data_safe_access
                    (VDict [("counties",
                             VDict [("Lamu", VDict [("prediction_2027", VNone)])])])
                    _ eq_refl)).
    vm_compute. reflexivity.
Defined.

(** ** The map and the predictions table show the same figures *)

Lemma county_dict_pred_row name info row :
  county_dict name info = Ok row ->
  exists prow,
    county_pred_row name info = Ok prow /\
    dict_lookup "Display_Name" row = dict_lookup "County" prow /\
    dict_lookup "Swing_Potential" row = dict_lookup "Swing Potential" prow /\
    dict_lookup "Projected_Voters_2027" row = dict_lookup "Projected Voters" prow /\
    dict_lookup "Trend_2027" row = dict_lookup "Trend" prow.
Proof.
  unfold county_dict, subscript2. intros H.
  destruct (info.["prediction_2027"]) as [pred|] eqn:Ep; [|discriminate].
  cbn [bind] in H.
  destruct (pred.["swing_potential"]) as [swing|] eqn:Es; [|discriminate].
  cbn [bind] in H.
  destruct (bind info.["results_2022"] (fun x => x.["Ruto"])) as [ruto|];
    [|discriminate]. cbn [bind] in H.
  destruct (bind info.["results_2022"] (fun x => x.["Odinga"])) as [odinga|];
    [|discriminate]. cbn [bind] in H.
  destruct (pred.["projected_voters"]) as [voters|] eqn:Ev; [|discriminate].
  cbn [bind] in H.
  destruct (info.["youth_percentage"]) as [youth|]; [|discriminate].
  cbn [bind] in H.
  destruct (bind info.["results_2022"] (fun x => x.["turnout"])) as [turnout|];
    [|discriminate]. cbn [bind] in H.
  destruct (pred.["trend"]) as [trend|] eqn:Et; [|discriminate].
  cbn [bind] in H. injection H as <-.
  apply getitem_str_inv in Ep. destruct Ep as (d & -> & Lp).
  apply getitem_str_inv in Es. destruct Es as (p & -> & Ls).
  apply getitem_str_inv in Ev. destruct Ev as (p' & Ep' & Lv).
  injection Ep' as <-.
  apply getitem_str_inv in Et. destruct Et as (p' & Ep' & Lt).
  injection Ep' as <-.
  unfold county_pred_row, py_get, dict_get. rewrite Lp. cbn [bind].
  rewrite Ls, Lv, Lt. eexists. split; [reflexivity|].
  repeat split.
Qed.

(** X7: Whenever the rows of the Interactive Map are built, the table of
    the County Predictions page is built too, and the two agree county by
    county on the name, the swing potential, the projected voters and the
    trend: no default value of the predictions table stands in for a
    figure that the map shows. *)
Theorem map_rows_agree_with_predictions :
  forall county_data rows,
    map_data county_data = Ok rows ->
    exists prows,
      county_pred_data county_data = Ok prows /\
      column "Display_Name" rows = column "County" prows /\
      column "Swing_Potential" rows = column "Swing Potential" prows /\
      column "Projected_Voters_2027" rows = column "Projected Voters" prows /\
      column "Trend_2027" rows = column "Trend" prows.
Proof.
  intros county_data rows H.
  destruct (map_data_inv _ H) as (top & -> & L & M).
  assert (E : county_pred_data (VDict top) =
              mapM (fun kv => county_pred_row (fst kv) (snd kv))
                (county_records (VDict top))).
  { unfold county_pred_data. simpl py_getitem. rewrite L. reflexivity. }
  rewrite E. clear E L H.
  apply mapM_inv in M.
  induction M as [|[name info] row items rows' Hrow _ IH]; simpl.
  - eexists. repeat split.
  - simpl in Hrow.
    destruct (county_dict_pred_row _ _ Hrow) as (prow & -> & E1 & E2 & E3 & E4).
    destruct IH as (prows & -> & I1 & I2 & I3 & I4). cbn [bind].
    eexists. split; [reflexivity|]. unfold column in *. simpl.
    rewrite E1, E2, E3, E4, I1, I2, I3, I4. repeat split.
Qed.

Lemma map_rows_agree_with_predictions_witness :
  exists rows prows,
    map_data sample_county_data = Ok rows /\
    county_pred_data sample_county_data = Ok prows /\
    column "Swing_Potential" rows = column "Swing Potential" prows.
Proof.
  destruct (map_data sample_county_data) as [rows|] eqn:E;
    [|vm_compute in E; discriminate E].
  destruct (map_rows_agree_with_predictions _ E) as (prows & P & _ & S & _).
  exists rows, prows. auto.
Defined.

(** ** Grouping by swing potential, for any document *)

Lemma dict_mem_keys {V} k (d : dict V) :
  dict_mem k d = existsb (String.eqb k) (dict_keys d).
Proof.
  unfold dict_mem. induction d as [|[k' v] d IH]; simpl; [reflexivity|].
  destruct (String.eqb k k'); simpl; auto.
Qed.

Lemma swing_groups_step_groupable groups kv :
  groupable (snd kv) = true ->
  dict_keys groups = swing_levels ->
  swing_groups_step groups kv =
  Ok (if dict_mem (item_level kv) groups
      then group_append (item_level kv) (fst kv) groups else groups).
Proof.
  unfold groupable, item_level, swing_groups_step. intros G K.
  assert (U : dict_mem "Unknown" groups = false)
    by (rewrite dict_mem_keys, K; reflexivity).
  assert (N : dict_mem "" groups = false)
    by (rewrite dict_mem_keys, K; reflexivity).
  destruct (snd kv) as [| | | | |l|d]; try discriminate.
  simpl. unfold dict_get.
  destruct (dict_lookup "prediction_2027" d) as [[| | | | |l|p]|];
    try discriminate; simpl; unfold dict_get; simpl.
  - destruct (dict_lookup "swing_potential" p) as [[| | | |level|l|q]|];
      try discriminate; simpl; rewrite ?U, ?N; reflexivity.
  - rewrite U, N. reflexivity.
Qed.

Lemma swing_groups_step_not_groupable groups kv :
  groupable (snd kv) = false ->
  swing_groups_step groups kv = Raise AttributeError \/
  swing_groups_step groups kv = Raise TypeError.
Proof.
  unfold groupable, swing_groups_step.
  destruct (snd kv) as [| | | | |l|d]; simpl; auto.
  unfold dict_get.
  destruct (dict_lookup "prediction_2027" d) as [[| | | | |l|p]|];
    simpl; auto; try discriminate.
  unfold dict_get.
  destruct (dict_lookup "swing_potential" p) as [[| | | |level|l|q]|];
    simpl; auto; discriminate.
Qed.

Lemma swing_groups_loop_groupable items : forall groups,
  dict_keys groups = swing_levels ->
  forallb (fun kv => groupable (snd kv)) items = true ->
  exists groups',
    foldM swing_groups_step items groups = Ok groups' /\
    dict_keys groups' = swing_levels /\
    forall k, dict_lookup k groups' =
              option_map (fun l => (l ++ names_with k items)%list)
                (dict_lookup k groups).
Proof.
  induction items as [|kv items IH]; intros groups K Hwf.
  - exists groups. repeat split; auto. intros k. unfold names_with. simpl.
    destruct (dict_lookup k groups); simpl; [|reflexivity].
    now rewrite app_nil_r.
  - simpl in Hwf. apply andb_true_iff in Hwf as [Hkv Hwf].
    simpl. rewrite (swing_groups_step_groupable groups kv Hkv K). simpl.
    set (groups1 := if dict_mem (item_level kv) groups
                    then group_append (item_level kv) (fst kv) groups
                    else groups).
    assert (K1 : dict_keys groups1 = swing_levels).
    { unfold groups1. destruct (dict_mem (item_level kv) groups); auto.
      now rewrite group_append_keys. }
    destruct (IH groups1 K1 Hwf) as [groups' [Hrun [Hkeys Hlook]]].
    exists groups'. split; [exact Hrun|]. split; [exact Hkeys|].
    intros k. rewrite Hlook.
    assert (dict_lookup k groups1 =
            if String.eqb (item_level kv) k
            then option_map (fun l => (l ++ [fst kv])%list) (dict_lookup k groups)
            else dict_lookup k groups) as ->.
    { unfold groups1.
      destruct (dict_mem (item_level kv) groups) eqn:Hmem.
      - apply group_append_lookup.
      - destruct (String.eqb_spec (item_level kv) k) as [<-|_]; [|reflexivity].
        now rewrite (dict_mem_lookup _ _ Hmem). }
    unfold names_with. simpl. rewrite (String.eqb_sym k (item_level kv)).
    destruct (String.eqb (item_level kv) k);
      destruct (dict_lookup k groups); simpl; try reflexivity.
    now rewrite <- app_assoc.
Qed.

Lemma swing_groups_loop_raises items : forall groups,
  dict_keys groups = swing_levels ->
  forallb (fun kv => groupable (snd kv)) items = false ->
  foldM swing_groups_step items groups = Raise AttributeError \/
  foldM swing_groups_step items groups = Raise TypeError.
Proof.
  induction items as [|kv items IH]; intros groups K F; [discriminate|].
  simpl in F. simpl.
  destruct (groupable (snd kv)) eqn:G.
  - rewrite (swing_groups_step_groupable groups kv G K). cbn [bind].
    apply IH; auto.
    destruct (dict_mem (item_level kv) groups); auto.
    now rewrite group_append_keys.
  - destruct (swing_groups_step_not_groupable groups kv G) as [-> | ->]; auto.
Qed.

Lemma swing_groups_run county_data counties :
  county_data.["counties"] = Ok (VDict counties) ->
  swing_groups county_data = foldM swing_groups_step counties empty_swing_groups.
Proof. unfold swing_groups. intros ->. reflexivity. Qed.

Lemma swing_groups_groupable county_data counties :
  county_data.["counties"] = Ok (VDict counties) ->
  forallb (fun kv => groupable (snd kv)) counties = true ->
  swing_groups county_data =
  Ok (map (fun level => (level, names_with level counties)) swing_levels).
Proof.
  intros L G. rewrite (swing_groups_run _ L).
  destruct (swing_groups_loop_groupable counties empty_swing_groups eq_refl G)
    as (groups & -> & K & Look).
  f_equal. rewrite (five_buckets groups K).
  apply map_ext_in. intros level Hl. f_equal.
  unfold dict_get. rewrite Look.
  unfold swing_levels in Hl. simpl in Hl.
  destruct Hl as [<-|[<-|[<-|[<-|[<-|[]]]]]]; reflexivity.
Qed.

(** X8: For every document whose records can be grouped, the five buckets
    are, in the order of the levels, the names of the counties of each
    level in document order; a record that is not a dictionary, a
    [prediction_2027] that is not a dictionary or a category that cannot
    be hashed makes the loop raise [AttributeError] or [TypeError]. *)
Theorem swing_groups_document_order :
  forall county_data counties,
    county_data.["counties"] = Ok (VDict counties) ->
    (forallb (fun kv => groupable (snd kv)) counties = true ->
     swing_groups county_data =
     Ok (map (fun level => (level, names_with level counties)) swing_levels)) /\
    (forallb (fun kv => groupable (snd kv)) counties = false ->
     swing_groups county_data = Raise AttributeError \/
     swing_groups county_data = Raise TypeError).
Proof.
  intros county_data counties L. split; intros G.
  - apply swing_groups_groupable; assumption.
  - rewrite (swing_groups_run _ L).
    apply swing_groups_loop_raises; auto.
Qed.

Lemma swing_groups_document_order_witness :
  swing_groups county_data_unknown_category =
  Ok [("Very High", ["Nairobi"]); ("High", ["Kisii"]); ("Medium", []);
      ("Low", []); ("Very Low", [])] /\
  (swing_groups
     (VDict [("counties",
              VDict [("Lamu",
                      VDict [("prediction_2027",
                              VDict [("swing_potential", VList [])])])])])
   = Raise AttributeError \/
   swing_groups
     (VDict [("counties",
              VDict [("Lamu",
                      VDict [("prediction_2027",
                              VDict [("swing_potential", VList [])])])])])
   = Raise TypeError).
Proof.
  split.
  - apply (proj1 (@swing_groups_document_order
                    county_data_unknown_category _ eq_refl)).
    vm_compute. reflexivity.
  - apply (proj2 (@swing_groups_document_order
                    (VDict [("counties",
                             VDict [("Lamu",
                                     VDict [("prediction_2027",
                                             VDict [("swing_potential",
                                                     VList [])])])])])
                    _ eq_refl)).
    vm_compute. reflexivity.
Defined.

Lemma bucket_names_with counties level :
  dict_get level []
    (map (fun level => (level, names_with level counties)) swing_levels) =
  if existsb (String.eqb level) swing_levels
  then names_with level counties else [].
Proof.
  unfold dict_get, swing_levels. simpl.
  repeat match goal with
         | |- context [String.eqb level ?s] =>
             let E := fresh "E" in
             destruct (String.eqb_spec level s) as [E|E];
               [rewrite E; reflexivity|]; simpl
         end.
  reflexivity.
Qed.

(** X9: A county is listed under "Detailed County Predictions" exactly when
    its category is one of the five levels: a county whose category is
    missing, misspelt or not a string is left out of every bucket without
    any message. *)
Theorem swing_groups_lists_known_categories :
  forall county_data counties,
    county_data.["counties"] = Ok (VDict counties) ->
    NoDup (dict_keys counties) ->
    forallb (fun kv => groupable (snd kv)) counties = true ->
    exists groups,
      swing_groups county_data = Ok groups /\
      forall c info, In (c, info) counties ->
        ((exists level, In c (dict_get level [] groups)) <->
         In (item_level (c, info)) swing_levels).
Proof.
  intros county_data counties L ND G.
  rewrite (swing_groups_groupable _ L G). eexists. split; [reflexivity|].
  intros c info Hc. split.
  - intros [level H]. rewrite bucket_names_with in H.
    destruct (existsb (String.eqb level) swing_levels) eqn:E; [|destruct H].
    apply existsb_exists in E. destruct E as (x & Hx & E).
    apply String.eqb_eq in E. subst x.
    apply names_with_In in H. destruct H as (info' & Hc' & <-).
    now rewrite (unique_record _ _ _ _ ND Hc Hc').
  - intros H. exists (item_level (c, info)). rewrite bucket_names_with.
    assert (existsb (String.eqb (item_level (c, info))) swing_levels = true) as ->.
    { apply existsb_exists. exists (item_level (c, info)).
      split; [assumption|apply String.eqb_refl]. }
    apply names_with_In. eauto.
Qed.

Lemma swing_groups_lists_known_categories_witness :
  exists groups,
    swing_groups county_data_unknown_category = Ok groups /\
    ~ (exists level, In "Lamu" (dict_get level [] groups)) /\
    ~ (exists level, In "Meru" (dict_get level [] groups)) /\
    (exists level, In "Kisii" (dict_get level [] groups)).
Proof.
  destruct (@swing_groups_lists_known_categories
              county_data_unknown_category _ eq_refl) as (groups & E & H).
  - apply nodupb_NoDup. vm_compute. reflexivity.
  - vm_compute. reflexivity.
  - exists groups. split; [exact E|]. split; [|split].
    + intros A. apply (H "Lamu" (sample_county "Extreme")) in A.
      * vm_compute in A. intuition discriminate.
      * simpl. auto.
    + intros A. apply (H "Meru" county_without_prediction) in A.
      * vm_compute in A. intuition discriminate.
      * simpl. auto.
    + apply (H "Kisii" (sample_county "High")).
      * simpl. auto.
      * vm_compute. auto.
Defined.

(** ** The high-swing comprehensions *)

Lemma filterM_map {A B} (p : B -> result bool) (g : A -> B) (q : A -> bool) l :
  (forall a, In a l -> p (g a) = Ok (q a)) ->
  filterM p (map g l) = Ok (map g (filter q l)).
Proof.
  induction l as [|a l IH]; simpl; intros H; [reflexivity|].
  rewrite (H a) by auto. cbn [bind]. rewrite IH by auto. cbn [bind].
  now destruct (q a).
Qed.

Lemma prediction_of_item county_data counties c info :
  county_data.["counties"] = Ok (VDict counties) ->
  dict_lookup c counties = Some info ->
  prediction_of county_data (VStr c) = py_get info "prediction_2027" empty_dict.
Proof.
  unfold prediction_of. intros -> L. simpl. now rewrite L.
Qed.

Lemma swing_potential_in_item levels county_data counties c info :
  county_data.["counties"] = Ok (VDict counties) ->
  dict_lookup c counties = Some info ->
  optional_prediction info = true ->
  ~ In "" levels ->
  swing_potential_in levels county_data (VStr c) =
  Ok (existsb (String.eqb (item_level (c, info))) levels).
Proof.
  intros L Hc O N. unfold swing_potential_in.
  rewrite (@prediction_of_item _ _ _ _ L Hc).
  assert (Hempty : existsb (String.eqb "") levels = false).
  { destruct (existsb (String.eqb "") levels) eqn:E; [|reflexivity].
    apply existsb_exists in E. destruct E as (x & Hx & E).
    apply String.eqb_eq in E. subst x. tauto. }
  assert (F : forall v, (forall s, py_eq_str v s = false) ->
                        py_in_strings v levels = false).
  { intros v Hv. unfold py_in_strings. clear -Hv.
    induction levels; simpl; [reflexivity|]. now rewrite Hv. }
  unfold optional_prediction in O. unfold item_level. cbn [snd].
  destruct info as [| | | | |l|d]; try discriminate.
  cbn [py_get bind]. unfold dict_get.
  destruct (dict_lookup "prediction_2027" d) as [[| | | | |l|p]|];
    try discriminate; cbn [empty_dict py_get bind dict_lookup]; unfold dict_get.
  - destruct (dict_lookup "swing_potential" p) as [[| | | |level|l|q]|];
      f_equal;
      first [ reflexivity
            | rewrite F, Hempty; [reflexivity | intros s; reflexivity] ].
  - reflexivity.
Qed.

Lemma high_swing_filter levels county_data counties :
  county_data.["counties"] = Ok (VDict counties) ->
  NoDup (dict_keys counties) ->
  forallb (fun kv => optional_prediction (snd kv)) counties = true ->
  ~ In "" levels ->
  filterM (swing_potential_in levels county_data)
    (map VStr (dict_keys counties)) =
  Ok (map VStr (names_in levels counties)).
Proof.
  intros L ND O N. unfold dict_keys, names_in. rewrite !map_map.
  apply (filterM_map (swing_potential_in levels county_data)
           (fun kv => VStr (fst kv))
           (fun kv => existsb (String.eqb (item_level kv)) levels)).
  intros [c info] H. simpl fst.
  apply swing_potential_in_item with (counties := counties); auto.
  - apply dict_lookup_NoDup; auto.
  - rewrite forallb_forall in O. apply (O (c, info) H).
Qed.

Lemma names_in_two a b items :
  Permutation (names_in [a; b] items)
    (names_with a items ++ if String.eqb a b then [] else names_with b items).
Proof.
  unfold names_in, names_with.
  induction items as [|kv items IH]; simpl.
  - destruct (String.eqb a b); constructor.
  - rewrite orb_false_r.
    rewrite (String.eqb_sym a (item_level kv)), (String.eqb_sym b (item_level kv)).
    destruct (String.eqb_spec (item_level kv) a) as [Ea|Na];
      destruct (String.eqb_spec (item_level kv) b) as [Eb|Nb]; simpl.
    + assert (E : a = b) by congruence.
      apply String.eqb_eq in E. rewrite E in *. simpl. now constructor.
    + now constructor.
    + destruct (String.eqb_spec a b) as [E|_]; [congruence|].
      simpl. now apply Permutation_cons_app.
    + exact IH.
Qed.

(** X10: The battleground list is, in document order, the names of the
    counties whose category is Very High or High, and the "Swing Counties"
    metric is their number; it never exceeds the number of counties. *)
Theorem battleground_document_order :
  forall alg county_data counties,
    county_data.["counties"] = Ok (VDict counties) ->
    NoDup (dict_keys counties) ->
    forallb (fun kv => optional_prediction (snd kv)) counties = true ->
    battleground county_data =
      Ok (map VStr (names_in ["Very High"; "High"] counties)) /\
    exists n,
      swing_counties alg county_data = Ok (VInt n) /\
      n = Z.of_nat (List.length (names_in ["Very High"; "High"] counties)) /\
      0 <= n <= Z.of_nat (List.length counties).
Proof.
  intros alg county_data counties L ND O.
  assert (B : battleground county_data =
              Ok (map VStr (names_in ["Very High"; "High"] counties))).
  { unfold battleground. rewrite L. simpl.
    apply high_swing_filter; auto. simpl. intuition discriminate. }
  split; [exact B|].
  unfold swing_counties. rewrite L. simpl.
  rewrite (filterM_ext _ (swing_potential_in ["Very High"; "High"] county_data)).
  2:{ intros a. unfold swing_potential_in.
      destruct (prediction_of county_data a); cbn [bind]; auto.
      destruct (py_get a0 "swing_potential" (VStr "")); cbn [bind]; auto.
      now rewrite py_in_strings_swap. }
  rewrite (@high_swing_filter ["Very High"; "High"] _ _ L ND O)
    by (simpl; intuition discriminate).
  cbn [bind]. rewrite py_sum_ones. eexists. split; [reflexivity|].
  rewrite length_map. split; [reflexivity|].
  split; [lia|]. apply inj_le. unfold names_in. rewrite length_map.
  apply filter_length_le.
Qed.

Lemma battleground_document_order_witness :
  battleground county_data_unknown_category =
    Ok [VStr "Nairobi"; VStr "Kisii"] /\
  swing_counties Compensated county_data_unknown_category = Ok (VInt 2).
Proof.
  destruct (@battleground_document_order Compensated
              county_data_unknown_category _ eq_refl) as (B & n & S & E & _).
  - apply nodupb_NoDup. vm_compute. reflexivity.
  - vm_compute. reflexivity.
  - split; [exact B|]. rewrite S, E. reflexivity.
Defined.

Lemma groupable_optional_prediction (counties : dict value) :
  forallb (fun kv => groupable (snd kv)) counties = true ->
  forallb (fun kv => optional_prediction (snd kv)) counties = true.
Proof.
  rewrite !forallb_forall. intros G kv H. specialize (G kv H).
  unfold groupable in G. unfold optional_prediction.
  destruct (snd kv) as [| | | | |l|d]; try discriminate.
  destruct (dict_lookup "prediction_2027" d) as [[| | | | |l|p]|];
    try discriminate; reflexivity.
Qed.

(** X11: The battleground list and the two top expanders show the same
    counties: a county is on the list exactly when it is in the Very High
    or in the High bucket, and the list is as long as the two buckets
    together. *)
Theorem battleground_matches_swing_groups :
  forall county_data counties,
    county_data.["counties"] = Ok (VDict counties) ->
    NoDup (dict_keys counties) ->
    forallb (fun kv => groupable (snd kv)) counties = true ->
    exists groups listed,
      swing_groups county_data = Ok groups /\
      battleground county_data = Ok listed /\
      Permutation listed
        (map VStr (dict_get "Very High" [] groups ++
                   dict_get "High" [] groups)%list).
Proof.
  intros county_data counties L ND G.
  assert (O : forallb (fun kv => optional_prediction (snd kv)) counties = true)
    by now apply groupable_optional_prediction.
  rewrite (swing_groups_groupable _ L G).
  unfold battleground. rewrite L. cbn [bind py_iter].
  rewrite (@high_swing_filter ["Very High"; "High"] _ _ L ND O)
    by (simpl; intuition discriminate).
  eexists. eexists. split; [reflexivity|]. split; [reflexivity|].
  apply Permutation_map.
  rewrite !bucket_names_with.
  apply (names_in_two "Very High" "High").
Qed.

Lemma battleground_matches_swing_groups_witness :
  exists groups listed,
    swing_groups sample_county_data = Ok groups /\
    battleground sample_county_data = Ok listed /\
    Permutation listed
      (map VStr (dict_get "Very High" [] groups ++
                 dict_get "High" [] groups)%list).
Proof.
  apply (@battleground_matches_swing_groups sample_county_data _ eq_refl).
  - apply nodupb_NoDup. vm_compute. reflexivity.
  - vm_compute. reflexivity.
Defined.

(** ** The youth metrics *)

Lemma total_new_youth_loop county_data counties :
  county_data.["counties"] = Ok (VDict counties) ->
  forall items zs i,
    (forall kv, In kv items ->
       dict_lookup (fst kv) counties = Some (snd kv) /\
       optional_prediction (snd kv) = true) ->
    map (fun kv => new_youth_of (snd kv)) items = map VInt zs ->
    foldM (fun total c =>
             pred <- prediction_of county_data c ;;
             n <- py_get pred "new_youth_voters" (VInt 0) ;;
             py_add total n) (map (fun kv => VStr (fst kv)) items) (VInt i)
    = Ok (VInt (i + Zsum zs)).
Proof.
  intros L. induction items as [|[c info] items IH]; intros zs i H E.
  - destruct zs; [|discriminate]. simpl. now rewrite Z.add_0_r.
  - destruct zs as [|z zs]; [discriminate|]. simpl in E.
    injection E as Ez E. simpl.
    destruct (H (c, info)) as [Hc O]; [simpl; auto|]. simpl in Hc, O.
    rewrite (@prediction_of_item _ _ _ _ L Hc).
    assert (P : (pred <- py_get info "prediction_2027" empty_dict ;;
                 py_get pred "new_youth_voters" (VInt 0)) = Ok (VInt z)).
    { rewrite <- Ez. unfold optional_prediction in O. unfold new_youth_of.
      destruct info as [| | | | |l|d]; try discriminate. simpl. unfold dict_get at 1.
      destruct (dict_lookup "prediction_2027" d) as [[| | | | |l|p]|];
        try discriminate; reflexivity. }
    destruct (py_get info "prediction_2027" empty_dict) as [pred|];
      [|discriminate]. cbn [bind] in P |- *. rewrite P. cbn [bind].
    change (py_add (VInt i) (VInt z)) with (Ok (VInt (i + z))).
    cbn [bind]. rewrite IH with (zs := zs); auto.
    + f_equal. f_equal. lia.
    + intros kv Hkv. apply H. simpl. auto.
Qed.

(** X12: When every county's [new_youth_voters] is an integer or absent,
    the total of new youth voters is the exact sum of the integers, an
    absent figure (or an absent [prediction_2027]) counting as 0. *)
Theorem total_new_youth_exact :
  forall county_data counties zs,
    county_data.["counties"] = Ok (VDict counties) ->
    NoDup (dict_keys counties) ->
    forallb (fun kv => optional_prediction (snd kv)) counties = true ->
    map (fun kv => new_youth_of (snd kv)) counties = map VInt zs ->
    total_new_youth county_data = Ok (VInt (Zsum zs)).
Proof.
  intros county_data counties zs L ND O E.
  unfold total_new_youth. rewrite L. simpl.
  unfold dict_keys. rewrite map_map.
  rewrite (@total_new_youth_loop _ _ L counties zs 0); auto.
  intros [c info] H. simpl. split.
  - apply dict_lookup_NoDup; auto.
  - rewrite forallb_forall in O. apply (O (c, info) H).
Qed.

Lemma total_new_youth_exact_witness :
  total_new_youth county_data_missing_prediction = Ok (VInt 240000).
Proof.
  apply (@total_new_youth_exact county_data_missing_prediction _
           [120000; 0; 120000] eq_refl).
  - apply nodupb_NoDup. vm_compute. reflexivity.
  - vm_compute. reflexivity.
  - vm_compute. reflexivity.
Defined.

(** ** Turnout Trends: the last two elections *)

Lemma turnout_loop_turnouts data lists :
  turnout_loop data = Ok lists ->
  years lists = election_years /\
  mapM (turnout_of data) election_years = Ok (turnouts lists).
Proof.
  intros H. unfold turnout_loop in H.
  destruct (@turnout_loop_inv _ _ _ _ H) as (ts & M & Y & T).
  simpl in Y, T. subst ts. split; [exact Y|exact M].
Qed.

(** X13: The "2022 vs 2017" metric subtracts the right pair: once the
    loop over the five elections has succeeded, [turnouts[-1]] is the
    turnout of 2022 and [turnouts[-2]] is that of 2017. *)
Theorem last_two_turnouts :
  forall data lists,
    turnout_loop data = Ok lists ->
    py_getitem (VList (turnouts lists)) (VInt (-1)) = turnout_of data 2022 /\
    py_getitem (VList (turnouts lists)) (VInt (-2)) = turnout_of data 2017.
Proof.
  intros data lists H.
  destruct (@turnout_loop_turnouts _ _ H) as [_ M].
  unfold election_years in M. cbn [mapM] in M.
  destruct (turnout_of data 2002) as [a|]; [|discriminate]. cbn [bind] in M.
  destruct (turnout_of data 2007) as [b|]; [|discriminate]. cbn [bind] in M.
  destruct (turnout_of data 2013) as [c|]; [|discriminate]. cbn [bind] in M.
  destruct (turnout_of data 2017) as [d|]; [|discriminate]. cbn [bind] in M.
  destruct (turnout_of data 2022) as [e|]; [|discriminate]. cbn [bind] in M.
  injection M as <-. split; reflexivity.
Qed.

Lemma last_two_turnouts_witness :
  exists lists,
    turnout_loop sample_election_data = Ok lists /\
    py_getitem (VList (turnouts lists)) (VInt (-1))
      = Ok (VFloat (json_float 6477 (-2))) /\
    py_getitem (VList (turnouts lists)) (VInt (-2))
      = Ok (VFloat (json_float 7951 (-2))).
Proof.
  destruct (turnout_loop sample_election_data) as [lists|] eqn:E;
    [|vm_compute in E; discriminate E].
  exists lists. split; [reflexivity|].
  destruct (@last_two_turnouts _ _ E) as [-> ->].
  split; reflexivity.
Defined.

Lemma mapM_In_Ok {A B} (f : A -> result B) l l' a :
  mapM f l = Ok l' -> In a l -> exists b, f a = Ok b.
Proof.
  intros H. apply (proj1 (mapM_Ok_iff f l)). eauto.
Qed.

(** ** Regional Patterns: the shape of the frame *)







(** ** County Analysis: a county without results *)

(** X15: For a county record that has neither [results_2017] nor
    [results_2022] the County Analysis page computes zeros instead of
    failing: the turnout change and both vote shifts are 0 and are shown
    as "+0.0%". A [results_2017] that is present but is not a dictionary
    (a JSON null, say) raises [AttributeError]. *)
Theorem county_without_results :
  forall d,
    dict_lookup "results_2022" d = None ->
    (dict_lookup "results_2017" d = None ->
     turnout_change (VDict d) = Ok (VInt 0, VInt 0, VInt 0) /\
     vote_shift (VDict d) = Ok (VInt 0, VInt 0) /\
     vote_shift_metrics (VDict d) = Ok ("+0.0%", "+0.0%")) /\
    (dict_lookup "results_2017" d = Some VNone ->
     turnout_change (VDict d) = Raise AttributeError /\
     vote_shift (VDict d) = Raise AttributeError).
Proof.
  intros d H22. split; intros H17.
  - assert (T : turnout_change (VDict d) = Ok (VInt 0, VInt 0, VInt 0)).
    { unfold turnout_change, py_get, dict_get. now rewrite H22, H17. }
    assert (V : vote_shift (VDict d) = Ok (VInt 0, VInt 0)).
    { unfold vote_shift, py_get, dict_get. now rewrite H22, H17. }
    split; [exact T|]. split; [exact V|].
    unfold vote_shift_metrics. rewrite V. reflexivity.
  - split.
    + unfold turnout_change, py_get, dict_get. now rewrite H22, H17.
    + unfold vote_shift, py_get, dict_get. now rewrite H22, H17.
Qed.

Lemma county_without_results_witness :
  vote_shift_metrics (VDict [("population", VInt 1200000)])
    = Ok ("+0.0%", "+0.0%") /\
  vote_shift (VDict [("results_2017", VNone)]) = Raise AttributeError.
Proof.
  split.
  - apply (proj1 (@county_without_results
                    [("population", VInt 1200000)] eq_refl)).
    reflexivity.
  - apply (proj2 (@county_without_results
                    [("results_2017", VNone)] eq_refl)).
    reflexivity.
Defined.

(** ** National Predictions: more turnout, more votes *)

Lemma projected_votes_ints predictions scenario total turnout :
  predictions.["total_projected_voters"] = Ok (VInt total) ->
  scenario.["turnout"] = Ok (VInt turnout) ->
  0 <= total * turnout < 2 ^ 52 ->
  projected_votes predictions scenario = Ok (total * turnout / 100).
Proof.
  intros Ht Hs R. unfold projected_votes, projected_share.
  rewrite Ht, Hs. cbn [bind].
  change (py_mul (VInt total) (VInt turnout)) with (Ok (VInt (total * turnout))).
  cbn [bind].
  destruct (@py_truediv_int_100 (total * turnout) R) as (q & -> & Hq).
  cbn [bind]. exact Hq.
Qed.

(** X16: With an integer electorate and integer turnout percentages
    between 0 and 100, a scenario with the higher turnout never projects
    fewer votes, and no scenario projects more votes than there are
    voters. *)
Theorem projected_votes_monotone :
  forall predictions s1 s2 total t1 t2,
    predictions.["total_projected_voters"] = Ok (VInt total) ->
    s1.["turnout"] = Ok (VInt t1) ->
    s2.["turnout"] = Ok (VInt t2) ->
    0 <= total -> total * 100 < 2 ^ 52 ->
    0 <= t1 -> t1 <= t2 -> t2 <= 100 ->
    exists v1 v2,
      projected_votes predictions s1 = Ok v1 /\
      projected_votes predictions s2 = Ok v2 /\
      0 <= v1 /\ v1 <= v2 /\ v2 <= total.
Proof.
  intros predictions s1 s2 total t1 t2 Ht H1 H2 T0 T52 A B C.
  exists (total * t1 / 100), (total * t2 / 100).
  assert (R1 : 0 <= total * t1 < 2 ^ 52) by nia.
  assert (R2 : 0 <= total * t2 < 2 ^ 52) by nia.
  split; [now apply projected_votes_ints|].
  split; [now apply projected_votes_ints|].
  split; [apply Z.div_pos; lia|].
  split.
  - apply Z.div_le_mono; nia.
  - apply Z.div_le_upper_bound; nia.
Qed.

Lemma projected_votes_monotone_witness :
  exists v1 v2,
    projected_votes sample_predictions (VDict [("turnout", VInt 55)]) = Ok v1 /\
    projected_votes sample_predictions (VDict [("turnout", VInt 75)]) = Ok v2 /\
    0 <= v1 /\ v1 <= v2 /\ v2 <= 27820000.
Proof.
  apply (@projected_votes_monotone sample_predictions
           (VDict [("turnout", VInt 55)]) (VDict [("turnout", VInt 75)])
           27820000 55 75); try reflexivity; lia.
Defined.

(** ** Pages that stop at the first exception *)

Section PageFacts.

Variable plot : string -> list (string * value) -> result unit.
Variable builtin_max : list value -> result value.
Variable builtin_min : list value -> result value.

(** X17: Turnout Trends needs the record of every one of the five
    elections: if the turnout of any of them cannot be read, the loop
    raises and the page shows nothing but its header. *)
Theorem turnout_trends_needs_all_years :
  forall alg data year,
    In year election_years ->
    (forall turnout, turnout_of data year <> Ok turnout) ->
    exists e,
      turnout_loop data = Raise e /\
      turnout_trends_page plot builtin_max builtin_min alg data =
      ([Header "Voter Turnout Analysis"], Raise e).
Proof.
  intros alg data year Hy Hn.
  destruct (turnout_loop data) as [lists|e] eqn:E.
  - exfalso. destruct (@turnout_loop_turnouts _ _ E) as [_ M].
    destruct (@mapM_In_Ok _ _ _ _ _ year M Hy) as [t Ht].
    exact (Hn t Ht).
  - exists e. split; [reflexivity|].
    unfold turnout_trends_page. rewrite E. reflexivity.
Qed.

(** X18: Historical Results reads the record of the selected year only:
    two election documents that agree on that record give the same page,
    whatever the other years hold; and when the selected year has no
    record the page shows its header and raises [KeyError] with the year
    as a string. *)
Theorem historical_results_selected_year_only :
  forall data year,
    (forall data',
       (elections <- data.["elections"] ;; elections.[int_to_string year]) =
       (elections <- data'.["elections"] ;; elections.[int_to_string year]) ->
       historical_results_page plot data year =
       historical_results_page plot data' year) /\
    (forall elections,
       data.["elections"] = Ok (VDict elections) ->
       dict_lookup (int_to_string year) elections = None ->
       historical_results_page plot data year =
       ([Header "Historical Election Results (2002-2022)"],
        Raise (KeyError (VStr (int_to_string year))))).
Proof.
  intros data year. split.
  - intros data' H. unfold historical_results_page. now rewrite H.
  - intros elections E L.
    unfold historical_results_page. rewrite E. cbn [bind].
    unfold py_getitem. rewrite L. reflexivity.
Qed.

(** X19: County Predictions on a document with no counties: the total of
    new youth voters is shown as 0.0M and the number of swing counties as
    0, then the average youth share divides by zero and the page stops. *)
Theorem county_predictions_no_counties :
  forall alg county_data,
    county_data.["counties"] = Ok (VDict []) ->
    avg_youth alg county_data = Raise ZeroDivisionError /\
    county_predictions_page plot alg county_data =
    ([Header "County-Level Predictions for 2027";
      Markdown [Lit "Based on demographic trends, historical voting patterns, and youth population growth,"];
      Metric "Total New Youth Voters" [Lit "0.0"; Lit "M"] (Some "All 47 counties");
      Metric "Swing Counties" [Str (VInt 0)] (Some "High/Very High potential")],
     Raise ZeroDivisionError).
Proof.
  intros alg county_data L.
  assert (A : avg_youth alg county_data = Raise ZeroDivisionError).
  { unfold avg_youth. rewrite L. cbn [bind py_iter dict_keys map mapM].
    destruct alg; reflexivity. }
  split; [exact A|].
  unfold county_predictions_page.
  assert (T : total_new_youth county_data = Ok (VInt 0)).
  { unfold total_new_youth. rewrite L. reflexivity. }
  assert (S : swing_counties alg county_data = Ok (VInt 0)).
  { unfold swing_counties. rewrite L. cbn [bind py_iter dict_keys map filterM].
    destruct alg; reflexivity. }
  rewrite T, S, A. reflexivity.
Qed.

End PageFacts.

Lemma turnout_trends_needs_all_years_witness :
  exists e,
    turnout_loop election_data_without_2013 = Raise e /\
    turnout_trends_page sample_plot sample_first sample_first LeftToRight
      election_data_without_2013 =
    ([Header "Voter Turnout Analysis"], Raise e).
Proof.
  apply (@turnout_trends_needs_all_years sample_plot sample_first sample_first
           LeftToRight election_data_without_2013 2013).
  - simpl. auto.
  - intros turnout H. vm_compute in H. discriminate H.
Defined.

Lemma historical_results_selected_year_only_witness :
  historical_results_page sample_plot election_data_without_2013 2022 =
  historical_results_page sample_plot
    (election_data_with (map VInt [57; 69; 86; 80; 65]) None) 2022 /\
  historical_results_page sample_plot election_data_without_2013 2013 =
  ([Header "Historical Election Results (2002-2022)"],
   Raise (KeyError (VStr "2013"))).
Proof.
  split.
  - apply (proj1 (@historical_results_selected_year_only sample_plot
                    election_data_without_2013 2022)).
    reflexivity.
  - apply (proj2 (@historical_results_selected_year_only sample_plot
                    election_data_without_2013 2013) _ eq_refl).
    reflexivity.
Defined.

Lemma county_predictions_no_counties_witness :
  avg_youth Compensated (VDict [("counties", VDict [])])
    = Raise ZeroDivisionError.
Proof.
  apply (@county_predictions_no_counties sample_plot Compensated
           (VDict [("counties", VDict [])]) eq_refl).
Defined.

(** ** The script as a whole *)

Lemma insert_sorted_In x s l : In x (insert_sorted s l) <-> x = s \/ In x l.
Proof.
  induction l as [|t l IH]; simpl.
  - intuition.
  - destruct (String.leb s t); simpl; rewrite ?IH; intuition.
Qed.

Lemma sorted_strings_In x l : In x (sorted_strings l) <-> In x l.
Proof.
  unfold sorted_strings. induction l as [|s l IH]; simpl; [tauto|].
  rewrite insert_sorted_In, IH. intuition.
Qed.

(** X20: Every county that the selector of the County Analysis page
    offers has a record: the subscript that follows the selection never
    raises [KeyError]. *)
Theorem selected_county_has_record :
  forall county_data counties index name,
    county_data.["counties"] = Ok (VDict counties) ->
    nth_error (sorted_strings (dict_keys counties)) index = Some name ->
    exists county_info,
      (cs <- county_data.["counties"] ;; py_getitem cs (VStr name))
        = Ok county_info /\
      In (name, county_info) counties.
Proof.
  intros county_data counties index name L H.
  apply nth_error_In in H. apply (proj1 (sorted_strings_In _ _)) in H.
  destruct (dict_lookup_In _ _ H) as [info Hi].
  exists info. rewrite L. cbn [bind]. simpl. rewrite Hi.
  split; [reflexivity|]. now apply dict_lookup_Some_In.
Qed.

Lemma selected_county_has_record_witness :
  exists county_info,
    (cs <- sample_county_data.["counties"] ;; py_getitem cs (VStr "Baringo"))
      = Ok county_info /\
    In ("Baringo", county_info) (county_records sample_county_data).
Proof.
  apply (@selected_county_has_record sample_county_data _ 0%nat "Baringo" eq_refl).
  vm_compute. reflexivity.
Defined.

(** X21: The names that the County Predictions page collects are keys of
    the document: every county in a bucket and every county on the
    battleground list has a record, so the subscripts of the cards that
    follow never raise [KeyError]. *)
Theorem listed_counties_have_records :
  forall county_data counties,
    county_data.["counties"] = Ok (VDict counties) ->
    NoDup (dict_keys counties) ->
    forallb (fun kv => groupable (snd kv)) counties = true ->
    exists groups listed,
      swing_groups county_data = Ok groups /\
      battleground county_data = Ok listed /\
      (forall level c, In c (dict_get level [] groups) ->
         exists county_info,
           (cs <- county_data.["counties"] ;; cs.[c]) = Ok county_info) /\
      (forall c, In c listed ->
         exists county_info,
           (cs <- county_data.["counties"] ;; py_getitem cs c) = Ok county_info).
Proof.
  intros county_data counties L ND G.
  assert (O : forallb (fun kv => optional_prediction (snd kv)) counties = true)
    by now apply groupable_optional_prediction.
  assert (K : forall c, In c (dict_keys counties) ->
            exists county_info,
              (cs <- county_data.["counties"] ;; cs.[c]) = Ok county_info).
  { intros c H. destruct (dict_lookup_In _ _ H) as [info Hi].
    exists info. rewrite L. cbn [bind]. simpl. now rewrite Hi. }
  assert (B : battleground county_data =
              Ok (map VStr (names_in ["Very High"; "High"] counties))).
  { unfold battleground. rewrite L. cbn [bind py_iter].
    apply high_swing_filter; auto. simpl. intuition discriminate. }
  eexists. eexists.
  split; [exact (swing_groups_groupable _ L G)|]. split; [exact B|]. split.
  - intros level c H. rewrite bucket_names_with in H.
    destruct (existsb (String.eqb level) swing_levels); [|destruct H].
    apply names_with_In in H. destruct H as (info & H & _).
    apply K. apply in_map_iff. exists (c, info). auto.
  - intros c H. apply in_map_iff in H. destruct H as (name & <- & H).
    apply K. unfold names_in in H. apply in_map_iff in H.
    destruct H as (kv & <- & H). apply filter_In in H.
    apply in_map_iff. exists kv. tauto.
Qed.

Lemma listed_counties_have_records_witness :
  exists groups listed,
    swing_groups sample_county_data = Ok groups /\
    battleground sample_county_data = Ok listed /\
    (forall level c, In c (dict_get level [] groups) ->
       exists county_info,
         (cs <- sample_county_data.["counties"] ;; cs.[c]) = Ok county_info) /\
    (forall c, In c listed ->
       exists county_info,
         (cs <- sample_county_data.["counties"] ;; py_getitem cs c)
           = Ok county_info).
Proof.
  apply (@listed_counties_have_records sample_county_data _ eq_refl).
  - apply nodupb_NoDup. vm_compute. reflexivity.
  - vm_compute. reflexivity.
Defined.

Section ScriptFacts.

Variable json_loads : string -> parse_result.
Variable plot : string -> list (string * value) -> result unit.
Variable builtin_max : list value -> result value.
Variable builtin_min : list value -> result value.
Variable sorted_by_value_desc :
  list (string * value) -> result (list (string * value)).
Variable files : string -> option string.

(** X22: The two statistical documents are loaded without a handler: if
    either cannot be loaded the script stops with the loader's exception
    before the sidebar, the title, the page and the footer; only the
    style block has been shown. *)
Theorem statistics_load_failure_is_fatal :
  forall alg sel e,
    (load_election_data json_loads files = Raise e \/
     (exists data, load_election_data json_loads files = Ok data) /\
     load_county_data json_loads files = Raise e) ->
    app json_loads plot builtin_max builtin_min sorted_by_value_desc files
      alg sel = ([Markdown [Lit "<style>"]], Raise e).
Proof.
  intros alg sel e [H | [[data Hd] H]]; unfold app.
  - rewrite H. reflexivity.
  - rewrite Hd, H. reflexivity.
Qed.

(** X23: Once the documents are loaded, a run shows the style block, the
    message of the boundary loader if any, the sidebar, the title and the
    elements of the selected page; the footer follows exactly when the
    page ends without an exception, and an exception of the page is the
    result of the run. *)
Theorem footer_only_after_page :
  forall alg sel data county_data messages kenya_geojson,
    load_election_data json_loads files = Ok data ->
    load_county_data json_loads files = Ok county_data ->
    load_geojson json_loads files = (messages, Ok kenya_geojson) ->
    let shown := render_page plot builtin_max builtin_min sorted_by_value_desc
                   alg sel data county_data kenya_geojson in
    let before :=
      (Markdown [Lit "<style>"] :: messages ++ fst sidebar ++
       [Title "🇰🇪 Kenya Presidential Elections Analysis (2002-2027)"] ++
       fst shown)%list in
    app json_loads plot builtin_max builtin_min sorted_by_value_desc files
      alg sel =
    match snd shown with
    | Ok _ => ((before ++ fst footer)%list, Ok tt)
    | Raise e => (before, Raise e)
    end.
Proof.
  intros alg sel data county_data messages kenya_geojson Hd Hc Hg shown before.
  unfold app. rewrite Hd, Hc, Hg. subst before.
  cbv beta iota delta [bindR lift emit fst snd sidebar footer].
  change (render_page plot builtin_max builtin_min sorted_by_value_desc
            alg sel data county_data kenya_geojson) with shown.
  clearbody shown.
  destruct shown as [es [[]|e]]; unfold bindR; simpl;
    repeat (rewrite <- app_assoc; simpl); reflexivity.
Qed.

(** X24: A boundary document that parses to the JSON value [null] is
    loaded without any message, and the Interactive Map then reports the
    file as not found. *)
Theorem null_boundary_document :
  forall alg sel data county_data content,
    load_election_data json_loads files = Ok data ->
    load_county_data json_loads files = Ok county_data ->
    files "kenya_counties.geojson" = Some content ->
    json_loads content = Parsed VNone ->
    sel_page sel = InteractiveMap ->
    load_geojson json_loads files = ([], Ok VNone) /\
    app json_loads plot builtin_max builtin_min sorted_by_value_desc files
      alg sel =
    ((Markdown [Lit "<style>"] :: fst sidebar ++
      [Title "🇰🇪 Kenya Presidential Elections Analysis (2002-2027)";
       Header "Interactive County Map of Kenya";
       Error [Lit "GeoJSON file not found. Map visualization is unavailable."];
       Info "The map requires kenya_counties.geojson file to display county boundaries."]
      ++ fst footer)%list, Ok tt).
Proof.
  intros alg sel data county_data content Hd Hc Hf Hj Hp.
  assert (G : load_geojson json_loads files = ([], Ok VNone)).
  { unfold load_geojson, load_json. rewrite Hf, Hj. reflexivity. }
  split; [exact G|].
  unfold app. rewrite Hd, Hc, G. unfold render_page. rewrite Hp.
  reflexivity.
Qed.

Ltac quiet_parts :=
  cbv zeta;
  repeat first
    [ apply quiet_lift
    | apply quiet_done
    | apply quiet_st_plot
    | apply quiet_emit; exact I
    | apply quiet_forR; intros
    | apply quiet_bind; [|intros] ].

(** X25: With a boundary document loaded, the Interactive Map never shows
    an error element of its own; if the rows cannot be built, the page
    stops after the header and the view selector with the exception of
    the loop, before any chart. *)
Theorem map_rows_failure_stops_page :
  forall county_data kenya_geojson view,
    kenya_geojson <> VNone ->
    quiet (interactive_map_page plot county_data kenya_geojson view) /\
    forall e,
      map_data county_data = Raise e ->
      interactive_map_page plot county_data kenya_geojson view =
      ([Header "Interactive County Map of Kenya";
        Subheader [Lit "Select Map View"]], Raise e).
Proof.
  intros county_data kenya_geojson view N. split.
  - unfold interactive_map_page.
    destruct kenya_geojson; try congruence; quiet_parts.
  - intros e H. unfold interactive_map_page. rewrite H.
    destruct kenya_geojson; try congruence; reflexivity.
Qed.

(** X26: County Analysis on a document with no counties: the selector has
    nothing to offer, its value is [None], and the subscript raises
    [KeyError(None)] right after the introduction. *)
Theorem county_analysis_no_counties :
  forall county_data index,
    county_data.["counties"] = Ok (VDict []) ->
    county_analysis_page plot county_data index =
    ([Header "County-Level Electoral Analysis";
      Markdown [Lit "This section provides detailed analysis of voting patterns in all 47 counties across Kenya,"]],
     Raise (KeyError VNone)).
Proof.
  intros county_data index L. unfold county_analysis_page.
  rewrite L. destruct index; reflexivity.
Qed.

End ScriptFacts.

Lemma statistics_load_failure_is_fatal_witness :
  app sample_json_loads sample_plot sample_first sample_first sample_sorted
    no_files LeftToRight map_selection
  = ([Markdown [Lit "<style>"]], Raise FileNotFoundError).
Proof.
  apply statistics_load_failure_is_fatal. left. reflexivity.
Defined.

Lemma footer_only_after_page_witness :
  snd (app sample_json_loads sample_plot sample_first sample_first
         sample_sorted sample_files LeftToRight turnout_selection) = Ok tt /\
  snd (app sample_json_loads sample_plot sample_first sample_first
         sample_sorted files_with_wrong_election_document
         LeftToRight turnout_selection)
  = Raise (KeyError (VStr "elections")).
Proof.
  split.
  - rewrite (@footer_only_after_page sample_json_loads sample_plot sample_first
               sample_first sample_sorted sample_files LeftToRight
               turnout_selection _ _ _ _ eq_refl eq_refl eq_refl).
    vm_compute. reflexivity.
  - rewrite (@footer_only_after_page sample_json_loads sample_plot sample_first
               sample_first sample_sorted files_with_wrong_election_document
               LeftToRight turnout_selection _ _ _ _ eq_refl eq_refl eq_refl).
    vm_compute. reflexivity.
Defined.

Lemma null_boundary_document_witness :
  load_geojson json_loads_with_null files_with_null_boundary = ([], Ok VNone).
Proof.
  apply (@null_boundary_document json_loads_with_null sample_plot sample_first
           sample_first sample_sorted files_with_null_boundary LeftToRight
           map_selection _ _ "null" eq_refl eq_refl eq_refl eq_refl eq_refl).
Defined.

Lemma map_rows_failure_stops_page_witness :
  interactive_map_page sample_plot county_data_missing_prediction (VDict [])
    SwingPotential =
  ([Header "Interactive County Map of Kenya";
    Subheader [Lit "Select Map View"]],
   Raise (KeyError (VStr "prediction_2027"))).
Proof.
  apply (@map_rows_failure_stops_page sample_plot
           county_data_missing_prediction (VDict []) SwingPotential).
  - discriminate.
  - vm_compute. reflexivity.
Defined.

Lemma county_analysis_no_counties_witness :
  county_analysis_page sample_plot (VDict [("counties", VDict [])]) 0 =
  ([Header "County-Level Electoral Analysis";
    Markdown [Lit "This section provides detailed analysis of voting patterns in all 47 counties across Kenya,"]],
   Raise (KeyError VNone)).
Proof.
  apply county_analysis_no_counties. reflexivity.
Defined.
